(** * The chat engine of broadcast-box-chat: a shallow embedding

    The Go package [chat] (ring buffer, room, manager, rate limiter and
    WebSocket session) is transcribed function by function.  A Go panic
    (index out of range, division by zero, negative [make]) is [None];
    a call that blocks for ever on a lock is [Blocked]. *)

From Stdlib Require Import ZArith Lia Floats Uint63 Ascii String.
From stdpp Require Import gmap strings list fin_maps.

#[local] Open Scope Z_scope.

(** ** Go integers and the [time] package *)

Module Go.

(** [int] and [int64] are 64-bit two's complement. *)
Definition min_int64 : Z := - 2 ^ 63.
Definition max_int64 : Z := 2 ^ 63 - 1.
Definition wrap64 (z : Z) : Z := (z + 2 ^ 63) mod 2 ^ 64 - 2 ^ 63.
Definition is_int (z : Z) : Prop := min_int64 ≤ z ≤ max_int64.

(** [a % b]: truncated remainder, panics on a zero divisor. *)
Definition rem (a b : Z) : option Z :=
  if b =? 0 then None else Some (Z.rem a b).

(** [a / b] on int: truncated quotient, panics on a zero divisor. *)
Definition div (a b : Z) : option Z :=
  if b =? 0 then None else Some (wrap64 (Z.quot a b)).

(** [l[i]] and [l[i] = x] with Go's bounds check. *)
Definition index {A} (l : list A) (i : Z) : option A :=
  if i <? 0 then None else l !! Z.to_nat i.

Definition store {A} (l : list A) (i : Z) (x : A) : option (list A) :=
  if (0 <=? i) && (i <? Z.of_nat (length l))
  then Some (<[Z.to_nat i := x]> l) else None.

(** [len(s)] of a string is its number of bytes. *)
Definition len (s : string) : Z := Z.of_nat (String.length s).

(** A [time.Time] is an instant on the nanosecond line, counted from the
    zero [Time] (January 1, year 1); a [time.Duration] is an int64 count
    of nanoseconds. *)
Definition Time := Z.
Definition Duration := Z.
Definition zeroTime : Time := 0.
Definition Second : Duration := 1000000000.
Definition Minute : Duration := 60 * Second.

Definition After (t u : Time) : bool := u <? t.
Definition Before (t u : Time) : bool := t <? u.
Definition Add (t : Time) (d : Duration) : Time := t + d.
(** [-d] on a [Duration]: every int64 but the least has its negation in
    range; the negation of the least wraps around to the least itself. *)
Definition neg (d : Duration) : Duration := if d =? min_int64 then min_int64 else - d.
(** [t.Sub(u)] saturates at the ends of int64. *)
Definition Sub (t u : Time) : Duration :=
  Z.max min_int64 (Z.min max_int64 (t - u)).

(** [float64(n)] of an int64: the nearest binary64 number. *)
Definition float64 (n : Z) : float :=
  if n =? min_int64 then PrimFloat.opp 0x1p63%float
  else if n <? 0 then PrimFloat.opp (PrimFloat.of_uint63 (Uint63.of_Z (- n)))
  else PrimFloat.of_uint63 (Uint63.of_Z n).

End Go.

(** ** types.go: messages and the ring buffer *)

Module Msg.
Record ChatMessage := {
  ID : string;
  StreamKey : string;
  UserID : string;
  Username : string;
  Message : string;
  Timestamp : Go.Time
}.
End Msg.
Abbreviation ChatMessage := Msg.ChatMessage.

Module User.
Record ChatUser := {
  UserID : string;
  Username : string;
  ConnectedAt : Go.Time;
  LastMessage : Go.Time;
  MessageCount : Z;
  CharCount : Z;
  TimeoutUntil : Go.Time;
  Violations : Z;
  IsActive : bool
}.
End User.
Abbreviation ChatUser := User.ChatUser.

Module Buffer.

Record CircularBuffer := {
  data : list ChatMessage;
  maxSize : Z;
  head : Z;
  tail : Z;
  size : Z
}.

(** The zero value that [make] fills the slice with. *)
Definition zeroMessage : ChatMessage :=
  {| Msg.ID := EmptyString; Msg.StreamKey := EmptyString; Msg.UserID := EmptyString; Msg.Username := EmptyString;
     Msg.Message := EmptyString; Msg.Timestamp := Go.zeroTime |}.

Definition NewCircularBuffer (maxSize : Z) : option CircularBuffer :=
  if maxSize <? 0 then None
  else Some {| data := replicate (Z.to_nat maxSize) zeroMessage;
               maxSize := maxSize; head := 0; tail := 0; size := 0 |}.

Definition Add (cb : CircularBuffer) (msg : ChatMessage) : option CircularBuffer :=
  data' ← Go.store (data cb) (tail cb) msg;
  tail' ← Go.rem (tail cb + 1) (maxSize cb);
  if size cb <? maxSize cb then
    Some {| data := data'; maxSize := maxSize cb; head := head cb;
            tail := tail'; size := size cb + 1 |}
  else
    head' ← Go.rem (head cb + 1) (maxSize cb);
    Some {| data := data'; maxSize := maxSize cb; head := head';
            tail := tail'; size := size cb |}.

(** The copy loop shared by [GetAll] and [GetRecent]:
    [result[i] = data[(head + start + i) % maxSize]] for [i < count];
    [make] panics on a negative [count]. *)
Definition copy_out (cb : CircularBuffer) (start count : Z) : option (list ChatMessage) :=
  if count <? 0 then None
  else mapM (λ i, idx ← Go.rem (head cb + start + i) (maxSize cb);
                  Go.index (data cb) idx)
            (seqZ 0 count).

Definition GetAll (cb : CircularBuffer) : option (list ChatMessage) :=
  if size cb =? 0 then Some []
  else copy_out cb 0 (size cb).

Definition GetRecent (cb : CircularBuffer) (n : Z) : option (list ChatMessage) :=
  if size cb =? 0 then Some []
  else
    let count := if n >? size cb then size cb else n in
    let startIdx := size cb - count in
    copy_out cb startIdx count.

Definition Size (cb : CircularBuffer) : Z := size cb.

Definition Clear (cb : CircularBuffer) : CircularBuffer :=
  {| data := data cb; maxSize := maxSize cb; head := 0; tail := 0; size := 0 |}.

(** The loop [for cb.size > 0] of [RemoveOlderThan]; every turn lowers
    [size], so [size] turns of fuel are never used up. *)
Fixpoint remove_loop (fuel : nat) (cb : CircularBuffer) (cutoff : Go.Time) (removed : Z)
  : option (CircularBuffer * Z) :=
  match fuel with
  | O => Some (cb, removed)
  | S fuel' =>
      if size cb >? 0 then
        msg ← Go.index (data cb) (head cb);
        if Go.After (Msg.Timestamp msg) cutoff then Some (cb, removed)
        else
          head' ← Go.rem (head cb + 1) (maxSize cb);
          remove_loop fuel'
            {| data := data cb; maxSize := maxSize cb; head := head';
               tail := tail cb; size := size cb - 1 |}
            cutoff (removed + 1)
      else Some (cb, removed)
  end.

Definition RemoveOlderThan (cb : CircularBuffer) (duration : Go.Duration) (now : Go.Time)
  : option (CircularBuffer * Z) :=
  if size cb =? 0 then Some (cb, 0)
  else remove_loop (Z.to_nat (size cb)) cb (Go.Add now (Go.neg duration)) 0.

(** The representation invariant every buffer built by
    [NewCircularBuffer] with a positive capacity keeps. *)
Definition wf (cb : CircularBuffer) : Prop :=
  0 < maxSize cb ∧
  length (data cb) = Z.to_nat (maxSize cb) ∧
  0 ≤ head cb < maxSize cb ∧
  0 ≤ size cb ≤ maxSize cb ∧
  tail cb = (head cb + size cb) mod maxSize cb.

(** What a snapshot of a well-formed buffer is: slot [head + i], wrapped. *)
Definition snapshot_of (cb : CircularBuffer) (l : list ChatMessage) : Prop :=
  length l = Z.to_nat (size cb) ∧
  ∀ i : nat, (i < length l)%nat →
    l !! i = data cb !! Z.to_nat ((head cb + Z.of_nat i) mod maxSize cb).

(** A run of appends. *)
Fixpoint Adds (cb : CircularBuffer) (msgs : list ChatMessage) : option CircularBuffer :=
  match msgs with
  | [] => Some cb
  | m :: rest => cb' ← Add cb m; Adds cb' rest
  end.

(** The last [c] elements of a list. *)
Definition lastn {A} (c : nat) (l : list A) : list A := drop (length l - c) l.

End Buffer.

(** ** types.go: the room *)

Module Room.

Record ChatRoom := {
  StreamKey : string;
  Messages : Buffer.CircularBuffer;
  Users : gmap string ChatUser;
  LastActivity : Go.Time;
  MessageCount : Z;
  BytesUsed : Z
}.

Definition NewChatRoom (streamKey : string) (maxMessages : Z) (now : Go.Time)
  : option ChatRoom :=
  buf ← Buffer.NewCircularBuffer maxMessages;
  Some {| StreamKey := streamKey; Messages := buf; Users := ∅;
          LastActivity := now; MessageCount := 0; BytesUsed := 0 |}.

(** The byte estimate of [AddMessage]: the five string lengths plus 100. *)
Definition msgSize (msg : ChatMessage) : Z :=
  Go.len (Msg.ID msg) + Go.len (Msg.StreamKey msg) + Go.len (Msg.UserID msg) +
  Go.len (Msg.Username msg) + Go.len (Msg.Message msg) + 100.

Definition AddMessage (cr : ChatRoom) (msg : ChatMessage) (now : Go.Time)
  : option ChatRoom :=
  buf ← Buffer.Add (Messages cr) msg;
  Some {| StreamKey := StreamKey cr; Messages := buf; Users := Users cr;
          LastActivity := now;
          MessageCount := Go.wrap64 (MessageCount cr + 1);
          BytesUsed := Go.wrap64 (BytesUsed cr + msgSize msg) |}.

Definition GetMessages (cr : ChatRoom) (recentN : Z) : option (list ChatMessage) :=
  if recentN >? 0 then Buffer.GetRecent (Messages cr) recentN
  else Buffer.GetAll (Messages cr).

Definition AddUser (cr : ChatRoom) (user : ChatUser) (now : Go.Time) : ChatRoom :=
  {| StreamKey := StreamKey cr; Messages := Messages cr;
     Users := <[User.UserID user := user]> (Users cr);
     LastActivity := now; MessageCount := MessageCount cr;
     BytesUsed := BytesUsed cr |}.

Definition RemoveUser (cr : ChatRoom) (userID : string) : ChatRoom :=
  {| StreamKey := StreamKey cr; Messages := Messages cr;
     Users := delete userID (Users cr);
     LastActivity := LastActivity cr; MessageCount := MessageCount cr;
     BytesUsed := BytesUsed cr |}.

Definition UserCount (cr : ChatRoom) : Z := Z.of_nat (size (Users cr)).

Definition GetUser (cr : ChatRoom) (userID : string) : option ChatUser :=
  Users cr !! userID.

(** The order of [range] over a Go map is unspecified; the model lists
    the users in the order of the map's keys. *)
Definition GetAllUsers (cr : ChatRoom) : list ChatUser :=
  (map_to_list (Users cr)).*2.

Definition avgMessageSize : Z := 500.

Definition CleanupOldMessages (cr : ChatRoom) (retention : Go.Duration) (now : Go.Time)
  : option (ChatRoom * Z) :=
  '(buf, removed) ← Buffer.RemoveOlderThan (Messages cr) retention now;
  let bytes :=
    if removed >? 0 then
      let b := Go.wrap64 (BytesUsed cr - Go.wrap64 (removed * avgMessageSize)) in
      if b <? 0 then 0 else b
    else BytesUsed cr in
  Some ({| StreamKey := StreamKey cr; Messages := buf; Users := Users cr;
           LastActivity := LastActivity cr; MessageCount := MessageCount cr;
           BytesUsed := bytes |}, removed).

End Room.

(** ** config.go and the error values of manager.go *)

Record ChatConfig := {
  MaxTotalMemoryMB : Z;
  MaxMessagesPerStream : Z;
  MaxUsersPerStream : Z;
  MessageRetentionMinutes : Z;
  CleanupIntervalMinutes : Z;
  InactiveStreamTimeout : Go.Duration;
  MaxMessagesPerMinute : Z;
  MaxCharactersPerMessage : Z;
  SpamThresholdMessages : Z;
  SpamTimeoutMinutes : Z;
  EnableViewerList : bool;
  EnableMentions : bool;
  EnableTypingStatus : bool;
  EnableEmojis : bool
}.

Definition DefaultConfig : ChatConfig := {|
  MaxTotalMemoryMB := 100;
  MaxMessagesPerStream := 500;
  MaxUsersPerStream := 100;
  MessageRetentionMinutes := 30;
  CleanupIntervalMinutes := 5;
  InactiveStreamTimeout := 10 * Go.Minute;
  MaxMessagesPerMinute := 10;
  MaxCharactersPerMessage := 500;
  SpamThresholdMessages := 20;
  SpamTimeoutMinutes := 5;
  EnableViewerList := true;
  EnableMentions := true;
  EnableTypingStatus := false;
  EnableEmojis := true
|}.

Module Config.

(** The map [CalculateCapacity] returns, field by field. *)
Record Capacity := {
  max_memory_mb : Z;
  max_messages_per_stream : Z;
  max_users_per_stream : Z;
  estimated_max_streams : Z;
  total_message_capacity : Z;
  avg_message_size_bytes : Z;
  memory_per_stream_kb : Z
}.

Definition CalculateCapacity (c : ChatConfig) : option Capacity :=
  let avgMessageSize := 500 in
  let avgUserSize := 200 in
  let totalMemoryBytes := Go.wrap64 (Go.wrap64 (MaxTotalMemoryMB c * 1024) * 1024) in
  let userMemoryPerStream := Go.wrap64 (MaxUsersPerStream c * avgUserSize) in
  let messageMemoryPerStream := Go.wrap64 (MaxMessagesPerStream c * avgMessageSize) in
  let totalPerStream := Go.wrap64 (messageMemoryPerStream + userMemoryPerStream) in
  maxStreams ← Go.div totalMemoryBytes totalPerStream;
  perStreamKB ← Go.div totalPerStream 1024;
  Some {| max_memory_mb := MaxTotalMemoryMB c;
          max_messages_per_stream := MaxMessagesPerStream c;
          max_users_per_stream := MaxUsersPerStream c;
          estimated_max_streams := maxStreams;
          total_message_capacity := Go.wrap64 (maxStreams * MaxMessagesPerStream c);
          avg_message_size_bytes := avgMessageSize;
          memory_per_stream_kb := perStreamKB |}.

Section Environment.

(** [strconv.Atoi] of the Go library: the parsed number, or nothing when
    it reports an error. *)
Variable Atoi : string → option Z.

(** [os.Getenv]: the empty string when the variable is not set. *)
Definition Getenv (env : gmap string string) (key : string) : string :=
  default EmptyString (env !! key).

(** [if val := os.Getenv(key); val != "" { if parsed, err := Atoi(val);
    err == nil { field = parsed } }]. *)
Definition intVar (env : gmap string string) (key : string) (field : Z) : Z :=
  let val := Getenv env key in
  if String.eqb val EmptyString then field
  else match Atoi val with
       | Some parsed => parsed
       | None => field
       end.

(** [if val := os.Getenv(key); val != "" { field = val == "true" }]. *)
Definition boolVar (env : gmap string string) (key : string) (field : bool) : bool :=
  let val := Getenv env key in
  if String.eqb val EmptyString then field else String.eqb val "true".

Definition LoadFromEnv (env : gmap string string) : ChatConfig :=
  let config := DefaultConfig in
  {| MaxTotalMemoryMB := intVar env "CHAT_MAX_MEMORY_MB" (MaxTotalMemoryMB config);
     MaxMessagesPerStream :=
       intVar env "CHAT_MAX_MESSAGES_PER_STREAM" (MaxMessagesPerStream config);
     MaxUsersPerStream :=
       intVar env "CHAT_MAX_USERS_PER_STREAM" (MaxUsersPerStream config);
     MessageRetentionMinutes :=
       intVar env "CHAT_MESSAGE_RETENTION_MINUTES" (MessageRetentionMinutes config);
     CleanupIntervalMinutes :=
       intVar env "CHAT_CLEANUP_INTERVAL_MINUTES" (CleanupIntervalMinutes config);
     InactiveStreamTimeout := InactiveStreamTimeout config;
     MaxMessagesPerMinute :=
       intVar env "CHAT_MAX_MESSAGES_PER_MINUTE" (MaxMessagesPerMinute config);
     MaxCharactersPerMessage :=
       intVar env "CHAT_MAX_CHARACTERS_PER_MESSAGE" (MaxCharactersPerMessage config);
     SpamThresholdMessages :=
       intVar env "CHAT_SPAM_THRESHOLD_MESSAGES" (SpamThresholdMessages config);
     SpamTimeoutMinutes :=
       intVar env "CHAT_SPAM_TIMEOUT_MINUTES" (SpamTimeoutMinutes config);
     EnableViewerList := boolVar env "CHAT_ENABLE_VIEWER_LIST" (EnableViewerList config);
     EnableMentions := boolVar env "CHAT_ENABLE_MENTIONS" (EnableMentions config);
     EnableTypingStatus :=
       boolVar env "CHAT_ENABLE_TYPING_STATUS" (EnableTypingStatus config);
     EnableEmojis := boolVar env "CHAT_ENABLE_EMOJIS" (EnableEmojis config) |}.

End Environment.

End Config.

Record ChatError := { Code : string; Message : string }.

Definition ErrRoomFull : ChatError :=
  {| Code := "ROOM_FULL"; Message := "Chat room is full" |}.

(** ** ratelimit.go

    One call of the limiter runs under its mutex; the model takes every
    [time.Now()] the call reads at the one instant [now]. *)

Module Limiter.

Record UserRateRecord := {
  UserID : string;
  Messages : list Go.Time;
  MessageContents : list string;
  CharCountHistory : list Z;
  TimeoutUntil : Go.Time;
  Violations : Z;
  LastCleanup : Go.Time
}.

Record RateLimiter := {
  config : ChatConfig;
  userRecords : gmap string UserRateRecord
}.

Definition NewRateLimiter (config : ChatConfig) : RateLimiter :=
  {| config := config; userRecords := ∅ |}.

Definition newRecord (userID : string) (now : Go.Time) : UserRateRecord :=
  {| UserID := userID; Messages := []; MessageContents := [];
     CharCountHistory := []; TimeoutUntil := Go.zeroTime; Violations := 0;
     LastCleanup := now |}.

Definition getOrCreateRecord (rl : RateLimiter) (userID : string) (now : Go.Time)
  : RateLimiter * UserRateRecord :=
  match userRecords rl !! userID with
  | Some record => (rl, record)
  | None =>
      let record := newRecord userID now in
      ({| config := config rl;
          userRecords := <[userID := record]> (userRecords rl) |}, record)
  end.

Definition recordMessage (r : UserRateRecord) (content : string) (charCount : Z)
  (now : Go.Time) : UserRateRecord :=
  {| UserID := UserID r;
     Messages := Messages r ++ [now];
     MessageContents := MessageContents r ++ [content];
     CharCountHistory := CharCountHistory r ++ [charCount];
     TimeoutUntil := TimeoutUntil r; Violations := Violations r;
     LastCleanup := LastCleanup r |}.

Definition countMessagesInWindow (r : UserRateRecord) (window : Go.Duration)
  (now : Go.Time) : Z :=
  let cutoff := Go.Add now (Go.neg window) in
  fold_left (λ count timestamp,
               if Go.After timestamp cutoff then count + 1 else count)
            (Messages r) 0.

(** [for i, timestamp := range r.Messages]. *)
Definition indexed {A} (l : list A) : list (nat * A) := zip (seq 0 (length l)) l.

Definition countCharsInWindow (r : UserRateRecord) (window : Go.Duration)
  (now : Go.Time) : Z :=
  let cutoff := Go.Add now (Go.neg window) in
  fold_left (λ totalChars '(i, timestamp),
               if Go.After timestamp cutoff
                  && (i <? length (CharCountHistory r))%nat
               then totalChars + default 0 (CharCountHistory r !! i)
               else totalChars)
            (indexed (Messages r)) 0.

(** 0.8 as the float64 constant the Go compiler emits. *)
Definition eight_tenths : float := 0x1.999999999999ap-1%float.

Definition similarity (s1 s2 : string) : float :=
  if String.eqb s1 s2 then 1%float
  else if (Go.len s1 =? 0) || (Go.len s2 =? 0) then 0%float
  else
    let '(longer, shorter) :=
      if Go.len s2 >? Go.len s1 then (s2, s1) else (s1, s2) in
    let matches :=
      fold_left (λ matches i,
                   if (Z.of_nat i <? Go.len longer)
                      && bool_decide (String.get i shorter = String.get i longer)
                   then matches + 1 else matches)
                (seq 0 (String.length shorter)) 0 in
    PrimFloat.div (Go.float64 matches) (Go.float64 (Go.len longer)).

Section Normalisation.

(** [strings.ToLower] and [strings.TrimSpace] of the Go library, whose
    Unicode tables are not reproduced: the limiter is modelled for any
    pair of such functions. *)
Variables ToLower TrimSpace : string → string.

(** One turn of the loop of [isDuplicateSpam]. *)
Definition duplicateStep (normalizedMessage : string) (duplicateCount : Z)
  (content : string) : Z :=
  let recentMsg := ToLower (TrimSpace content) in
  if String.eqb recentMsg normalizedMessage then duplicateCount + 1
  else if PrimFloat.ltb eight_tenths (similarity recentMsg normalizedMessage)
       then duplicateCount + 1
       else duplicateCount.

Definition isDuplicateSpam (r : UserRateRecord) (message : string) : bool :=
  if (length (MessageContents r) <? 3)%nat then false
  else
    let recentCount :=
      if (5 <? length (MessageContents r))%nat then 5%nat
      else length (MessageContents r) in
    let normalizedMessage := ToLower (TrimSpace message) in
    let duplicateCount :=
      fold_left (duplicateStep normalizedMessage)
                (drop (length (MessageContents r) - recentCount) (MessageContents r))
                0 in
    duplicateCount >=? 3.

Definition applyTimeout (r : UserRateRecord) (duration : Go.Duration)
  (now : Go.Time) : UserRateRecord :=
  {| UserID := UserID r; Messages := Messages r;
     MessageContents := MessageContents r;
     CharCountHistory := CharCountHistory r;
     TimeoutUntil := Go.Add now duration; Violations := Violations r;
     LastCleanup := LastCleanup r |}.

(** [record.Violations++] and [record.Violations += 2]. *)
Definition addViolations (r : UserRateRecord) (n : Z) : UserRateRecord :=
  {| UserID := UserID r; Messages := Messages r;
     MessageContents := MessageContents r;
     CharCountHistory := CharCountHistory r;
     TimeoutUntil := TimeoutUntil r;
     Violations := Go.wrap64 (Violations r + n);
     LastCleanup := LastCleanup r |}.

Definition cleanup (r : UserRateRecord) (now : Go.Time) : UserRateRecord :=
  if Go.Sub now (LastCleanup r) <? Go.Minute then r
  else
    let cutoff := Go.Add now (- (5 * Go.Minute)) in
    let kept :=
      List.filter (λ '(i, timestamp), Go.After timestamp cutoff)
                  (indexed (Messages r)) in
    {| UserID := UserID r;
       Messages := kept.*2;
       MessageContents := omap (λ '(i, _), MessageContents r !! i) kept;
       CharCountHistory := omap (λ '(i, _), CharCountHistory r !! i) kept;
       TimeoutUntil := TimeoutUntil r; Violations := Violations r;
       LastCleanup := now |}.

Definition deny (code message : string) : bool * option ChatError :=
  (false, Some {| Code := code; Message := message |}).

(** The body of [CheckMessage] once the record is at hand: the record as
    the call leaves it, and the pair the call returns. *)
Definition checkRecord (cfg : ChatConfig) (record : UserRateRecord)
  (message : string) (now : Go.Time)
  : UserRateRecord * (bool * option ChatError) :=
  if Go.Before now (TimeoutUntil record) then
    (record, deny "TIMEOUT" "You are timed out. Please wait before sending messages.")
  else
  let record := cleanup record now in
  let messageLen := Go.len message in
  if messageLen >? MaxCharactersPerMessage cfg then
    (record, deny "MESSAGE_TOO_LONG" "Message is too long. Maximum 500 characters.")
  else
  let recentMessages := countMessagesInWindow record (10 * Go.Second) now in
  if recentMessages >=? 5 then
    (addViolations (applyTimeout record (30 * Go.Second) now) 1,
     deny "RATE_LIMIT" "Slow down! (30 second cooldown)")
  else
  let messagesIn30s := countMessagesInWindow record (30 * Go.Second) now in
  if messagesIn30s >=? 10 then
    (addViolations (applyTimeout record (2 * Go.Minute) now) 1,
     deny "SPAM_DETECTED" "Spam detected. (2 minute timeout)")
  else
  let messagesIn60s := countMessagesInWindow record (60 * Go.Second) now in
  if messagesIn60s >=? 20 then
    (addViolations (applyTimeout record (5 * Go.Minute) now) 2,
     deny "HEAVY_SPAM" "Heavy spam detected. (5 minute timeout)")
  else
  let tier3 :=
    if messageLen >? 300 then
      if recentMessages >=? 1 then
        Some (deny "RATE_LIMIT_LONG_MESSAGE" "Large messages limited to 1 per 10 seconds.")
      else None
    else if messageLen >? 100 then
      if recentMessages >=? 3 then
        Some (deny "RATE_LIMIT_MEDIUM_MESSAGE" "Medium messages limited to 3 per 10 seconds.")
      else None
    else None in
  match tier3 with
  | Some denied => (record, denied)
  | None =>
  if isDuplicateSpam record message then
    (addViolations (applyTimeout record (5 * Go.Minute) now) 1,
     deny "DUPLICATE_SPAM" "Stop sending the same message repeatedly. (5 minute timeout)")
  else
  let charsIn5Min := countCharsInWindow record (5 * Go.Minute) now in
  if (messageLen >=? 400) && (charsIn5Min >? 2000) then
    (addViolations (applyTimeout record (10 * Go.Minute) now) 2,
     deny "HEAVY_TEXT_SPAM" "Too much text too quickly. (10 minute timeout)")
  else
  if Violations record >=? 5 then
    (applyTimeout record (30 * Go.Minute) now,
     deny "REPEAT_OFFENDER" "Multiple violations. (30 minute timeout)")
  else if Violations record >=? 4 then
    (applyTimeout record (10 * Go.Minute) now,
     deny "REPEAT_OFFENDER" "Multiple violations. (10 minute timeout)")
  else if Violations record >=? 3 then
    (applyTimeout record (5 * Go.Minute) now,
     deny "REPEAT_OFFENDER" "Multiple violations. (5 minute timeout)")
  else
    (recordMessage record message messageLen now, (true, None))
  end.

(** The map holds pointers: the record the call worked on is the one
    stored under [userID] afterwards. *)
Definition CheckMessage (rl : RateLimiter) (userID message : string) (now : Go.Time)
  : RateLimiter * (bool * option ChatError) :=
  let '(rl, record) := getOrCreateRecord rl userID now in
  let '(record, result) := checkRecord (config rl) record message now in
  ({| config := config rl;
      userRecords := <[userID := record]> (userRecords rl) |}, result).

End Normalisation.

(** The test of [performCleanup] that marks a record for deletion. *)
Definition inactive (record : UserRateRecord) (now : Go.Time) : bool :=
  (length (Messages record) =? 0)%nat
  || ((0 <? length (Messages record))%nat
      && match last (Messages record) with
         | Some t => Go.Sub now t >? 30 * Go.Minute
         | None => false
         end).

Definition performCleanup (rl : RateLimiter) (now : Go.Time) : RateLimiter :=
  {| config := config rl;
     userRecords := filter (λ kv, inactive kv.2 now = false) (userRecords rl) |}.

Definition GetTimeoutStatus (rl : RateLimiter) (userID : string) (now : Go.Time)
  : bool * Go.Duration :=
  match userRecords rl !! userID with
  | None => (false, 0)
  | Some record =>
      if Go.Before now (TimeoutUntil record)
      then (true, Go.Sub (TimeoutUntil record) now)
      else (false, 0)
  end.

(** The three slices of a record run in parallel: one text and its
    length for every timestamp. *)
Definition parallel (r : UserRateRecord) : Prop :=
  length (MessageContents r) = length (Messages r) ∧
  CharCountHistory r = Go.len <$> MessageContents r.

(** A history of the limiter: checks by users and runs of the reaper,
    each at its own instant. *)
Inductive op :=
  | Ask (userID message : string) (now : Go.Time)
  | Reap (now : Go.Time).

Section Histories.

Variables ToLower TrimSpace : string → string.

Definition step (rl : RateLimiter) (o : op)
  : RateLimiter * option (bool * option ChatError) :=
  match o with
  | Ask userID message now =>
      let '(rl, result) := CheckMessage ToLower TrimSpace rl userID message now in
      (rl, Some result)
  | Reap now => (performCleanup rl now, None)
  end.

(** The limiter after each operation of a history, with what the
    operation returned. *)
Fixpoint run (rl : RateLimiter) (ops : list op)
  : list (RateLimiter * option (bool * option ChatError)) :=
  match ops with
  | [] => []
  | o :: ops => let out := step rl o in out :: run out.1 ops
  end.

End Histories.

(** ASCII stand-ins for the two library functions, used to run the model
    on ASCII text, where they agree with Go's. *)
Definition asciiLower (c : ascii) : ascii :=
  let n := nat_of_ascii c in
  if ((65 <=? n) && (n <=? 90))%nat then ascii_of_nat (n + 32) else c.

Fixpoint asciiToLower (s : string) : string :=
  match s with
  | EmptyString => EmptyString
  | String c rest => String (asciiLower c) (asciiToLower rest)
  end.

Definition asciiSpace (c : ascii) : bool :=
  let n := nat_of_ascii c in
  ((9 <=? n) && (n <=? 13) || (n =? 32))%nat.

Fixpoint trimLeft (s : string) : string :=
  match s with
  | EmptyString => EmptyString
  | String c rest => if asciiSpace c then trimLeft rest else s
  end.

Definition asciiTrimSpace (s : string) : string :=
  String.rev (trimLeft (String.rev (trimLeft s))).

End Limiter.

(** ** The tiers of the limiter

    Eleven tiers in a fixed order, each with its consequences (deny
    code, timeout, violations delta) as the table of section 4.4 lists
    them; and the tests of [checkRecord] as a decision list over the
    record, which the proofs about the code use.  The triggers as the
    specification words them, on a history of entries, are in [Spec]
    below. *)

Module Tiers.
Import Limiter.

Inductive Tier :=
  | T0 | T1 | T2a | T2b | T2c | T3long | T3med | T4 | T5 | Escalation | Allow.

Definition order : list Tier :=
  [T0; T1; T2a; T2b; T2c; T3long; T3med; T4; T5; Escalation; Allow].

Section Table.

Variables ToLower TrimSpace : string → string.

(** Two texts are similar when, both trimmed and lowercased, their
    similarity exceeds 0.8. *)
Definition similar (a b : string) : bool :=
  PrimFloat.ltb eight_tenths
    (similarity (ToLower (TrimSpace a)) (ToLower (TrimSpace b))).

(** How many of the last five (or fewer) recorded texts are similar to [text]. *)
Definition similarCount (history : list string) (text : string) : nat :=
  length (List.filter (λ old, similar old text) (Buffer.lastn 5 history)).

(** The tests of [checkRecord], branch by branch, on the record and with
    the helpers of the code: a decision list that the proofs about the
    code use.  The table as the specification words it is [Spec.trigger]. *)
Definition trigger (cfg : ChatConfig) (r : UserRateRecord) (text : string)
  (now : Go.Time) (t : Tier) : bool :=
  let hist := cleanup r now in
  let len := Go.len text in
  match t with
  | T0 => now <? TimeoutUntil r
  | T1 => len >? MaxCharactersPerMessage cfg
  | T2a => countMessagesInWindow hist (10 * Go.Second) now >=? 5
  | T2b => countMessagesInWindow hist (30 * Go.Second) now >=? 10
  | T2c => countMessagesInWindow hist (60 * Go.Second) now >=? 20
  | T3long => (len >? 300) && (countMessagesInWindow hist (10 * Go.Second) now >=? 1)
  | T3med => (len >? 100) && (countMessagesInWindow hist (10 * Go.Second) now >=? 3)
  | T4 => (3 <=? similarCount (MessageContents hist) text)%nat
  | T5 => (len >=? 400) && (countCharsInWindow hist (5 * Go.Minute) now >? 2000)
  | Escalation => Violations r >=? 3
  | Allow => true
  end.

Definition firstMatch (cfg : ChatConfig) (r : UserRateRecord) (text : string)
  (now : Go.Time) : Tier :=
  default Allow (List.find (trigger cfg r text now) order).

(** The consequences of a tier: deny code, timeout, violations delta. *)
Definition code (t : Tier) : option string :=
  match t with
  | T0 => Some "TIMEOUT"
  | T1 => Some "MESSAGE_TOO_LONG"
  | T2a => Some "RATE_LIMIT"
  | T2b => Some "SPAM_DETECTED"
  | T2c => Some "HEAVY_SPAM"
  | T3long => Some "RATE_LIMIT_LONG_MESSAGE"
  | T3med => Some "RATE_LIMIT_MEDIUM_MESSAGE"
  | T4 => Some "DUPLICATE_SPAM"
  | T5 => Some "HEAVY_TEXT_SPAM"
  | Escalation => Some "REPEAT_OFFENDER"
  | Allow => None
  end.

Definition timeout (t : Tier) (violations : Z) : option Go.Duration :=
  match t with
  | T2a => Some (30 * Go.Second)
  | T2b => Some (2 * Go.Minute)
  | T2c => Some (5 * Go.Minute)
  | T4 => Some (5 * Go.Minute)
  | T5 => Some (10 * Go.Minute)
  | Escalation =>
      Some (if violations >=? 5 then 30 * Go.Minute
            else if violations >=? 4 then 10 * Go.Minute
            else 5 * Go.Minute)
  | _ => None
  end.

Definition allows (t : Tier) : bool :=
  match t with Allow => true | _ => false end.

Definition delta (t : Tier) : Z :=
  match t with
  | T2a | T2b | T4 => 1
  | T2c | T5 => 2
  | _ => 0
  end.

(** The history a call leaves behind: untouched under T0, self-cleaned
    otherwise, and extended by the message on Allow. *)
Definition history (t : Tier) (r : UserRateRecord) (text : string) (now : Go.Time)
  : list Go.Time * list string * list Z :=
  let hist := cleanup r now in
  match t with
  | T0 => (Messages r, MessageContents r, CharCountHistory r)
  | Allow => (Messages hist ++ [now], MessageContents hist ++ [text],
              CharCountHistory hist ++ [Go.len text])
  | _ => (Messages hist, MessageContents hist, CharCountHistory hist)
  end.

(** What one call does to a record, read off the table. *)
Definition follows_table (cfg : ChatConfig) (r : UserRateRecord) (text : string)
  (now : Go.Time) (r' : UserRateRecord) (result : bool * option ChatError) : Prop :=
  let t := firstMatch cfg r text now in
  result.1 = allows t ∧
  Code <$> result.2 = code t ∧
  TimeoutUntil r' =
    match timeout t (Violations r) with
    | Some d => Go.Add now d
    | None => TimeoutUntil r
    end ∧
  Violations r' = Go.wrap64 (Violations r + delta t) ∧
  (Messages r', MessageContents r', CharCountHistory r') = history t r text now ∧
  UserID r' = UserID r.

End Table.

End Tiers.

(** ** The rate limiter as section 4.4 of the specification words it

    These definitions follow the words of the specification, not the
    code: the per-user history is a list of entries [(now, text, len)];
    the tier table is read first match wins. *)

Module Spec.

Record entry := { sentAt : Go.Time; text : string; chars : Z }.

Record history := {
  entries : list entry;
  timeoutUntil : Go.Time;
  violations : Z;
  lastCleanup : Go.Time
}.

(** The history of a user who has none yet. *)
Definition empty (now : Go.Time) : history :=
  {| entries := []; timeoutUntil := Go.zeroTime; violations := 0; lastCleanup := now |}.

(** "If > 60 s since the user's last cleanup, drop entries older than
    5 min." *)
Definition selfClean (now : Go.Time) (h : history) : list entry :=
  if 60 * Go.Second <? now - lastCleanup h
  then List.filter (λ e, negb (5 * Go.Minute <? now - sentAt e)) (entries h)
  else entries h.

(** The same with both comparisons turned inclusive: 60 s or more since
    the last cleanup; entries 5 min old or older. *)
Definition selfCleanInclusive (now : Go.Time) (h : history) : list entry :=
  if 60 * Go.Second <=? now - lastCleanup h
  then List.filter (λ e, negb (5 * Go.Minute <=? now - sentAt e)) (entries h)
  else entries h.

(** "Messages in last [w]": the entries less than [w] old. *)
Definition inLast (w : Go.Duration) (now : Go.Time) (e : entry) : bool :=
  now - sentAt e <? w.

Definition messagesInLast (w : Go.Duration) (now : Go.Time) (es : list entry) : Z :=
  Z.of_nat (length (List.filter (inLast w now) es)).

Definition charsInLast (w : Go.Duration) (now : Go.Time) (es : list entry) : Z :=
  foldr Z.add 0 (chars <$> List.filter (inLast w now) es).

Section Table.

Variables ToLower TrimSpace : string → string.

(** "Normalize both strings by trimming whitespace and lowercasing." *)
Definition normalize (s : string) : string := ToLower (TrimSpace s).

(** The positions at which both strings have the same character: the
    match is positional (the specification scores "abc" against "xbc" at
    0.67, two matches out of three), not the length of a common prefix. *)
Definition matches (a b : string) : nat :=
  length (List.filter (λ i, bool_decide (String.get i a = String.get i b))
                      (seq 0 (Nat.min (String.length a) (String.length b)))).

(** "If equal, similarity = 1.0; else, character-by-character match
    count divided by the longer string's length.  Empty strings have
    similarity 0.0 with non-empty strings." *)
Definition similarity (a b : string) : float :=
  let a := normalize a in
  let b := normalize b in
  if String.eqb a b then 1%float
  else if (String.length a =? 0)%nat || (String.length b =? 0)%nat then 0%float
  else PrimFloat.div (Go.float64 (Z.of_nat (matches a b)))
                     (Go.float64 (Z.of_nat (Nat.max (String.length a) (String.length b)))).

(** "Two strings are similar iff similarity > 0.8." *)
#[warnings="-inexact-float"]
Definition similar (a b : string) : bool := PrimFloat.ltb 0.8%float (similarity a b).

(** The table of triggers, on the entries [es] that the self-cleanup has
    left of the history [h]. *)
Definition triggerOn (cfg : ChatConfig) (es : list entry) (h : history)
  (txt : string) (now : Go.Time) (t : Tiers.Tier) : bool :=
  let len := Go.len txt in
  match t with
  | Tiers.T0 => now <? timeoutUntil h
  | Tiers.T1 => MaxCharactersPerMessage cfg <? len
  | Tiers.T2a => 5 <=? messagesInLast (10 * Go.Second) now es
  | Tiers.T2b => 10 <=? messagesInLast (30 * Go.Second) now es
  | Tiers.T2c => 20 <=? messagesInLast (60 * Go.Second) now es
  | Tiers.T3long => (300 <? len) && (1 <=? messagesInLast (10 * Go.Second) now es)
  | Tiers.T3med => (100 <? len) && (3 <=? messagesInLast (10 * Go.Second) now es)
  | Tiers.T4 =>
      (3 <=? length (List.filter (λ e, similar (text e) txt) (Buffer.lastn 5 es)))%nat
  | Tiers.T5 => (400 <=? len) && (2000 <? charsInLast (5 * Go.Minute) now es)
  | Tiers.Escalation => 3 <=? violations h
  | Tiers.Allow => true
  end.

(** First match wins. *)
Definition firstMatchOn (cfg : ChatConfig) (es : list entry) (h : history)
  (txt : string) (now : Go.Time) : Tiers.Tier :=
  default Tiers.Allow (List.find (triggerOn cfg es h txt now) Tiers.order).

Definition trigger (cfg : ChatConfig) (h : history) (txt : string) (now : Go.Time)
  : Tiers.Tier → bool :=
  triggerOn cfg (selfClean now h) h txt now.

Definition firstMatch (cfg : ChatConfig) (h : history) (txt : string) (now : Go.Time)
  : Tiers.Tier :=
  firstMatchOn cfg (selfClean now h) h txt now.

(** The entries a call leaves behind: "Allow: record (now, text, len)";
    a denial records nothing; the answer TIMEOUT comes before the
    self-cleanup. *)
Definition entriesAfter (t : Tiers.Tier) (es : list entry) (h : history)
  (txt : string) (now : Go.Time) : list entry :=
  match t with
  | Tiers.T0 => entries h
  | Tiers.Allow => es ++ [{| sentAt := now; text := txt; chars := Go.len txt |}]
  | _ => es
  end.

End Table.

(** *** How a record of the code is read as a history *)

Definition view (r : Limiter.UserRateRecord) : history :=
  {| entries :=
       zip_with (λ t cn, {| sentAt := t; text := cn.1; chars := cn.2 |})
                (Limiter.Messages r)
                (zip (Limiter.MessageContents r) (Limiter.CharCountHistory r));
     timeoutUntil := Limiter.TimeoutUntil r;
     violations := Limiter.Violations r;
     lastCleanup := Limiter.LastCleanup r |}.

Definition historyOf (rl : Limiter.RateLimiter) (userID : string) (now : Go.Time)
  : history :=
  match Limiter.userRecords rl !! userID with
  | Some r => view r
  | None => empty now
  end.

End Spec.

(** ** types.go: the memory tracker; manager.go *)

Module Mgr.

Record MemoryTracker := {
  TotalBytes : Z;
  TotalMessages : Z;
  ActiveStreams : Z;
  MaxBytes : Z
}.

Definition NewMemoryTracker (maxMemoryMB : Z) : MemoryTracker :=
  {| TotalBytes := 0; TotalMessages := 0; ActiveStreams := 0;
     MaxBytes := Go.wrap64 (maxMemoryMB * 1024 * 1024) |}.

Definition Update (mt : MemoryTracker) (bytesUsed messageCount streamCount : Z)
  : MemoryTracker :=
  {| TotalBytes := bytesUsed; TotalMessages := messageCount;
     ActiveStreams := streamCount; MaxBytes := MaxBytes mt |}.

Definition usage (mt : MemoryTracker) : float :=
  PrimFloat.div (Go.float64 (TotalBytes mt)) (Go.float64 (MaxBytes mt)).

Definition IsNearLimit (mt : MemoryTracker) : bool :=
  PrimFloat.ltb 0x1.999999999999ap-1%float (usage mt).

Definition IsCritical (mt : MemoryTracker) : bool :=
  PrimFloat.ltb 0x1.ccccccccccccdp-1%float (usage mt).

Record Manager := {
  config : ChatConfig;
  rooms : gmap string Room.ChatRoom;
  memTracker : MemoryTracker
}.

Definition withRooms (m : Manager) (rooms : gmap string Room.ChatRoom) : Manager :=
  {| config := config m; rooms := rooms; memTracker := memTracker m |}.

Definition withTracker (m : Manager) (mt : MemoryTracker) : Manager :=
  {| config := config m; rooms := rooms m; memTracker := mt |}.

(** The calls below take [roomsMux] on entry and release it before they
    return; they are modelled from a state in which it is free. *)
Definition GetOrCreateRoom (m : Manager) (streamKey : string) (now : Go.Time)
  : option (Manager * Room.ChatRoom) :=
  match rooms m !! streamKey with
  | Some room => Some (m, room)
  | None =>
      room ← Room.NewChatRoom streamKey (MaxMessagesPerStream (config m)) now;
      Some (withRooms m (<[streamKey := room]> (rooms m)), room)
  end.

(** [uuid] stands for the string [uuid.New()] hands out. *)
Definition AddMessage (m : Manager) (streamKey userID username message uuid : string)
  (now : Go.Time) : option (Manager * ChatMessage) :=
  '(m, room) ← GetOrCreateRoom m streamKey now;
  let msg := {| Msg.ID := uuid; Msg.StreamKey := streamKey; Msg.UserID := userID;
                Msg.Username := username; Msg.Message := message;
                Msg.Timestamp := now |} in
  room ← Room.AddMessage room msg now;
  Some (withRooms m (<[streamKey := room]> (rooms m)), msg).

Definition GetMessages (m : Manager) (streamKey : string) (recentN : Z)
  : option (list ChatMessage) :=
  match rooms m !! streamKey with
  | None => Some []
  | Some room => Room.GetMessages room recentN
  end.

Definition GetRoom (m : Manager) (streamKey : string) : option Room.ChatRoom :=
  rooms m !! streamKey.

(** The user record [AddUser] builds; the fields it leaves out are zero. *)
Definition newUser (userID username : string) (now : Go.Time) : ChatUser :=
  {| User.UserID := userID; User.Username := username;
     User.ConnectedAt := now; User.LastMessage := Go.zeroTime;
     User.MessageCount := 0; User.CharCount := 0;
     User.TimeoutUntil := Go.zeroTime; User.Violations := 0;
     User.IsActive := true |}.

(** The error is [Some ErrRoomFull] or [None] for [nil]. *)
Definition AddUser (m : Manager) (streamKey userID username : string) (now : Go.Time)
  : option (Manager * option ChatError) :=
  '(m, room) ← GetOrCreateRoom m streamKey now;
  if Room.UserCount room >=? MaxUsersPerStream (config m) then
    Some (m, Some ErrRoomFull)
  else
    let user := newUser userID username now in
    Some (withRooms m (<[streamKey := Room.AddUser room user now]> (rooms m)), None).

Definition RemoveUser (m : Manager) (streamKey userID : string) : Manager :=
  match GetRoom m streamKey with
  | None => m
  | Some room =>
      withRooms m (<[streamKey := Room.RemoveUser room userID]> (rooms m))
  end.

Definition GetUsers (m : Manager) (streamKey : string) : list ChatUser :=
  match GetRoom m streamKey with
  | None => []
  | Some room => Room.GetAllUsers room
  end.

Definition GetUserCount (m : Manager) (streamKey : string) : Z :=
  match GetRoom m streamKey with
  | None => 0
  | Some room => Room.UserCount room
  end.

(** The test of [performCleanup] that marks a room for deletion;
    [time.Since(t)] is [time.Now().Sub(t)]. *)
Definition deserted (cfg : ChatConfig) (room : Room.ChatRoom) (now : Go.Time) : bool :=
  (Room.UserCount room =? 0)
  && (Go.Sub now (Room.LastActivity room) >? InactiveStreamTimeout cfg).

(** One turn of the first loop of [performCleanup]: the rooms cleaned so
    far and [roomsToDelete]. *)
Definition cleanupStep (cfg : ChatConfig) (retention : Go.Duration) (now : Go.Time)
  (streamKey : string) (room : Room.ChatRoom)
  (acc : option (gmap string Room.ChatRoom * list string))
  : option (gmap string Room.ChatRoom * list string) :=
  '(cleaned, roomsToDelete) ← acc;
  '(room, _) ← Room.CleanupOldMessages room retention now;
  Some (<[streamKey := room]> cleaned,
        if deserted cfg room now then roomsToDelete ++ [streamKey]
        else roomsToDelete).

(** Called from [cleanupWorker], which holds no lock. *)
Definition performCleanup (m : Manager) (now : Go.Time) : option Manager :=
  let retention := Go.wrap64 (MessageRetentionMinutes (config m) * Go.Minute) in
  '(cleaned, roomsToDelete) ←
    map_fold (cleanupStep (config m) retention now) (Some (∅, [])) (rooms m);
  Some (withRooms m (foldl (λ rooms streamKey, delete streamKey rooms)
                           cleaned roomsToDelete)).

(** The roster of a stream: empty when the stream has no room. *)
Definition roster (m : Manager) (streamKey : string) : gmap string ChatUser :=
  match GetRoom m streamKey with
  | Some room => Room.Users room
  | None => ∅
  end.

(** The capacity of a stream's buffer: that of its room or, while the
    stream has no room, the capacity [GetOrCreateRoom] gives a new one. *)
Definition capacity (m : Manager) (streamKey : string) : Z :=
  match rooms m !! streamKey with
  | Some room => Buffer.maxSize (Room.Messages room)
  | None => MaxMessagesPerStream (config m)
  end.

(** The state every manager built by [NewManager] with a positive
    [MaxMessagesPerStream] is in: each room's buffer satisfies the
    buffer invariant. *)
Definition sound (m : Manager) : Prop :=
  1 ≤ MaxMessagesPerStream (config m) ∧
  ∀ streamKey room, rooms m !! streamKey = Some room →
    Buffer.wf (Room.Messages room).

(** *** [sync.RWMutex], as far as one goroutine sees it

    [readers] counts the read locks held, [writer] tells whether the
    write lock is held.  An acquisition that cannot proceed blocks; the
    goroutine that blocks in [Lock] while it holds a read lock itself
    blocks for ever, since only its own [RUnlock] would let it through. *)
Record RWMutex := { readers : nat; writer : bool }.

Definition RLock (mu : RWMutex) : option RWMutex :=
  if writer mu then None
  else Some {| readers := S (readers mu); writer := false |}.

Definition RUnlock (mu : RWMutex) : RWMutex :=
  {| readers := pred (readers mu); writer := writer mu |}.

Definition Lock (mu : RWMutex) : option RWMutex :=
  if writer mu || (0 <? readers mu)%nat then None
  else Some {| readers := 0; writer := true |}.

Definition Unlock (mu : RWMutex) : RWMutex :=
  {| readers := readers mu; writer := false |}.

Inductive outcome :=
  | Returned (m : Manager) (mu : RWMutex)
  | Blocked (m : Manager) (mu : RWMutex)
  | Panicked.

(** [for _, room := range m.rooms { room.CleanupOldMessages(retention) }]. *)
Definition cleanupRooms (rooms : gmap string Room.ChatRoom) (retention : Go.Duration)
  (now : Go.Time) : option (gmap string Room.ChatRoom) :=
  map_fold (λ streamKey room acc,
              done ← acc;
              '(room', _) ← Room.CleanupOldMessages room retention now;
              Some (<[streamKey := room']> done))
           (Some ∅) rooms.

Definition performEmergencyCleanup (m : Manager) (mu : RWMutex) (now : Go.Time)
  : outcome :=
  match Lock mu with
  | None => Blocked m mu
  | Some mu =>
      let emergencyRetention := 10 * Go.Minute in
      match cleanupRooms (rooms m) emergencyRetention now with
      | None => Panicked
      | Some rooms => Returned (withRooms m rooms) (Unlock mu)
      end
  end.

(** The first half of [updateMemoryStats]: the sums over the rooms,
    stored in the tracker. *)
Definition measured (m : Manager) : Manager :=
  let totalBytes :=
    map_fold (λ _ room total, Go.wrap64 (total + Room.BytesUsed room)) 0 (rooms m) in
  let totalMessages :=
    map_fold (λ _ room total, Go.wrap64 (total + Room.MessageCount room)) 0 (rooms m) in
  withTracker m (Update (memTracker m) totalBytes totalMessages
                        (Z.of_nat (size (rooms m)))).

(** The body of one tick of [monitorWorker].  [defer RUnlock] runs when
    the function returns, after the call to [performEmergencyCleanup]. *)
Definition updateMemoryStats (m : Manager) (mu : RWMutex) (now : Go.Time) : outcome :=
  match RLock mu with
  | None => Blocked m mu
  | Some mu =>
      let m := measured m in
      if IsCritical (memTracker m) then
        match performEmergencyCleanup m mu now with
        | Returned m mu => Returned m (RUnlock mu)
        | stuck => stuck
        end
      else Returned m (RUnlock mu)
  end.

End Mgr.

(** ** websocket.go *)

Module WS.

(** A decoded JSON value, as [ReadJSON] leaves it in a
    [map[string]interface{}]. *)
#[warnings="-register-all"]
Inductive Value :=
  | VString (s : string)
  | VBool (b : bool)
  | VNumber (n : Z)
  | VObject (fields : gmap string Value)
  | VNull.

Inductive Payload :=
  | NoData
  | ChatData (msg : ChatMessage).

Record WSMessage := {
  Type_ : string;   (* the field [Type] *)
  Data : Payload;
  Error : string;
  Timestamp : Go.Time
}.

(** [Send] names the connection's channel in the handler's store of
    channels, so that the entry in the registry and the session share it. *)
Record Connection := {
  UserID : string;
  Username : string;
  StreamKey : string;
  Send : nat
}.

(** [chans] holds the frames queued on each channel and not yet taken by
    its [writePump]; [closed] holds the channels on which [close] has been
    called ([cleanup] closes the channel of its connection). *)
Record WSHandler := {
  manager : Mgr.Manager;
  rateLimiter : Limiter.RateLimiter;
  connections : gmap string Connection;
  chans : gmap nat (list WSMessage);
  closed : gset nat
}.

(** How a call of the session ends, as far as its own goroutine sees it:
    it returns; or it blocks in a send on a full channel, with the handler
    as it is at that moment (the frame is not queued; the goroutine goes
    on only after the writer has taken a frame); or it panics. *)
Inductive outcome :=
  | Returned (h : WSHandler)
  | Blocked (h : WSHandler)
  | Panicked.

Definition sendCapacity : nat := 256.

Definition withChans (h : WSHandler) (chans : gmap nat (list WSMessage)) : WSHandler :=
  {| manager := manager h; rateLimiter := rateLimiter h;
     connections := connections h; chans := chans; closed := closed h |}.

Definition queue (chans : gmap nat (list WSMessage)) (ch : nat) : list WSMessage :=
  default [] (chans !! ch).

(** [ch <- msg] on a channel of capacity 256: a send on a closed channel
    panics; with room in the queue the frame is queued; on a full queue
    the goroutine blocks. *)
Definition send (h : WSHandler) (ch : nat) (msg : WSMessage) : outcome :=
  if decide (ch ∈ closed h) then Panicked
  else if (length (queue (chans h) ch) <? sendCapacity)%nat
       then Returned (withChans h (<[ch := queue (chans h) ch ++ [msg]]> (chans h)))
       else Blocked h.

(** [select { case ch <- msg: default: }]: the frame is dropped when the
    queue is full; a send on a closed channel panics in a [select] too. *)
Definition trySend (closed : gset nat) (chans : gmap nat (list WSMessage)) (ch : nat)
  (msg : WSMessage) : option (gmap nat (list WSMessage)) :=
  if decide (ch ∈ closed) then None
  else if (length (queue chans ch) <? sendCapacity)%nat
       then Some (<[ch := queue chans ch ++ [msg]]> chans)
       else Some chans.

(** The loop of the two broadcasts, over the connections that [sel]
    selects; [None] when one of the sends panics. *)
Definition fanOut (sel : Connection → bool) (h : WSHandler) (msg : WSMessage)
  : option (gmap nat (list WSMessage)) :=
  map_fold (λ _ conn acc,
              chans ← acc;
              if sel conn then trySend (closed h) chans (Send conn) msg else Some chans)
           (Some (chans h)) (connections h).

Definition broadcastToRoom (h : WSHandler) (c : Connection) (msg : WSMessage)
  : outcome :=
  match fanOut (λ conn, String.eqb (StreamKey conn) (StreamKey c)) h msg with
  | Some chans => Returned (withChans h chans)
  | None => Panicked
  end.

Definition broadcastToRoomExcept (h : WSHandler) (c : Connection) (msg : WSMessage)
  (exceptUserID : string) : outcome :=
  match fanOut (λ conn, String.eqb (StreamKey conn) (StreamKey c)
                        && negb (String.eqb (UserID conn) exceptUserID)) h msg with
  | Some chans => Returned (withChans h chans)
  | None => Panicked
  end.

Definition sendError (h : WSHandler) (c : Connection) (errorMsg : string)
  (now : Go.Time) : outcome :=
  send h (Send c)
       {| Type_ := "error"; Data := NoData; Error := errorMsg; Timestamp := now |}.

Section Handler.

Variables ToLower TrimSpace : string → string.

Definition handleChatMessage (h : WSHandler) (c : Connection)
  (msg : gmap string Value) (uuid : string) (now : Go.Time) : outcome :=
  if String.eqb (UserID c) EmptyString then sendError h c "Not joined to chat" now
  else
  match msg !! "data" with
  | Some (VObject data) =>
      match data !! "message" with
      | Some (VString message) =>
          if String.eqb message EmptyString then
            sendError h c "Invalid message content" now
          else
          let '(rl, (allowed, rateLimitErr)) :=
            Limiter.CheckMessage ToLower TrimSpace (rateLimiter h) (UserID c) message now in
          let h := {| manager := manager h; rateLimiter := rl;
                      connections := connections h; chans := chans h;
                      closed := closed h |} in
          if negb allowed then
            match rateLimitErr with
            | Some rateLimitErr =>
                send h (Send c)
                     {| Type_ := "rate_limit"; Data := NoData;
                        Error := Message rateLimitErr; Timestamp := now |}
            | None => Panicked
            end
          else
            match Mgr.AddMessage (manager h) (StreamKey c) (UserID c)
                                 (Username c) message uuid now with
            | Some (mgr, chatMsg) =>
                let h := {| manager := mgr; rateLimiter := rateLimiter h;
                            connections := connections h; chans := chans h;
                            closed := closed h |} in
                broadcastToRoom h c
                  {| Type_ := "message"; Data := ChatData chatMsg;
                     Error := EmptyString; Timestamp := now |}
            | None => Panicked
            end
      | _ => sendError h c "Invalid message content" now
      end
  | _ => sendError h c "Invalid message data" now
  end.

End Handler.

End WS.

(** ** Concrete states used to run the model *)

Module Examples.

Definition oversize : string := string_of_list_ascii (replicate 501 "x"%char).

Definition ann : WS.Connection :=
  {| WS.UserID := "a"; WS.Username := "Ann"; WS.StreamKey := "s1"; WS.Send := 0%nat |}.

Definition emptyManager : Mgr.Manager :=
  {| Mgr.config := DefaultConfig; Mgr.rooms := ∅;
     Mgr.memTracker := Mgr.NewMemoryTracker (MaxTotalMemoryMB DefaultConfig) |}.

(** A handler in which Ann has joined stream s1. *)
Definition joined : WS.WSHandler :=
  {| WS.manager := emptyManager;
     WS.rateLimiter := Limiter.NewRateLimiter DefaultConfig;
     WS.connections := {[ "a" := ann ]};
     WS.chans := {[ 0%nat := [] ]};
     WS.closed := ∅ |}.

Definition frame (text : string) : gmap string WS.Value :=
  {[ "type" := WS.VString "message";
     "data" := WS.VObject {[ "message" := WS.VString text ]} ]}.

Definition message (id : string) (at_ : Go.Time) : ChatMessage :=
  {| Msg.ID := id; Msg.StreamKey := "s1"; Msg.UserID := "a"; Msg.Username := "Ann";
     Msg.Message := id; Msg.Timestamp := at_ |}.

(** A room of capacity 1 that holds one message. *)
Definition fullRoom : option Room.ChatRoom :=
  room ← Room.NewChatRoom "s1" 1 0;
  Room.AddMessage room (message "m1" 1) 1.

(** A manager with a 1 MB envelope and one room whose byte estimate is
    above 90% of it, holding a message sent at instant 0. *)
Definition crowded : option Mgr.Manager :=
  room ← Room.NewChatRoom "s1" 500 0;
  room ← Room.AddMessage room (message "old" 0) 0;
  let room := {| Room.StreamKey := Room.StreamKey room;
                 Room.Messages := Room.Messages room;
                 Room.Users := Room.Users room;
                 Room.LastActivity := Room.LastActivity room;
                 Room.MessageCount := Room.MessageCount room;
                 Room.BytesUsed := 1000000 |} in
  Some {| Mgr.config := DefaultConfig; Mgr.rooms := {[ "s1" := room ]};
          Mgr.memTracker := Mgr.NewMemoryTracker 1 |}.

Definition unlocked : Mgr.RWMutex := {| Mgr.readers := 0; Mgr.writer := false |}.

Definition check := Limiter.CheckMessage Limiter.asciiToLower Limiter.asciiTrimSpace.

Definition fresh : Limiter.RateLimiter := Limiter.NewRateLimiter DefaultConfig.

(** The limiter after user u has sent "spam" at 100 s, 103 s and 106 s. *)
Definition threeSpams : Limiter.RateLimiter :=
  (check (check (check fresh "u" "spam" (100 * Go.Second)).1
                "u" "spam" (103 * Go.Second)).1
         "u" "spam" (106 * Go.Second)).1.

(** A limiter in which user u has three violations and an expired timeout. *)
Definition offender : Limiter.RateLimiter :=
  {| Limiter.config := DefaultConfig;
     Limiter.userRecords :=
       {[ "u" := {| Limiter.UserID := "u";
                    Limiter.Messages := [10 * Go.Second];
                    Limiter.MessageContents := ["hi"];
                    Limiter.CharCountHistory := [2];
                    Limiter.TimeoutUntil := 50 * Go.Second;
                    Limiter.Violations := 3;
                    Limiter.LastCleanup := 10 * Go.Second |} ]} |}.

End Examples.

(** ** More concrete states: a buffer, a room with a user, a handler with
    two streams, an environment *)

Module Scenes.

(** A buffer of capacity 3 after two appends. *)
Definition ring : Buffer.CircularBuffer :=
  {| Buffer.data := [Examples.message "m1" 1; Examples.message "m2" 50; Buffer.zeroMessage];
     Buffer.maxSize := 3; Buffer.head := 0; Buffer.tail := 2; Buffer.size := 2 |}.

Definition small : ChatConfig := {|
  MaxTotalMemoryMB := 100;
  MaxMessagesPerStream := 3;
  MaxUsersPerStream := 2;
  MessageRetentionMinutes := 30;
  CleanupIntervalMinutes := 5;
  InactiveStreamTimeout := 10 * Go.Minute;
  MaxMessagesPerMinute := 10;
  MaxCharactersPerMessage := 500;
  SpamThresholdMessages := 20;
  SpamTimeoutMinutes := 5;
  EnableViewerList := true;
  EnableMentions := true;
  EnableTypingStatus := false;
  EnableEmojis := true
|}.

(** A configuration whose per-stream estimate wraps around to zero:
    [2^62] messages of 500 bytes are [125 * 2^64] bytes. *)
Definition huge : ChatConfig := {|
  MaxTotalMemoryMB := 100;
  MaxMessagesPerStream := 2 ^ 62;
  MaxUsersPerStream := 0;
  MessageRetentionMinutes := 30;
  CleanupIntervalMinutes := 5;
  InactiveStreamTimeout := 10 * Go.Minute;
  MaxMessagesPerMinute := 10;
  MaxCharactersPerMessage := 500;
  SpamThresholdMessages := 20;
  SpamTimeoutMinutes := 5;
  EnableViewerList := true;
  EnableMentions := true;
  EnableTypingStatus := false;
  EnableEmojis := true
|}.

(** The room of stream s1 with that buffer and Ann in the roster. *)
Definition den : Room.ChatRoom :=
  {| Room.StreamKey := "s1"; Room.Messages := ring;
     Room.Users := {[ "a" := Mgr.newUser "a" "Ann" 1 ]};
     Room.LastActivity := 50; Room.MessageCount := 2; Room.BytesUsed := 220 |}.

Definition hall : Mgr.Manager :=
  {| Mgr.config := small; Mgr.rooms := {[ "s1" := den ]};
     Mgr.memTracker := Mgr.NewMemoryTracker 100 |}.

Definition bob : WS.Connection :=
  {| WS.UserID := "b"; WS.Username := "Bob"; WS.StreamKey := "s2"; WS.Send := 1%nat |}.

(** A session that has not joined. *)
Definition guest : WS.Connection :=
  {| WS.UserID := EmptyString; WS.Username := EmptyString; WS.StreamKey := "s1";
     WS.Send := 2%nat |}.

(** A handler in which Ann has joined stream s1 and Bob stream s2. *)
Definition lobby : WS.WSHandler :=
  {| WS.manager := Examples.emptyManager;
     WS.rateLimiter := Limiter.NewRateLimiter DefaultConfig;
     WS.connections := {[ "a" := Examples.ann; "b" := bob ]};
     WS.chans := {[ 0%nat := []; 1%nat := [] ]};
     WS.closed := ∅ |}.

(** Decimal numerals with an optional sign, standing in for
    [strconv.Atoi] when the model is run. *)
Fixpoint digits (s : string) (acc : Z) : option Z :=
  match s with
  | EmptyString => Some acc
  | String a rest =>
      let n := Z.of_nat (nat_of_ascii a) - 48 in
      if (0 <=? n) && (n <=? 9) then digits rest (10 * acc + n) else None
  end.

Definition atoi (s : string) : option Z :=
  match s with
  | EmptyString => None
  | String a rest =>
      if Ascii.eqb a "-" then
        if String.eqb rest EmptyString then None else Z.opp <$> digits rest 0
      else if Ascii.eqb a "+" then
        if String.eqb rest EmptyString then None else digits rest 0
      else digits s 0
  end.



(** Four checks of user u, all allowed: "spam" three times, then "other"
    more than four minutes later, a call whose self-cleanup finds
    nothing old enough to drop and stamps the record with 1270 s. *)
Definition minuteRun : list Limiter.op :=
  [Limiter.Ask "u" "spam" (1010 * Go.Second); Limiter.Ask "u" "spam" (1013 * Go.Second);
   Limiter.Ask "u" "spam" (1016 * Go.Second); Limiter.Ask "u" "other" (1270 * Go.Second)].

(** The limiter after [minuteRun], from a new limiter. *)
Definition minuteLater : Limiter.RateLimiter :=
  foldl (λ rl o, (Limiter.step Limiter.asciiToLower Limiter.asciiTrimSpace rl o).1)
        (Limiter.NewRateLimiter DefaultConfig) minuteRun.

Definition noCapacity : gmap string string :=
  {[ "CHAT_MAX_MESSAGES_PER_STREAM" := "0" ]}.

Definition unusable : gmap string string :=
  {[ "CHAT_MAX_MEMORY_MB" := "lots"; "CHAT_ENABLE_EMOJIS" := EmptyString ]}.

(** A manager that runs on the configuration loaded from [noCapacity]. *)
Definition broken : Mgr.Manager :=
  {| Mgr.config := Config.LoadFromEnv atoi noCapacity; Mgr.rooms := ∅;
     Mgr.memTracker := Mgr.NewMemoryTracker 100 |}.

End Scenes.

(** * Properties *)

(** ** The ring buffer *)

Ltac split_ltb :=
  repeat match goal with
  | |- context [?a <? ?b] => destruct (Z.ltb_spec a b)
  | H : context [?a <? ?b] |- _ => destruct (Z.ltb_spec a b)
  end.

Section BufferFacts.
Import Buffer.

Lemma rem_nonneg a b : 0 ≤ a → 0 < b → Go.rem a b = Some (a mod b).
Proof.
  intros Ha Hb. unfold Go.rem.
  destruct (Z.eqb_spec b 0); [lia|].
  by rewrite Z.rem_mod_nonneg by lia.
Qed.

Lemma mod_window x m : 0 < m → 0 ≤ x < 2 * m →
  x mod m = if x <? m then x else x - m.
Proof.
  intros Hm Hx. destruct (Z.ltb_spec x m).
  - apply Z.mod_small; lia.
  - rewrite <- (Z.mod_small (x - m) m) by lia.
    replace x with ((x - m) + 1 * m) at 1 by lia.
    by rewrite Z.mod_add by lia.
Qed.

Lemma index_nat {A} (l : list A) (i : Z) : 0 ≤ i → Go.index l i = l !! Z.to_nat i.
Proof. intros Hi. unfold Go.index. by destruct (Z.ltb_spec i 0); [lia|]. Qed.

Lemma copy_out_Some cb start count l :
  0 < maxSize cb → 0 ≤ head cb → 0 ≤ start → 0 ≤ count →
  copy_out cb start count = Some l ↔
  length l = Z.to_nat count ∧
  ∀ i : nat, (i < length l)%nat →
    l !! i = data cb !! Z.to_nat ((head cb + start + Z.of_nat i) mod maxSize cb) ∧
    is_Some (l !! i).
Proof.
  intros HM Hh Hs Hc. unfold copy_out.
  destruct (Z.ltb_spec count 0); [lia|].
  rewrite mapM_Some. split.
  - intros HF. pose proof (Forall2_length _ _ _ HF) as Hlen.
    rewrite length_seqZ in Hlen. split; [done|].
    intros i Hi.
    destruct (lookup_lt_is_Some_2 l i Hi) as [y Hy].
    assert (seqZ 0 count !! i = Some (0 + Z.of_nat i)) as Hx
      by (apply lookup_seqZ_lt; lia).
    rewrite Z.add_0_l in Hx.
    pose proof (Forall2_lookup_lr _ _ _ _ _ _ HF Hx Hy) as Hf. simpl in Hf.
    rewrite rem_nonneg in Hf by lia. simpl in Hf.
    rewrite index_nat in Hf by (apply Z.mod_pos_bound; lia).
    rewrite Hy. split; [by rewrite Hf | by eexists].
  - intros [Hlen Hl]. apply Forall2_same_length_lookup_2.
    + by rewrite length_seqZ.
    + intros i x y Hx Hy. apply lookup_seqZ in Hx as [-> Hx].
      assert (i < length l)%nat as Hi by (by apply lookup_lt_Some in Hy).
      destruct (Hl i Hi) as [Heq _].
      rewrite rem_nonneg by lia. simpl.
      rewrite index_nat by (apply Z.mod_pos_bound; lia).
      rewrite Z.add_0_l in *. by rewrite <- Heq.
Qed.

Lemma GetAll_snapshot cb l : wf cb → GetAll cb = Some l ↔ snapshot_of cb l.
Proof.
  intros (HM & Hlen & Hh & Hs & Ht). unfold GetAll, snapshot_of.
  destruct (Z.eqb_spec (size cb) 0) as [H0|H0].
  - rewrite H0. simpl. split.
    + intros [= <-]. split; [done|]. simpl. lia.
    + intros [Hl _]. by destruct l.
  - rewrite copy_out_Some by lia. rewrite Z.add_0_r.
    split; intros [Hl Hi]; (split; [done|]); intros i Hlt.
    + by destruct (Hi i Hlt).
    + split; [by apply Hi | by apply lookup_lt_is_Some_2].
Qed.

Lemma snapshot_exists cb : wf cb → ∃ l, snapshot_of cb l.
Proof.
  intros (HM & Hlen & Hh & Hs & Ht).
  assert (∀ n : nat, (Z.of_nat n ≤ size cb) → ∃ l, length l = n ∧
    ∀ i : nat, (i < n)%nat →
      l !! i = data cb !! Z.to_nat ((head cb + Z.of_nat i) mod maxSize cb)) as Hn.
  { induction n as [|n IH]; intros Hle.
    - exists []. split; [done|]. lia.
    - destruct IH as (l & Hl & Hi); [lia|].
      destruct (lookup_lt_is_Some_2 (data cb)
        (Z.to_nat ((head cb + Z.of_nat n) mod maxSize cb))) as [x Hx].
      { rewrite Hlen. pose proof (Z.mod_pos_bound (head cb + Z.of_nat n) (maxSize cb) HM). lia. }
      exists (l ++ [x]). split; [rewrite length_app; simpl; lia|].
      intros i Hlt. destruct (decide (i = n)) as [->|Hne].
      + rewrite lookup_app_r by lia. rewrite Hl, Nat.sub_diag. simpl. by rewrite Hx.
      + rewrite lookup_app_l by lia. apply Hi. lia. }
  destruct (Hn (Z.to_nat (size cb))) as (l & Hl & Hi); [lia|].
  exists l. split; [done|]. intros i Hlt. apply Hi. lia.
Qed.

Lemma New_wf c : 0 < c →
  ∃ cb, NewCircularBuffer c = Some cb ∧ wf cb ∧ snapshot_of cb [] ∧
        maxSize cb = c ∧ size cb = 0.
Proof.
  intros Hc. unfold NewCircularBuffer. destruct (Z.ltb_spec c 0); [lia|].
  eexists. split; [done|]. repeat split; simpl; try lia.
  by rewrite length_replicate.
Qed.

(** One append: the new snapshot is the old one, less its eldest entry
    when the buffer was full, followed by the new message. *)
Lemma Add_snapshot cb l msg :
  wf cb → snapshot_of cb l →
  ∃ cb', Add cb msg = Some cb' ∧ wf cb' ∧ maxSize cb' = maxSize cb ∧
    size cb' = (if size cb <? maxSize cb then size cb + 1 else size cb) ∧
    snapshot_of cb' ((if size cb <? maxSize cb then l else drop 1 l) ++ [msg]).
Proof.
  intros (HM & Hlen & Hh & Hs & Ht) [Hl Hi].
  assert (0 ≤ tail cb < maxSize cb) as Htl
    by (rewrite Ht; apply Z.mod_pos_bound; lia).
  unfold Add, Go.store.
  destruct (Z.leb_spec 0 (tail cb)); [|lia].
  destruct (Z.ltb_spec (tail cb) (Z.of_nat (length (data cb)))); [|lia].
  simpl. rewrite !rem_nonneg by lia. simpl.
  rewrite mod_window in Ht by lia.
  destruct (Z.ltb_spec (size cb) (maxSize cb)) as [Hlt|Hge].
  - eexists. split; [done|]. simpl.
    assert (tail cb + 1 < 2 * maxSize cb) by lia.
    repeat split; simpl; try lia.
    + by rewrite length_insert.
    + rewrite !mod_window by lia.
      split_ltb; lia.
    + rewrite length_app. simpl. lia.
    + intros i Hlti. rewrite length_app in Hlti. simpl in Hlti.
      rewrite mod_window by lia.
      destruct (decide (i = length l)) as [->|Hne].
      * rewrite lookup_app_r by lia. rewrite Nat.sub_diag. simpl.
        replace (Z.to_nat _) with (Z.to_nat (tail cb)).
        -- by rewrite list_lookup_insert_eq by lia.
        -- f_equal. split_ltb; lia.
      * rewrite lookup_app_l by lia. rewrite Hi by lia.
        rewrite list_lookup_insert_ne; [by rewrite mod_window by lia|].
        split_ltb; lia.
  - assert (size cb = maxSize cb) as Hfull by lia.
    eexists. split; [done|]. simpl.
    assert (tail cb = head cb) as Hth
      by (split_ltb; lia).
    repeat split; simpl; try lia; try (apply Z.mod_pos_bound; lia).
    + by rewrite length_insert.
    + rewrite Hth. rewrite !mod_window by lia. rewrite mod_window by
        (split_ltb; lia).
      split_ltb; lia.
    + rewrite length_app, length_drop. simpl. lia.
    + intros i Hlti. rewrite length_app, length_drop in Hlti. simpl in Hlti.
      rewrite (mod_window (head cb + 1)) by lia.
      rewrite mod_window by (split_ltb; lia).
      destruct (decide (i = (length l - 1)%nat)) as [->|Hne].
      * rewrite lookup_app_r by (rewrite length_drop; lia).
        rewrite length_drop, Nat.sub_diag. simpl.
        replace (Z.to_nat _) with (Z.to_nat (tail cb)).
        -- by rewrite list_lookup_insert_eq by lia.
        -- f_equal. split_ltb; lia.
      * rewrite lookup_app_l by (rewrite length_drop; lia).
        rewrite lookup_drop. rewrite Hi by lia.
        rewrite list_lookup_insert_ne.
        -- f_equal. f_equal. rewrite mod_window by lia.
           split_ltb; lia.
        -- split_ltb; lia.
Qed.

Lemma lastn_snoc {A} (c : nat) (hist : list A) (x : A) :
  (0 < c)%nat →
  (if (length hist <? c)%nat then lastn c hist else drop 1 (lastn c hist)) ++ [x]
  = lastn c (hist ++ [x]).
Proof.
  intros Hc. unfold lastn. rewrite length_app. simpl.
  destruct (Nat.ltb_spec (length hist) c) as [Hlt|Hge].
  - replace (length hist - c)%nat with 0%nat by lia.
    replace (length hist + 1 - c)%nat with 0%nat by lia. done.
  - rewrite drop_drop.
    replace (length hist + 1 - c)%nat with (length hist - c + 1)%nat by lia.
    by rewrite drop_app_le by lia.
Qed.

Lemma length_lastn {A} (c : nat) (l : list A) :
  length (lastn c l) = Nat.min c (length l).
Proof. unfold lastn. rewrite length_drop. lia. Qed.

(** Appends keep the invariant, and the snapshot is the last [maxSize]
    entries of everything appended so far. *)
Lemma Adds_snapshot cb hist msgs :
  wf cb → snapshot_of cb (lastn (Z.to_nat (maxSize cb)) hist) →
  ∃ cb', Adds cb msgs = Some cb' ∧ wf cb' ∧ maxSize cb' = maxSize cb ∧
    snapshot_of cb' (lastn (Z.to_nat (maxSize cb)) (hist ++ msgs)).
Proof.
  revert cb hist. induction msgs as [|m msgs IH]; intros cb hist Hwf Hsnap.
  - exists cb. by rewrite app_nil_r.
  - destruct (Add_snapshot cb _ m Hwf Hsnap) as (cb1 & Hadd & Hwf1 & HM1 & Hsz1 & Hsnap1).
    assert (0 < maxSize cb) as HM by apply Hwf.
    assert ((size cb <? maxSize cb) = (length hist <? Z.to_nat (maxSize cb))%nat) as Hfull.
    { destruct Hsnap as [Hl _]. rewrite length_lastn in Hl.
      destruct Hwf as (_ & _ & _ & Hs & _).
      destruct (Z.ltb_spec (size cb) (maxSize cb)), (Nat.ltb_spec (length hist) (Z.to_nat (maxSize cb))); lia. }
    rewrite Hfull in Hsnap1.
    rewrite lastn_snoc in Hsnap1 by lia.
    rewrite <- HM1 in Hsnap1.
    destruct (IH cb1 (hist ++ [m]) Hwf1 Hsnap1) as (cb' & Hadds & Hwf' & HM' & Hsnap').
    exists cb'. simpl. rewrite Hadd. simpl.
    rewrite <- app_assoc in Hsnap'. simpl in Hsnap'. rewrite HM1 in *.
    done.
Qed.

(** C2: on a fresh buffer of capacity [c >= 1], after every prefix of a
    run of appends [0 <= size <= c] holds and [GetAll] returns the last
    [c] messages appended, oldest first; once more than [c] messages
    were appended that is a list of exactly [c] messages. *)
Theorem ring_buffer_keeps_last_c (c : Z) (msgs : list ChatMessage) :
  1 ≤ c →
  ∃ cb0, NewCircularBuffer c = Some cb0 ∧
    ∀ k : nat, ∃ cb,
      Adds cb0 (take k msgs) = Some cb ∧
      maxSize cb = c ∧
      0 ≤ size cb ≤ c ∧
      size cb = Z.min c (Z.of_nat (length (take k msgs))) ∧
      GetAll cb = Some (lastn (Z.to_nat c) (take k msgs)) ∧
      (c < Z.of_nat (length (take k msgs)) →
         length (lastn (Z.to_nat c) (take k msgs)) = Z.to_nat c).
Proof.
  intros Hc.
  destruct (New_wf c) as (cb0 & Hnew & Hwf0 & Hsnap0 & HM0 & Hs0); [lia|].
  exists cb0. split; [done|]. intros k.
  destruct (Adds_snapshot cb0 [] (take k msgs) Hwf0) as (cb & Hadds & Hwf & HM & Hsnap).
  { by rewrite HM0. }
  simpl in Hsnap. rewrite HM0 in *.
  exists cb. split; [done|]. split; [done|].
  pose proof Hsnap as [Hl _]. rewrite length_lastn in Hl.
  destruct Hwf as (? & ? & ? & Hs & ?).
  repeat split; try lia.
  - apply GetAll_snapshot; [|done]. repeat split; try done; lia.
  - intros Hgt. rewrite length_lastn. lia.
Qed.

Lemma ring_buffer_keeps_last_c_witness :
  ∃ cb0, NewCircularBuffer 2 = Some cb0 ∧
    ∀ k : nat, ∃ cb,
      Adds cb0 (take k [zeroMessage; zeroMessage; zeroMessage]) = Some cb ∧
      maxSize cb = 2 ∧
      0 ≤ size cb ≤ 2 ∧
      size cb = Z.min 2 (Z.of_nat (length (take k [zeroMessage; zeroMessage; zeroMessage]))) ∧
      GetAll cb = Some (lastn (Z.to_nat 2) (take k [zeroMessage; zeroMessage; zeroMessage])) ∧
      (2 < Z.of_nat (length (take k [zeroMessage; zeroMessage; zeroMessage])) →
         length (lastn (Z.to_nat 2) (take k [zeroMessage; zeroMessage; zeroMessage])) = Z.to_nat 2).
Proof. apply (ring_buffer_keeps_last_c 2 [zeroMessage; zeroMessage; zeroMessage]). lia. Defined.

End BufferFacts.

(** ** The rate limiter *)

Section LimiterFacts.
Import Limiter.

Variables ToLower TrimSpace : string → string.

Abbreviation similar := (Tiers.similar ToLower TrimSpace).
Abbreviation similarCount := (Tiers.similarCount ToLower TrimSpace).
Abbreviation trigger := (Tiers.trigger ToLower TrimSpace).
Abbreviation firstMatch := (Tiers.firstMatch ToLower TrimSpace).
Abbreviation checkRecord := (Limiter.checkRecord ToLower TrimSpace).
Abbreviation CheckMessage := (Limiter.CheckMessage ToLower TrimSpace).
Abbreviation isDuplicateSpam := (Limiter.isDuplicateSpam ToLower TrimSpace).
Abbreviation follows_table := (Tiers.follows_table ToLower TrimSpace).
Abbreviation run := (Limiter.run ToLower TrimSpace).
Abbreviation step := (Limiter.step ToLower TrimSpace).

Lemma wrap64_int z : Go.is_int z → Go.wrap64 z = z.
Proof.
  unfold Go.is_int, Go.min_int64, Go.max_int64, Go.wrap64. intros Hz.
  rewrite Z.mod_small; lia.
Qed.

Lemma similarity_same a b : String.eqb a b = true →
  PrimFloat.ltb eight_tenths (similarity a b) = true.
Proof. intros H. unfold similarity. rewrite H. reflexivity. Qed.

Lemma duplicateStep_similar text count old :
  duplicateStep ToLower TrimSpace (ToLower (TrimSpace text)) count old
  = count + (if similar old text then 1 else 0).
Proof.
  unfold duplicateStep, Tiers.similar.
  destruct (String.eqb _ _) eqn:Heq.
  - by rewrite similarity_same.
  - destruct (PrimFloat.ltb _ _); lia.
Qed.

Lemma duplicate_loop text l count :
  fold_left (duplicateStep ToLower TrimSpace (ToLower (TrimSpace text))) l count
  = count + Z.of_nat (length (List.filter (λ old, similar old text) l)).
Proof.
  revert count. induction l as [|old l IH]; intros count; simpl; [lia|].
  rewrite IH, duplicateStep_similar.
  destruct (similar old text); simpl; lia.
Qed.

(** T4 of the table and [isDuplicateSpam] agree. *)
Lemma isDuplicateSpam_table r text :
  isDuplicateSpam r text = (3 <=? similarCount (MessageContents r) text)%nat.
Proof.
  unfold Limiter.isDuplicateSpam, Tiers.similarCount, Buffer.lastn.
  set (l := MessageContents r).
  destruct (Nat.ltb_spec (length l) 3) as [Hlt|Hge].
  - symmetry. apply Nat.leb_gt.
    eapply Nat.le_lt_trans; [apply List.filter_length_le|].
    rewrite length_drop. lia.
  - rewrite duplicate_loop.
    replace (length l - (if (5 <? length l)%nat then 5%nat else length l))%nat
      with (length l - 5)%nat by (destruct (Nat.ltb_spec 5 (length l)); lia).
    set (n := length (List.filter _ _)).
    destruct (Nat.leb_spec 3 n), (Z.geb_spec (0 + Z.of_nat n) 3); lia.
Qed.

Lemma find_first {A} (f : A → bool) (l : list A) (x : A) :
  List.find f l = Some x →
  ∃ before after, l = before ++ x :: after ∧
    Forall (λ u, f u = false) before ∧ f x = true.
Proof.
  induction l as [|y l IH]; simpl; [done|].
  destruct (f y) eqn:Hy.
  - intros [= ->]. exists [], l. by repeat split.
  - intros Hfind. destruct (IH Hfind) as (before & after & -> & Hall & Hx).
    exists (y :: before), after. repeat split; [|done]. by constructor.
Qed.

Lemma firstMatch_unfold cfg r text now :
  firstMatch cfg r text now =
    let f := trigger cfg r text now in
    if f Tiers.T0 then Tiers.T0 else if f Tiers.T1 then Tiers.T1
    else if f Tiers.T2a then Tiers.T2a else if f Tiers.T2b then Tiers.T2b
    else if f Tiers.T2c then Tiers.T2c else if f Tiers.T3long then Tiers.T3long
    else if f Tiers.T3med then Tiers.T3med else if f Tiers.T4 then Tiers.T4
    else if f Tiers.T5 then Tiers.T5
    else if f Tiers.Escalation then Tiers.Escalation else Tiers.Allow.
Proof.
  unfold Tiers.firstMatch, Tiers.order. cbn [List.find].
  repeat (destruct (trigger _ _ _ _ _); [done|]). done.
Qed.

Lemma cleanup_keeps r now :
  TimeoutUntil (cleanup r now) = TimeoutUntil r ∧
  Violations (cleanup r now) = Violations r ∧
  UserID (cleanup r now) = UserID r.
Proof. unfold cleanup. by destruct (_ <? _). Qed.

Ltac table_simpl :=
  cbn [fst snd andb negb fmap option_fmap option_map Code deny
       Tiers.allows Tiers.code Tiers.timeout Tiers.delta Tiers.history
       TimeoutUntil Violations UserID Messages MessageContents CharCountHistory
       addViolations applyTimeout recordMessage].

Ltac table_case_with Hwrap Hto Hv Hid :=
  table_simpl; rewrite ?Z.add_0_r, ?Hwrap, ?Hto, ?Hv, ?Hid; done.

Lemma checkRecord_table cfg r text now :
  Go.is_int (Violations r) →
  follows_table cfg r text now (checkRecord cfg r text now).1
                                (checkRecord cfg r text now).2.
Proof.
  intros Hint. pose proof (wrap64_int _ Hint) as Hwrap.
  destruct (cleanup_keeps r now) as (Hto & Hv & Hid).
  unfold Tiers.follows_table. rewrite firstMatch_unfold.
  unfold Limiter.checkRecord, Tiers.trigger, Go.Before.
  rewrite isDuplicateSpam_table.
  set (hist := cleanup r now) in *.
  set (n10 := countMessagesInWindow hist (10 * Go.Second) now).
  set (n30 := countMessagesInWindow hist (30 * Go.Second) now).
  set (n60 := countMessagesInWindow hist (60 * Go.Second) now).
  set (chars := countCharsInWindow hist (5 * Go.Minute) now).
  set (dup := (3 <=? similarCount (MessageContents hist) text)%nat).
  cbv zeta.
  destruct (now <? TimeoutUntil r); [table_case_with Hwrap Hto Hv Hid|].
  destruct (Go.len text >? MaxCharactersPerMessage cfg); [table_case_with Hwrap Hto Hv Hid|].
  destruct (n10 >=? 5) eqn:H5; [table_case_with Hwrap Hto Hv Hid|].
  destruct (n30 >=? 10); [table_case_with Hwrap Hto Hv Hid|].
  destruct (n60 >=? 20); [table_case_with Hwrap Hto Hv Hid|].
  destruct (Go.len text >? 300) eqn:H300.
  - destruct (n10 >=? 1) eqn:H1; [table_case_with Hwrap Hto Hv Hid|].
    assert ((Go.len text >? 100) = true) as -> by lia.
    assert ((n10 >=? 3) = false) as -> by lia.
    destruct dup; [table_case_with Hwrap Hto Hv Hid|].
    destruct (Go.len text >=? 400); [destruct (chars >? 2000); [table_case_with Hwrap Hto Hv Hid|]|];
      rewrite Hv;
      destruct (Violations r >=? 5) eqn:E5, (Violations r >=? 4) eqn:E4,
               (Violations r >=? 3) eqn:E3;
      try (exfalso; lia);
      table_simpl; rewrite ?E5, ?E4; table_case_with Hwrap Hto Hv Hid.
  - assert ((Go.len text >=? 400) = false) as -> by lia.
    destruct (Go.len text >? 100); [destruct (n10 >=? 3); [table_case_with Hwrap Hto Hv Hid|]|];
      (destruct dup; [table_case_with Hwrap Hto Hv Hid|]);
      rewrite Hv;
      destruct (Violations r >=? 5) eqn:E5, (Violations r >=? 4) eqn:E4,
               (Violations r >=? 3) eqn:E3;
      try (exfalso; lia);
      table_simpl; rewrite ?E5, ?E4; table_case_with Hwrap Hto Hv Hid.
Qed.

Lemma CheckMessage_eq rl userID text now :
  CheckMessage rl userID text now =
    ({| config := config rl;
        userRecords :=
          <[userID := (checkRecord (config rl) (getOrCreateRecord rl userID now).2
                                   text now).1]>
            (userRecords (getOrCreateRecord rl userID now).1) |},
     (checkRecord (config rl) (getOrCreateRecord rl userID now).2 text now).2).
Proof.
  unfold Limiter.CheckMessage, getOrCreateRecord.
  destruct (userRecords rl !! userID) as [r0|]; cbn [fst snd config userRecords];
    by destruct (checkRecord _ _ _ _).
Qed.

(** *** Histories of checks and reaper runs *)

Lemma CheckMessage_self rl userID text now r :
  userRecords rl !! userID = Some r →
  CheckMessage rl userID text now =
    ({| config := config rl;
        userRecords := <[userID := (checkRecord (config rl) r text now).1]>
                         (userRecords rl) |},
     (checkRecord (config rl) r text now).2).
Proof.
  intros Hr. unfold Limiter.CheckMessage, getOrCreateRecord. rewrite Hr.
  by destruct (checkRecord _ _ _ _).
Qed.

Lemma CheckMessage_other rl userID other text now :
  other ≠ userID →
  userRecords (CheckMessage rl other text now).1 !! userID
  = userRecords rl !! userID.
Proof.
  intros Hne. unfold Limiter.CheckMessage, getOrCreateRecord.
  destruct (userRecords rl !! other); simpl;
    destruct (checkRecord _ _ _ _); simpl;
    by rewrite !lookup_insert_ne.
Qed.

Lemma checkRecord_timed_out cfg r text now :
  now < TimeoutUntil r →
  checkRecord cfg r text now =
    (r, deny "TIMEOUT" "You are timed out. Please wait before sending messages.").
Proof.
  intros Hlt. unfold Limiter.checkRecord, Go.Before.
  by destruct (Z.ltb_spec now (TimeoutUntil r)); [|lia].
Qed.

Lemma performCleanup_lookup rl now userID :
  userRecords (performCleanup rl now) !! userID =
    match userRecords rl !! userID with
    | Some r => if inactive r now then None else Some r
    | None => None
    end.
Proof.
  unfold performCleanup. simpl. rewrite map_lookup_filter.
  destruct (userRecords rl !! userID) as [r|]; simpl; [|done].
  case_guard as Hg; simpl in *; destruct (inactive r now); congruence.
Qed.

Lemma Sub_gt now t d :
  Go.min_int64 ≤ d < Go.max_int64 → (Go.Sub now t >? d) = (now - t >? d).
Proof.
  unfold Go.Sub, Go.min_int64, Go.max_int64. intros Hd.
  destruct (Z.gtb_spec (now - t) d), (Z.gtb_spec (Z.max (- 2 ^ 63) (Z.min (2 ^ 63 - 1) (now - t))) d); lia.
Qed.

(** When a record is marked by the reaper. *)
Lemma inactive_iff r now :
  inactive r now = true ↔
  Messages r = [] ∨ ∃ t, last (Messages r) = Some t ∧ now - t > 30 * Go.Minute.
Proof.
  unfold inactive. destruct (Messages r) as [|t0 l] eqn:Hm.
  - simpl. by split; [left|].
  - rewrite <- Hm. assert (length (Messages r) ≠ 0%nat) as Hlen by by rewrite Hm.
    destruct (Nat.eqb_spec (length (Messages r)) 0); [done|].
    destruct (Nat.ltb_spec 0 (length (Messages r))); [|lia]. simpl.
    destruct (last (Messages r)) as [t|] eqn:Hlast.
    + rewrite Sub_gt by (unfold Go.min_int64, Go.max_int64, Go.Minute, Go.Second; lia).
      split.
      * intros Hgt. right. exists t. split; [done|]. lia.
      * intros [Hnil|(t' & [= <-] & Hgt)]; [by rewrite Hm in Hnil|]. lia.
    + split; [done|]. intros [Hnil|(t' & ? & _)]; [by rewrite Hm in Hnil|done].
Qed.


Lemma run_lookup_0 rl o ops : run rl (o :: ops) !! 0%nat = Some (step rl o).
Proof. done. Qed.

Lemma run_lookup_S rl o ops i :
  run rl (o :: ops) !! S i = run (step rl o).1 ops !! i.
Proof. done. Qed.



(** *** The violation counter *)

Lemma checkRecord_violations cfg r text now :
  Go.min_int64 ≤ Violations r → Violations r + 2 ≤ Go.max_int64 →
  let out := checkRecord cfg r text now in
  Violations r ≤ Violations out.1 ≤ Violations r + 2 ∧
  (3 ≤ Violations r →
     out.2.1 = false ∧
     (Code <$> out.2.2 = Some "REPEAT_OFFENDER" →
        Go.Add now (5 * Go.Minute) ≤ TimeoutUntil out.1)).
Proof.
  intros Hmin Hmax out.
  assert (Go.is_int (Violations r)) as Hint by (unfold Go.is_int; lia).
  destruct (checkRecord_table cfg r text now Hint)
    as (Hallow & Hcode & Hto & Hv & _).
  fold out in Hallow, Hcode, Hto, Hv.
  set (t := firstMatch cfg r text now) in *.
  assert (0 ≤ Tiers.delta t ≤ 2) as Hd by (destruct t; simpl; lia).
  rewrite wrap64_int in Hv by (unfold Go.is_int; lia).
  split; [lia|]. intros H3. split.
  - rewrite Hallow. destruct t eqn:Ht; try done. exfalso.
    subst t. rewrite firstMatch_unfold in Ht. cbv zeta in Ht.
    assert (trigger cfg r text now Tiers.Escalation = false) as Hesc.
    { revert Ht. repeat (destruct (trigger _ _ _ _ _); [discriminate|]). done. }
    unfold Tiers.trigger in Hesc. lia.
  - rewrite Hcode. intros Hc. destruct t; try done.
    rewrite Hto. unfold Tiers.timeout, Go.Add, Go.Minute, Go.Second.
    repeat destruct (_ >=? _); lia.
Qed.

Lemma step_violations rl o userID r :
  userRecords rl !! userID = Some r →
  Go.min_int64 ≤ Violations r → Violations r + 2 ≤ Go.max_int64 →
  is_Some (userRecords (step rl o).1 !! userID) →
  ∃ r1, userRecords (step rl o).1 !! userID = Some r1 ∧
    Violations r ≤ Violations r1 ≤ Violations r + 2 ∧
    (3 ≤ Violations r → ∀ text t, o = Ask userID text t →
       ∃ res, (step rl o).2 = Some res ∧ res.1 = false ∧
         (Code <$> res.2 = Some "REPEAT_OFFENDER" →
            Go.Add t (5 * Go.Minute) ≤ TimeoutUntil r1)).
Proof.
  intros Hr Hmin Hmax Halive.
  destruct o as [other text t|t]; cbn [Limiter.step fst snd] in *.
  - destruct (decide (other = userID)) as [->|Hne].
    + rewrite (CheckMessage_self _ _ _ _ r Hr). cbn [fst snd userRecords].
      rewrite lookup_insert_eq. eexists. split; [done|].
      destruct (checkRecord_violations (config rl) r text t Hmin Hmax) as [Hmono Hdeny].
      split; [done|]. intros H3 text' t' [= <- <-].
      eexists. split; [done|]. by apply Hdeny.
    + destruct (CheckMessage rl other text t) as [rl1 res] eqn:Hck. simpl.
      replace rl1 with (CheckMessage rl other text t).1 by by rewrite Hck.
      rewrite CheckMessage_other by done.
      exists r. split; [done|]. split; [lia|]. intros _ text' t' [= -> _ _]. done.
  - rewrite performCleanup_lookup, Hr in Halive |- *.
    destruct (inactive r t); [by destruct Halive|].
    exists r. split; [done|]. split; [lia|]. intros _ text' t' [=].
Qed.

Lemma run_violations userID ops : ∀ rl r i rl_i res,
  userRecords rl !! userID = Some r →
  Go.min_int64 ≤ Violations r →
  Violations r + 2 * Z.of_nat (length ops) ≤ Go.max_int64 →
  run rl ops !! i = Some (rl_i, res) →
  (∀ j rl_j o, (j ≤ i)%nat → run rl ops !! j = Some (rl_j, o) →
     is_Some (userRecords rl_j !! userID)) →
  ∃ r_i, userRecords rl_i !! userID = Some r_i ∧
    Violations r ≤ Violations r_i ∧
    (3 ≤ Violations r → ∀ text t, ops !! i = Some (Ask userID text t) →
       ∃ res', res = Some res' ∧ res'.1 = false ∧
         (Code <$> res'.2 = Some "REPEAT_OFFENDER" →
            Go.Add t (5 * Go.Minute) ≤ TimeoutUntil r_i)).
Proof.
  induction ops as [|o ops IH]; intros rl r i rl_i res Hr Hmin Hmax Hrun Halive; [done|].
  rewrite length_cons in Hmax.
  assert (is_Some (userRecords (step rl o).1 !! userID)) as Hsome.
  { apply (Halive 0%nat _ (step rl o).2); [lia|]. simpl. by destruct (step rl o). }
  destruct (step_violations rl o userID r Hr) as (r1 & Hr1 & Hmono & Hdeny);
    [lia|lia|done|].
  destruct i as [|i].
  - rewrite run_lookup_0 in Hrun. injection Hrun as Hrun.
    rewrite Hrun in *. cbn [fst snd] in *.
    exists r1. split; [done|]. split; [lia|].
    intros H3 text t [= ->].
    destruct (Hdeny H3 text t eq_refl) as (res' & Hres & Hfalse & Hto).
    by exists res'.
  - rewrite run_lookup_S in Hrun.
    destruct (IH (step rl o).1 r1 i rl_i res Hr1) as (r_i & Hri & Hmono_i & Hdeny_i);
      [lia|lia|done| |].
    { intros j rl_j o' Hj Hrunj. apply (Halive (S j) rl_j o'); [lia|done]. }
    exists r_i. split; [done|]. split; [lia|].
    intros H3 text t Hop. apply (Hdeny_i ltac:(lia) text t Hop).
Qed.

(** C10: along any history of checks and reaper runs, for as long as the
    user's record exists its violation counter never decreases; and from
    the moment the counter is at 3 or more every check of that user is
    denied, a REPEAT_OFFENDER denial leaving a timeout of at least five
    minutes from that check.  (The counter is a Go int: the bound on it
    keeps the history short of the 2^63 violations that would wrap it.) *)
Theorem violations_only_grow (rl : RateLimiter) (userID : string)
    (r : UserRateRecord) (ops : list op) :
  userRecords rl !! userID = Some r →
  Go.min_int64 ≤ Violations r →
  Violations r + 2 * Z.of_nat (length ops) ≤ Go.max_int64 →
  ∀ i rl_i res,
    run rl ops !! i = Some (rl_i, res) →
    (∀ j rl_j o, (j ≤ i)%nat → run rl ops !! j = Some (rl_j, o) →
       is_Some (userRecords rl_j !! userID)) →
    ∃ r_i, userRecords rl_i !! userID = Some r_i ∧
      Violations r ≤ Violations r_i ∧
      (3 ≤ Violations r → ∀ text t, ops !! i = Some (Ask userID text t) →
         ∃ res', res = Some res' ∧ res'.1 = false ∧
           (Code <$> res'.2 = Some "REPEAT_OFFENDER" →
              Go.Add t (5 * Go.Minute) ≤ TimeoutUntil r_i)).
Proof. intros. by eapply run_violations. Qed.

(** *** The reaper *)

(** C7, as the code has it: a run of the reaper removes exactly the
    records that hold no message or whose last recorded message is more
    than 30 minutes old; every other record is kept as it was, timeout
    and violations included, and no record is created. *)
Theorem reaper_removes_inactive (rl : RateLimiter) (now : Go.Time) (userID : string) :
  config (performCleanup rl now) = config rl ∧
  (userRecords rl !! userID = None →
     userRecords (performCleanup rl now) !! userID = None) ∧
  ∀ r, userRecords rl !! userID = Some r →
    let stale := Messages r = [] ∨
                 ∃ t, last (Messages r) = Some t ∧ now - t > 30 * Go.Minute in
    (stale → userRecords (performCleanup rl now) !! userID = None) ∧
    (¬ stale → userRecords (performCleanup rl now) !! userID = Some r).
Proof.
  split; [done|]. rewrite performCleanup_lookup. split.
  - by intros ->.
  - intros r ->. pose proof (inactive_iff r now) as Hiff. simpl.
    destruct (inactive r now); split; try done.
    + intros Hno. destruct Hno. by apply Hiff.
    + intros Hst. apply Hiff in Hst. done.
Qed.

(** *** Identical messages *)

Lemma count_loop_bounds cutoff l count :
  count ≤ fold_left (λ count timestamp,
                       if Go.After timestamp cutoff then count + 1 else count) l count
        ≤ count + Z.of_nat (length l).
Proof.
  revert count. induction l as [|t l IH]; intros count; simpl; [lia|].
  destruct (Go.After t cutoff); [specialize (IH (count + 1))|specialize (IH count)]; lia.
Qed.

Lemma countMessagesInWindow_le r window now :
  0 ≤ countMessagesInWindow r window now ≤ Z.of_nat (length (Messages r)).
Proof. unfold countMessagesInWindow. apply count_loop_bounds. Qed.

Lemma cleanup_recent r now :
  now - LastCleanup r < Go.Minute → cleanup r now = r.
Proof.
  intros Hlt. unfold cleanup, Go.Sub, Go.min_int64, Go.max_int64.
  unfold Go.Minute, Go.Second in *.
  by destruct (Z.ltb_spec (Z.max (- 2 ^ 63) (Z.min (2 ^ 63 - 1) (now - LastCleanup r)))
                          (60 * 1000000000)); [|lia].
Qed.

(** A short message from a user with fewer than five recorded messages,
    no timeout and fewer than three violations is decided by the
    duplicate test alone. *)
Lemma checkRecord_short cfg r text now :
  TimeoutUntil r ≤ now → now - LastCleanup r < Go.Minute →
  Go.len text ≤ 100 → Go.len text ≤ MaxCharactersPerMessage cfg →
  (length (Messages r) < 5)%nat → Violations r < 3 →
  checkRecord cfg r text now =
    if isDuplicateSpam r text then
      (addViolations (applyTimeout r (5 * Go.Minute) now) 1,
       deny "DUPLICATE_SPAM" "Stop sending the same message repeatedly. (5 minute timeout)")
    else (recordMessage r text (Go.len text) now, (true, None)).
Proof.
  intros Hto Hcl Hlen Hmax Hfew Hv. unfold Limiter.checkRecord, Go.Before.
  destruct (Z.ltb_spec now (TimeoutUntil r)); [lia|].
  rewrite cleanup_recent by done.
  destruct (Z.gtb_spec (Go.len text) (MaxCharactersPerMessage cfg)); [lia|].
  pose proof (countMessagesInWindow_le r (10 * Go.Second) now).
  pose proof (countMessagesInWindow_le r (30 * Go.Second) now).
  pose proof (countMessagesInWindow_le r (60 * Go.Second) now).
  destruct (Z.geb_spec (countMessagesInWindow r (10 * Go.Second) now) 5); [lia|].
  destruct (Z.geb_spec (countMessagesInWindow r (30 * Go.Second) now) 10); [lia|].
  destruct (Z.geb_spec (countMessagesInWindow r (60 * Go.Second) now) 20); [lia|].
  destruct (Z.gtb_spec (Go.len text) 300); [lia|].
  destruct (Z.gtb_spec (Go.len text) 100); [lia|].
  destruct (isDuplicateSpam r text); [done|].
  destruct (Z.geb_spec (Go.len text) 400); [lia|]. simpl.
  destruct (Z.geb_spec (Violations r) 5); [lia|].
  destruct (Z.geb_spec (Violations r) 4); [lia|].
  destruct (Z.geb_spec (Violations r) 3); [lia|]. done.
Qed.

Lemma isDuplicateSpam_few r text :
  (length (MessageContents r) < 3)%nat → isDuplicateSpam r text = false.
Proof.
  intros Hlt. unfold Limiter.isDuplicateSpam.
  by destruct (Nat.ltb_spec (length (MessageContents r)) 3); [|lia].
Qed.

Lemma isDuplicateSpam_thrice r text :
  MessageContents r = [text; text; text] → isDuplicateSpam r text = true.
Proof.
  intros Hc. unfold Limiter.isDuplicateSpam. rewrite Hc. simpl.
  unfold duplicateStep. by rewrite !String.eqb_refl.
Qed.

Lemma CheckMessage_fresh rl userID text now :
  userRecords rl !! userID = None →
  CheckMessage rl userID text now =
    ({| config := config rl;
        userRecords :=
          <[userID := (checkRecord (config rl) (newRecord userID now) text now).1]>
            (userRecords rl) |},
     (checkRecord (config rl) (newRecord userID now) text now).2).
Proof.
  intros Hr. rewrite CheckMessage_eq. unfold getOrCreateRecord. rewrite Hr.
  cbn [fst snd userRecords]. by rewrite insert_insert_eq.
Qed.

Ltac record_side :=
  cbn [TimeoutUntil LastCleanup Messages MessageContents Violations
       recordMessage newRecord length app NewRateLimiter config];
  unfold Go.zeroTime, Go.Minute, Go.Second in *; lia.

(** C4, as the code has it: of four identical short messages sent by a
    new user within one minute the first three are allowed, and the
    fourth is denied with DUPLICATE_SPAM, a violation and a five-minute
    timeout; the duplicate test only counts messages already recorded. *)
Theorem fourth_identical_message_denied (cfg : ChatConfig) (userID text : string)
    (t1 t2 t3 t4 : Go.Time) :
  Go.len text ≤ 100 → Go.len text ≤ MaxCharactersPerMessage cfg →
  0 ≤ t1 → t1 ≤ t2 → t2 ≤ t3 → t3 ≤ t4 → t4 - t1 < Go.Minute →
  let out1 := CheckMessage (NewRateLimiter cfg) userID text t1 in
  let out2 := CheckMessage out1.1 userID text t2 in
  let out3 := CheckMessage out2.1 userID text t3 in
  let out4 := CheckMessage out3.1 userID text t4 in
  out1.2 = (true, None) ∧ out2.2 = (true, None) ∧ out3.2 = (true, None) ∧
  out4.2.1 = false ∧ Code <$> out4.2.2 = Some "DUPLICATE_SPAM" ∧
  ∃ r, userRecords out4.1 !! userID = Some r ∧
    TimeoutUntil r = Go.Add t4 (5 * Go.Minute) ∧ Violations r = 1.
Proof.
  intros Hlen Hmax H0 H12 H23 H34 Hmin out1 out2 out3 out4.
  set (r1 := recordMessage (newRecord userID t1) text (Go.len text) t1).
  set (r2 := recordMessage r1 text (Go.len text) t2).
  set (r3 := recordMessage r2 text (Go.len text) t3).
  assert (out1 = ({| config := cfg; userRecords := {[ userID := r1 ]} |},
                  (true, None))) as E1.
  { subst out1. rewrite CheckMessage_fresh by done.
    rewrite checkRecord_short by record_side.
    rewrite isDuplicateSpam_few by record_side.
    cbn [fst snd NewRateLimiter config userRecords]. by rewrite insert_empty. }
  assert (out2 = ({| config := cfg; userRecords := {[ userID := r2 ]} |},
                  (true, None))) as E2.
  { subst out2. rewrite E1. cbn [fst].
    rewrite (CheckMessage_self _ _ _ _ r1) by apply lookup_singleton_eq.
    cbn [config userRecords].
    rewrite checkRecord_short by (subst r1; record_side).
    rewrite isDuplicateSpam_few by (subst r1; record_side).
    cbn [fst snd]. by rewrite insert_singleton_eq. }
  assert (out3 = ({| config := cfg; userRecords := {[ userID := r3 ]} |},
                  (true, None))) as E3.
  { subst out3. rewrite E2. cbn [fst].
    rewrite (CheckMessage_self _ _ _ _ r2) by apply lookup_singleton_eq.
    cbn [config userRecords].
    rewrite checkRecord_short by (subst r2 r1; record_side).
    rewrite isDuplicateSpam_few by (subst r2 r1; record_side).
    cbn [fst snd]. by rewrite insert_singleton_eq. }
  assert (out4 = ({| config := cfg;
                     userRecords := {[ userID :=
                       addViolations (applyTimeout r3 (5 * Go.Minute) t4) 1 ]} |},
                  deny "DUPLICATE_SPAM"
                       "Stop sending the same message repeatedly. (5 minute timeout)")) as E4.
  { subst out4. rewrite E3. cbn [fst].
    rewrite (CheckMessage_self _ _ _ _ r3) by apply lookup_singleton_eq.
    cbn [config userRecords].
    rewrite checkRecord_short by (subst r3 r2 r1; record_side).
    rewrite isDuplicateSpam_thrice by done.
    cbn [fst snd]. by rewrite insert_singleton_eq. }
  rewrite E1, E2, E3, E4. cbn [fst snd deny fmap option_fmap option_map Code userRecords].
  repeat split; try done.
  eexists. split; [apply lookup_singleton_eq|]. done.
Qed.

End LimiterFacts.

(** ** Reading the ring buffer *)

Section ReadFacts.
Import Buffer.

(** C8, as the code has it: [GetRecent] returns the empty list for
    [n = 0] and, whatever [n], on an empty buffer; for [n >= size] it
    returns what [GetAll] returns; and the room sends every [n <= 0] to
    [GetAll], so that [GetRecent] is never handed a negative count. *)
Theorem GetRecent_zero_empty_all (cb : CircularBuffer) (n : Z) :
  0 ≤ size cb →
  (n = 0 ∨ size cb = 0 → GetRecent cb n = Some []) ∧
  (size cb ≤ n → GetRecent cb n = GetAll cb) ∧
  (∀ cr, Room.Messages cr = cb → n ≤ 0 → Room.GetMessages cr n = GetAll cb).
Proof.
  intros Hsize. unfold GetRecent, GetAll. repeat split.
  - intros [-> | H0].
    + destruct (Z.eqb_spec (size cb) 0); [done|].
      destruct (Z.gtb_spec 0 (size cb)); [lia|]. done.
    + by destruct (Z.eqb_spec (size cb) 0).
  - intros Hn. destruct (Z.eqb_spec (size cb) 0); [done|].
    destruct (Z.gtb_spec n (size cb)).
    + by rewrite Z.sub_diag.
    + assert (n = size cb) as -> by lia. by rewrite Z.sub_diag.
  - intros cr <- Hn. unfold Room.GetMessages.
    by destruct (Z.gtb_spec n 0); [lia|].
Qed.

(** A negative count on a buffer that holds a message: [make] panics. *)
Lemma GetRecent_negative_panics :
  ∃ cb, NewCircularBuffer 2 ≫= (λ cb, Add cb zeroMessage) = Some cb ∧
        size cb = 1 ∧ GetRecent cb (-1) = None ∧ GetRecent cb (-1) ≠ Some [].
Proof.
  eexists. split; [vm_compute; reflexivity|].
  repeat split; try (vm_compute; reflexivity). vm_compute. by intros [=].
Qed.

End ReadFacts.

(** ** The room *)

Section RoomFacts.
Import Buffer.

(** Time-based eviction keeps the invariant, so every room made by
    [NewChatRoom] with a positive capacity satisfies it for good. *)
Lemma remove_loop_wf fuel : ∀ cb cutoff removed,
  wf cb → ∃ cb' n, remove_loop fuel cb cutoff removed = Some (cb', n) ∧ wf cb'.
Proof.
  induction fuel as [|fuel IH]; intros cb cutoff removed Hwf; simpl; [by eauto|].
  destruct (Z.gtb_spec (size cb) 0) as [Hpos|]; [|by eauto].
  pose proof Hwf as (HM & Hlen & Hh & Hs & Ht).
  rewrite index_nat by lia.
  destruct (lookup_lt_is_Some_2 (data cb) (Z.to_nat (head cb))) as [m Hm]; [lia|].
  rewrite Hm. simpl. destruct (Go.After _ _); [by eauto 10|].
  rewrite rem_nonneg by lia. simpl. apply IH.
  repeat split; simpl; try lia; try (apply Z.mod_pos_bound; lia).
  rewrite Ht. rewrite (mod_window (head cb + 1)) by lia.
  assert (0 ≤ head cb + size cb < 2 * maxSize cb) by lia.
  rewrite (mod_window (head cb + size cb)) by lia.
  rewrite mod_window by (split_ltb; lia).
  split_ltb; lia.
Qed.

Lemma CleanupOldMessages_wf cr retention now :
  wf (Room.Messages cr) →
  ∃ cr' n, Room.CleanupOldMessages cr retention now = Some (cr', n) ∧
           wf (Room.Messages cr').
Proof.
  intros Hwf. unfold Room.CleanupOldMessages, RemoveOlderThan.
  destruct (Z.eqb_spec (size (Room.Messages cr)) 0); simpl; [by eauto|].
  destruct (remove_loop_wf (Z.to_nat (size (Room.Messages cr))) (Room.Messages cr)
              (Go.Add now (Go.neg retention)) 0 Hwf) as (cb' & n' & -> & Hwf').
  simpl. by eauto.
Qed.

Lemma NewChatRoom_wf streamKey maxMessages now :
  1 ≤ maxMessages →
  ∃ cr, Room.NewChatRoom streamKey maxMessages now = Some cr ∧
        wf (Room.Messages cr) ∧ Room.BytesUsed cr = 0.
Proof.
  intros Hc. unfold Room.NewChatRoom.
  destruct (New_wf maxMessages) as (cb & -> & Hwf & _); [lia|].
  simpl. by eauto.
Qed.

(** C3: what [AddMessage] does on a room whose buffer has a capacity of
    at least 1.  It never fails; when the buffer was full the eldest
    message leaves the snapshot, which otherwise grows by the new
    message; bytes-used rises by the estimate for the new message.
    Nothing is deducted for the evicted message: the refund of the
    average message size, which [CleanupOldMessages] makes for every
    message it evicts, is missing on this path. *)
Theorem AddMessage_adds_estimate (cr : Room.ChatRoom) (msg : ChatMessage) (now : Go.Time) :
  wf (Room.Messages cr) →
  ∃ cr', Room.AddMessage cr msg now = Some cr' ∧
    wf (Room.Messages cr') ∧
    Room.BytesUsed cr' = Go.wrap64 (Room.BytesUsed cr + Room.msgSize msg) ∧
    Room.MessageCount cr' = Go.wrap64 (Room.MessageCount cr + 1) ∧
    Room.LastActivity cr' = now ∧
    ∃ l, GetAll (Room.Messages cr) = Some l ∧
      GetAll (Room.Messages cr') =
        Some ((if size (Room.Messages cr) <? maxSize (Room.Messages cr)
               then l else drop 1 l) ++ [msg]).
Proof.
  intros Hwf. destruct (snapshot_exists _ Hwf) as [l Hl].
  destruct (Add_snapshot _ l msg Hwf Hl) as (buf & Hadd & Hwf' & _ & _ & Hsnap).
  unfold Room.AddMessage. rewrite Hadd. simpl.
  eexists. split; [done|]. simpl. repeat split; try done; try apply Hwf'.
  exists l. split; by apply GetAll_snapshot.
Qed.

(** Appending to a full room of capacity 1: the eldest message goes and
    one message is stored before and after, yet bytes-used grows from
    110 to 220; the average message size is not deducted. *)
Lemma AddMessage_full_room_no_refund :
  ∃ cr cr', Examples.fullRoom = Some cr ∧
    size (Room.Messages cr) = maxSize (Room.Messages cr) ∧
    Room.AddMessage cr (Examples.message "m2" 2) 2 = Some cr' ∧
    GetAll (Room.Messages cr) = Some [Examples.message "m1" 1] ∧
    GetAll (Room.Messages cr') = Some [Examples.message "m2" 2] ∧
    Room.BytesUsed cr = 110 ∧
    Room.BytesUsed cr' = 220 ∧
    Room.BytesUsed cr' ≠
      Room.BytesUsed cr + Room.msgSize (Examples.message "m2" 2) - Room.avgMessageSize.
Proof.
  do 2 eexists. split; [vm_compute; reflexivity|].
  split; [reflexivity|]. split; [vm_compute; reflexivity|].
  repeat split; try (vm_compute; reflexivity). vm_compute. by intros [=].
Qed.

End RoomFacts.

(** ** The monitor tick *)

Section MonitorFacts.
Import Mgr.

(** C9, what the code does: a tick that finds the tracker critical calls
    [performEmergencyCleanup] while it still holds its read lock
    ([defer RUnlock]); the cleanup asks for the write lock of the same
    mutex and blocks for ever, so no room is ever cleaned. *)
Theorem critical_tick_blocks (m : Manager) (mu : RWMutex) (now : Go.Time) :
  writer mu = false →
  IsCritical (memTracker (measured m)) = true →
  updateMemoryStats m mu now =
    Blocked (measured m) {| readers := S (readers mu); writer := false |} ∧
  rooms (measured m) = rooms m.
Proof.
  intros Hw Hcrit. split; [|done].
  unfold updateMemoryStats, RLock. rewrite Hw, Hcrit.
  unfold performEmergencyCleanup, Lock. done.
Qed.

(** Outside the read lock the same cleanup would go through. *)
Lemma emergency_cleanup_from_free_lock (m : Manager) (now : Go.Time) rooms' :
  cleanupRooms (rooms m) (10 * Go.Minute) now = Some rooms' →
  performEmergencyCleanup m Examples.unlocked now
  = Returned (withRooms m rooms') Examples.unlocked.
Proof. intros H. unfold performEmergencyCleanup. simpl. by rewrite H. Qed.

End MonitorFacts.

(** ** The session *)

Section SessionFacts.
Import WS.

Variables ToLower TrimSpace : string → string.

Lemma checkRecord_denial_has_error cfg r text now :
  (Limiter.checkRecord ToLower TrimSpace cfg r text now).2.1 = false →
  is_Some (Limiter.checkRecord ToLower TrimSpace cfg r text now).2.2.
Proof.
  unfold Limiter.checkRecord, Limiter.deny.
  repeat match goal with
  | |- context [if ?b then _ else _] => destruct b
  end; simpl; try done; by eexists.
Qed.

(** C5, as the code has it: when the limiter denies the message of a
    joined session, whatever the tier, the handler stores nothing and
    broadcasts nothing; it sends one frame of type [rate_limit] carrying
    the denial's message text on the sender's own channel.  That send is
    a blocking one: with room in the sender's queue the frame is queued
    and no other queue changes; with 256 frames queued the handler waits,
    the denial counted and the frame not queued. *)
Theorem denial_is_one_rate_limit_frame (h : WSHandler) (c : Connection)
    (msg data : gmap string Value) (message uuid : string) (now : Go.Time) :
  let out := Limiter.CheckMessage ToLower TrimSpace (rateLimiter h) (UserID c) message now in
  UserID c ≠ EmptyString →
  msg !! "data" = Some (VObject data) →
  data !! "message" = Some (VString message) →
  message ≠ EmptyString →
  out.2.1 = false →
  ∃ e, out.2.2 = Some e ∧
    (Send c ∉ closed h →
     (length (queue (chans h) (Send c)) < sendCapacity)%nat →
     handleChatMessage ToLower TrimSpace h c msg uuid now =
       Returned {| manager := manager h; rateLimiter := out.1;
                   connections := connections h;
                   chans := <[Send c := queue (chans h) (Send c) ++
                                [{| Type_ := "rate_limit"; Data := NoData;
                                    Error := Message e; Timestamp := now |}]]>
                              (chans h);
                   closed := closed h |}) ∧
    (Send c ∉ closed h →
     (sendCapacity ≤ length (queue (chans h) (Send c)))%nat →
     handleChatMessage ToLower TrimSpace h c msg uuid now =
       Blocked {| manager := manager h; rateLimiter := out.1;
                  connections := connections h; chans := chans h;
                  closed := closed h |}) ∧
    (Send c ∈ closed h →
     handleChatMessage ToLower TrimSpace h c msg uuid now = Panicked).
Proof.
  intros out Hid Hdata Hmsg Hne Hdeny.
  assert (is_Some out.2.2) as [e He].
  { subst out. rewrite CheckMessage_eq in Hdeny |- *.
    by apply checkRecord_denial_has_error. }
  exists e. split; [done|].
  unfold handleChatMessage. rewrite Hdata, Hmsg.
  apply String.eqb_neq in Hid, Hne. rewrite Hid, Hne.
  fold out. destruct out as [rl [allowed err]]. simpl in *. subst.
  unfold send. cbn [closed chans withChans manager rateLimiter connections].
  split; [|split].
  - intros Hopen Hroom. rewrite decide_False by done.
    by destruct (Nat.ltb_spec (length (queue (chans h) (Send c))) sendCapacity); [|lia].
  - intros Hopen Hfull. rewrite decide_False by done.
    by destruct (Nat.ltb_spec (length (queue (chans h) (Send c))) sendCapacity); [lia|].
  - intros Hclosed. by rewrite decide_True.
Qed.

End SessionFacts.

(** * The model at work: witnesses and counterexamples *)

Section Runs.
Import Limiter.

Abbreviation check := Examples.check.
Abbreviation lower := asciiToLower.
Abbreviation trim := asciiTrimSpace.

(** An oversize first message is denied by T1 and answered with a
    [rate_limit] frame, not an [error] frame with the code. *)
Lemma oversize_denial_is_rate_limit_frame :
  (check (WS.rateLimiter Examples.joined) "a" Examples.oversize 1000).2
    = deny "MESSAGE_TOO_LONG" "Message is too long. Maximum 500 characters." ∧
  ∃ h', WS.handleChatMessage asciiToLower asciiTrimSpace Examples.joined Examples.ann
          (Examples.frame Examples.oversize) "id" 1000 = WS.Returned h' ∧
    WS.chans h' !! 0%nat =
      Some [{| WS.Type_ := "rate_limit"; WS.Data := WS.NoData;
               WS.Error := "Message is too long. Maximum 500 characters.";
               WS.Timestamp := 1000 |}] ∧
    WS.chans h' !! 0%nat ≠
      Some [{| WS.Type_ := "error"; WS.Data := WS.NoData;
               WS.Error := "MESSAGE_TOO_LONG"; WS.Timestamp := 1000 |}].
Proof.
  split; [vm_compute; reflexivity|].
  eexists. split; [vm_compute; reflexivity|].
  split; [vm_compute; reflexivity|]. vm_compute. by intros [=].
Qed.


(** The third of three identical messages, sent 3 seconds apart, is allowed. *)
Lemma third_identical_message_allowed :
  let out1 := check (NewRateLimiter DefaultConfig) "u" "spam" (100 * Go.Second) in
  let out2 := check out1.1 "u" "spam" (103 * Go.Second) in
  let out3 := check out2.1 "u" "spam" (106 * Go.Second) in
  out1.2 = (true, None) ∧ out2.2 = (true, None) ∧ out3.2 = (true, None) ∧
  out3.2 ≠ deny "DUPLICATE_SPAM"
                "Stop sending the same message repeatedly. (5 minute timeout)" ∧
  TimeoutUntil <$> userRecords out3.1 !! "u" = Some Go.zeroTime.
Proof.
  repeat split; try (vm_compute; reflexivity). vm_compute. by intros [=].
Qed.

(** A record without messages is reaped although it has no message
    older than 30 minutes: here, one second after an oversize first
    message created it. *)
Lemma reaper_removes_record_without_messages :
  let rl := (check (NewRateLimiter DefaultConfig) "u" Examples.oversize
                   (100 * Go.Second)).1 in
  (∃ r, userRecords rl !! "u" = Some r ∧ last (Messages r) = None) ∧
  userRecords (performCleanup rl (101 * Go.Second)) !! "u" = None.
Proof. split; [eexists; split|]; vm_compute; reflexivity. Qed.

(** The monitor tick on a manager above 90%: blocked with the read lock
    held, the 30-minute-old message still in its room. *)
Lemma critical_tick_example :
  ∃ m, Examples.crowded = Some m ∧
    Mgr.IsCritical (Mgr.memTracker (Mgr.measured m)) = true ∧
    Mgr.updateMemoryStats m Examples.unlocked (30 * Go.Minute) =
      Mgr.Blocked (Mgr.measured m) {| Mgr.readers := 1; Mgr.writer := false |} ∧
    Mgr.GetMessages (Mgr.measured m) "s1" 0 = Some [Examples.message "old" 0].
Proof.
  eexists. split; [vm_compute; reflexivity|].
  repeat split; vm_compute; reflexivity.
Qed.

(** *** Witnesses *)

Lemma AddMessage_adds_estimate_witness :
  ∃ cr, Examples.fullRoom = Some cr ∧ Buffer.wf (Room.Messages cr) ∧
    ∃ cr', Room.AddMessage cr (Examples.message "m2" 2) 2 = Some cr' ∧
      Room.BytesUsed cr' =
        Go.wrap64 (Room.BytesUsed cr + Room.msgSize (Examples.message "m2" 2)).
Proof.
  eexists. split; [vm_compute; reflexivity|].
  match goal with |- Buffer.wf ?b ∧ _ =>
    assert (Buffer.wf b) as Hwf
      by (unfold Buffer.wf; cbn; repeat split; (reflexivity || lia || discriminate))
  end.
  split; [exact Hwf|].
  destruct (AddMessage_adds_estimate _ (Examples.message "m2" 2) 2 Hwf)
    as (cr' & Hadd & _ & Hbytes & _).
  exists cr'. split; [exact Hadd | exact Hbytes].
Defined.

Lemma fourth_identical_message_denied_witness :
  Go.len "spam" ≤ 100 ∧ 0 ≤ 100 * Go.Second ∧
  109 * Go.Second - 100 * Go.Second < Go.Minute ∧
  Code <$> (check Examples.threeSpams "u" "spam" (109 * Go.Second)).2.2
    = Some "DUPLICATE_SPAM".
Proof.
  assert (Go.len "spam" ≤ 100) as H1 by (vm_compute; discriminate).
  assert (Go.len "spam" ≤ MaxCharactersPerMessage DefaultConfig) as H2
    by (vm_compute; discriminate).
  assert (0 ≤ 100 * Go.Second) as H3 by (vm_compute; discriminate).
  assert (100 * Go.Second ≤ 103 * Go.Second) as H4 by (vm_compute; discriminate).
  assert (103 * Go.Second ≤ 106 * Go.Second) as H5 by (vm_compute; discriminate).
  assert (106 * Go.Second ≤ 109 * Go.Second) as H6 by (vm_compute; discriminate).
  assert (109 * Go.Second - 100 * Go.Second < Go.Minute) as H7 by (vm_compute; reflexivity).
  split; [exact H1|]. split; [exact H3|]. split; [exact H7|].
  exact (proj1 (proj2 (proj2 (proj2 (proj2
           (fourth_identical_message_denied lower trim DefaultConfig "u" "spam"
              _ _ _ _ H1 H2 H3 H4 H5 H6 H7)))))).
Defined.

Lemma denial_is_one_rate_limit_frame_witness :
  WS.UserID Examples.ann ≠ EmptyString ∧ Examples.oversize ≠ EmptyString ∧
  (check (WS.rateLimiter Examples.joined) "a" Examples.oversize 1000).2.1 = false ∧
  (WS.Send Examples.ann ∉ WS.closed Examples.joined) ∧
  (length (WS.queue (WS.chans Examples.joined) (WS.Send Examples.ann))
   < WS.sendCapacity)%nat ∧
  ∃ e, (check (WS.rateLimiter Examples.joined) "a" Examples.oversize 1000).2.2 = Some e ∧
    WS.handleChatMessage lower trim Examples.joined Examples.ann
      (Examples.frame Examples.oversize) "id" 1000 =
    WS.Returned
         {| WS.manager := WS.manager Examples.joined;
            WS.rateLimiter :=
              (check (WS.rateLimiter Examples.joined) "a" Examples.oversize 1000).1;
            WS.connections := WS.connections Examples.joined;
            WS.chans :=
              <[0%nat := WS.queue (WS.chans Examples.joined) 0 ++
                  [{| WS.Type_ := "rate_limit"; WS.Data := WS.NoData;
                      WS.Error := Message e; WS.Timestamp := 1000 |}]]>
                (WS.chans Examples.joined);
            WS.closed := WS.closed Examples.joined |}.
Proof.
  assert (WS.UserID Examples.ann ≠ EmptyString) as H1 by (vm_compute; discriminate).
  assert (Examples.oversize ≠ EmptyString) as H2 by (vm_compute; discriminate).
  assert ((check (WS.rateLimiter Examples.joined) "a" Examples.oversize 1000).2.1 = false)
    as H3 by (vm_compute; reflexivity).
  assert (WS.Send Examples.ann ∉ WS.closed Examples.joined) as H4
    by (unfold Examples.joined; cbn [WS.closed]; apply not_elem_of_empty).
  assert ((length (WS.queue (WS.chans Examples.joined) (WS.Send Examples.ann))
           < WS.sendCapacity)%nat) as H5 by (vm_compute; lia).
  split; [exact H1|]. split; [exact H2|]. split; [exact H3|].
  split; [exact H4|]. split; [exact H5|].
  destruct (denial_is_one_rate_limit_frame lower trim Examples.joined Examples.ann
              (Examples.frame Examples.oversize)
              {[ "message" := WS.VString Examples.oversize ]} Examples.oversize "id" 1000
              H1 eq_refl eq_refl H2 H3) as (e & He & Hsent & _).
  exists e. split; [exact He|]. exact (Hsent H4 H5).
Defined.


Lemma reaper_removes_inactive_witness :
  ∃ r, userRecords Examples.threeSpams !! "u" = Some r ∧
    ¬ (Messages r = [] ∨
       ∃ t, last (Messages r) = Some t ∧ 200 * Go.Second - t > 30 * Go.Minute) ∧
    userRecords (performCleanup Examples.threeSpams (200 * Go.Second)) !! "u" = Some r.
Proof.
  eexists. split; [vm_compute; reflexivity|].
  match goal with |- ¬ ?P ∧ _ =>
    assert (¬ P) as Hfresh
      by (intros [Hnil | (t & Hlast & Hgt)];
          [discriminate Hnil | vm_compute in Hlast; injection Hlast as <-;
                               vm_compute in Hgt; discriminate Hgt])
  end.
  split; [exact Hfresh|].
  exact (proj2 (proj2 (proj2 (reaper_removes_inactive Examples.threeSpams
                                (200 * Go.Second) "u")) _ eq_refl) Hfresh).
Defined.

Lemma GetRecent_zero_empty_all_witness :
  ∃ cb, Buffer.NewCircularBuffer 2 ≫= (λ cb, Buffer.Add cb Buffer.zeroMessage) = Some cb ∧
    0 ≤ Buffer.size cb ∧
    Buffer.GetRecent cb 0 = Some [] ∧
    Buffer.GetRecent cb 5 = Buffer.GetAll cb.
Proof.
  eexists. split; [vm_compute; reflexivity|].
  match goal with |- 0 ≤ Buffer.size ?b ∧ _ =>
    assert (0 ≤ Buffer.size b) as Hsize by (vm_compute; discriminate);
    assert (Buffer.size b ≤ 5) as Hn by (vm_compute; discriminate)
  end.
  split; [exact Hsize|]. split.
  - exact (proj1 (GetRecent_zero_empty_all _ 0 Hsize) (or_introl eq_refl)).
  - exact (proj1 (proj2 (GetRecent_zero_empty_all _ 5 Hsize)) Hn).
Defined.

Lemma critical_tick_blocks_witness :
  ∃ m, Examples.crowded = Some m ∧
    Mgr.writer Examples.unlocked = false ∧
    Mgr.IsCritical (Mgr.memTracker (Mgr.measured m)) = true ∧
    Mgr.updateMemoryStats m Examples.unlocked (30 * Go.Minute) =
      Mgr.Blocked (Mgr.measured m) {| Mgr.readers := 1; Mgr.writer := false |}.
Proof.
  eexists. split; [vm_compute; reflexivity|].
  match goal with |- _ ∧ Mgr.IsCritical ?t = true ∧ _ =>
    assert (Mgr.IsCritical t = true) as Hcrit by (vm_compute; reflexivity)
  end.
  split; [reflexivity|]. split; [exact Hcrit|].
  exact (proj1 (critical_tick_blocks _ Examples.unlocked (30 * Go.Minute) eq_refl Hcrit)).
Defined.

Lemma violations_only_grow_witness :
  (∃ r, userRecords Examples.offender !! "u" = Some r ∧ Violations r = 3) ∧
  ∃ r_i, userRecords (step lower trim Examples.offender
                           (Ask "u" "hi" (100 * Go.Second))).1 !! "u" = Some r_i ∧
    3 ≤ Violations r_i ∧
    ∃ res, (step lower trim Examples.offender (Ask "u" "hi" (100 * Go.Second))).2
             = Some res ∧ res.1 = false.
Proof.
  split; [eexists; split; vm_compute; reflexivity|].
  assert (userRecords Examples.offender !! "u" =
            Some {| UserID := "u"; Messages := [10 * Go.Second];
                    MessageContents := ["hi"]; CharCountHistory := [2];
                    TimeoutUntil := 50 * Go.Second; Violations := 3;
                    LastCleanup := 10 * Go.Second |}) as Hr by (vm_compute; reflexivity).
  destruct (violations_only_grow lower trim Examples.offender "u" _
              [Ask "u" "hi" (100 * Go.Second)] Hr
              ltac:(vm_compute; discriminate) ltac:(vm_compute; discriminate)
              0%nat
              (step lower trim Examples.offender (Ask "u" "hi" (100 * Go.Second))).1
              (step lower trim Examples.offender (Ask "u" "hi" (100 * Go.Second))).2)
    as (r_i & Hri & Hmono & Hdeny).
  - vm_compute; reflexivity.
  - intros j rl_j o Hj Hrun. destruct j; [|inversion Hj].
    injection Hrun as <- _. vm_compute. eexists; reflexivity.
  - exists r_i. split; [exact Hri|]. split; [exact Hmono|].
    destruct (Hdeny ltac:(vm_compute; discriminate) "hi" (100 * Go.Second) eq_refl)
      as (res & Hres & Hfalse & _).
    exists res. split; [exact Hres | exact Hfalse].
Defined.

End Runs.

(** * Further properties of the code *)

(** ** The ring buffer: eviction by age, tails, clearing *)

Section BufferMore.
Import Buffer.

Lemma snapshot_unique cb l1 l2 : wf cb → snapshot_of cb l1 → snapshot_of cb l2 → l1 = l2.
Proof.
  intros Hwf H1 H2. apply GetAll_snapshot in H1, H2; try done. congruence.
Qed.

(** The eviction loop removes the longest expired prefix of the snapshot. *)
Lemma remove_loop_prefix fuel : ∀ cb l cutoff removed,
  wf cb → snapshot_of cb l → (length l ≤ fuel)%nat →
  ∃ cb' (k : nat),
    remove_loop fuel cb cutoff removed = Some (cb', removed + Z.of_nat k) ∧
    wf cb' ∧ maxSize cb' = maxSize cb ∧ data cb' = data cb ∧
    size cb' = size cb - Z.of_nat k ∧
    snapshot_of cb' (drop k l) ∧
    Forall (λ m, Msg.Timestamp m ≤ cutoff) (take k l) ∧
    (∀ m, drop k l !! 0%nat = Some m → cutoff < Msg.Timestamp m).
Proof.
  induction fuel as [|fuel IH]; intros cb l cutoff removed Hwf Hsnap Hfuel.
  - destruct l; [|simpl in Hfuel; lia]. exists cb, 0%nat. simpl.
    rewrite Z.add_0_r, Z.sub_0_r.
    repeat split; try done; try apply Hwf; apply Hsnap.
  - simpl. pose proof Hwf as (HM & Hlen & Hh & Hs & Ht).
    pose proof Hsnap as [Hl Hi].
    destruct (Z.gtb_spec (size cb) 0) as [Hpos|Hzero].
    2:{ exists cb, 0%nat. rewrite Z.add_0_r, Z.sub_0_r.
        destruct l; [|simpl in Hl; lia].
        repeat split; try done; try apply Hwf; apply Hsnap. }
    destruct l as [|m0 l]; [simpl in Hl; lia|].
    rewrite index_nat by lia.
    assert (data cb !! Z.to_nat (head cb) = Some m0) as Hm0.
    { specialize (Hi 0%nat ltac:(simpl; lia)). simpl in Hi.
      rewrite Z.add_0_r, Z.mod_small in Hi by lia. done. }
    rewrite Hm0. simpl. unfold Go.After.
    destruct (Z.ltb_spec cutoff (Msg.Timestamp m0)) as [Hnew|Hold].
    + exists cb, 0%nat. rewrite Z.add_0_r, Z.sub_0_r. simpl.
      repeat split; try done; try apply Hwf; try apply Hsnap.
      intros m [= <-]. done.
    + rewrite rem_nonneg by lia. simpl.
      set (cb1 := {| data := data cb; maxSize := maxSize cb;
                     head := (head cb + 1) mod maxSize cb;
                     tail := tail cb; size := size cb - 1 |}).
      assert (wf cb1) as Hwf1.
      { repeat split; simpl; try lia; try (apply Z.mod_pos_bound; lia).
        rewrite Ht. rewrite (mod_window (head cb + 1)) by lia.
        assert (0 ≤ head cb + size cb < 2 * maxSize cb) by lia.
        rewrite (mod_window (head cb + size cb)) by lia.
        rewrite mod_window by (split_ltb; lia). split_ltb; lia. }
      assert (snapshot_of cb1 l) as Hsnap1.
      { split; simpl in *; [lia|]. intros i Hlt.
        specialize (Hi (S i) ltac:(lia)). simpl in Hi. rewrite Hi.
        f_equal. f_equal. rewrite Zplus_mod_idemp_l. f_equal. lia. }
      destruct (IH cb1 l cutoff (removed + 1) Hwf1 Hsnap1 ltac:(simpl in Hfuel; lia))
        as (cb' & k & Hrun & Hwf' & HM' & Hd' & Hs' & Hsn' & Hold' & Hhd').
      exists cb', (S k). rewrite Hrun. simpl in *.
      repeat split; try done; try lia; try apply Hwf'; try apply Hsn'.
      * f_equal. f_equal. lia.
      * by constructor.
Qed.

Lemma neg_small (d : Go.Duration) : Go.min_int64 < d → Go.neg d = - d.
Proof. intros Hd. unfold Go.neg. by destruct (Z.eqb_spec d Go.min_int64); [lia|]. Qed.

Lemma neg_least : Go.neg Go.min_int64 = Go.min_int64.
Proof. done. Qed.

Lemma neg_le (d : Go.Duration) : Go.neg d ≤ - d.
Proof.
  unfold Go.neg. destruct (Z.eqb_spec d Go.min_int64) as [->|]; [|lia].
  unfold Go.min_int64. lia.
Qed.

(** On int64 values [neg] is the negation with wrap-around. *)
Lemma neg_wrap64 (d : Go.Duration) : Go.is_int d → Go.neg d = Go.wrap64 (- d).
Proof.
  unfold Go.is_int, Go.neg, Go.wrap64, Go.min_int64, Go.max_int64. intros Hd.
  destruct (Z.eqb_spec d (- 2 ^ 63)) as [->|Hne]; [done|].
  rewrite Z.mod_small; lia.
Qed.

Lemma RemoveOlderThan_removes_expired_prefix_holds (cb : CircularBuffer)
    (duration : Go.Duration) (now : Go.Time) (l : list ChatMessage) :
  wf cb → GetAll cb = Some l →
  ∃ cb' (k : nat),
    RemoveOlderThan cb duration now = Some (cb', Z.of_nat k) ∧
    wf cb' ∧ maxSize cb' = maxSize cb ∧
    Size cb' = Size cb - Z.of_nat k ∧
    GetAll cb' = Some (drop k l) ∧
    Forall (λ m, Msg.Timestamp m ≤ Go.Add now (Go.neg duration)) (take k l) ∧
    (∀ m, drop k l !! 0%nat = Some m →
       Go.Add now (Go.neg duration) < Msg.Timestamp m) ∧
    (Go.min_int64 < duration → Go.Add now (Go.neg duration) = now - duration) ∧
    (duration = Go.min_int64 → Go.Add now (Go.neg duration) = now - 2 ^ 63).
Proof.
  intros Hwf Hall. apply GetAll_snapshot in Hall; [|done].
  assert ((Go.min_int64 < duration → Go.Add now (Go.neg duration) = now - duration) ∧
          (duration = Go.min_int64 → Go.Add now (Go.neg duration) = now - 2 ^ 63))
    as Hcut.
  { unfold Go.Add. split; [intros Hd; rewrite neg_small by done; lia|].
    intros ->. rewrite neg_least. unfold Go.min_int64. lia. }
  unfold RemoveOlderThan, Size.
  destruct (Z.eqb_spec (size cb) 0) as [Hz|Hnz].
  - exists cb, 0%nat. destruct Hall as [Hl Hi].
    destruct l; [|simpl in Hl; lia]. simpl. rewrite Z.sub_0_r.
    split; [done|]. split; [done|]. split; [done|]. split; [done|].
    split; [apply GetAll_snapshot; [done|]; split; [done|]; simpl; lia|].
    split; [done|]. split; [done|]. exact Hcut.
  - destruct (remove_loop_prefix (Z.to_nat (size cb)) cb l (Go.Add now (Go.neg duration)) 0
                Hwf Hall) as (cb' & k & Hrun & Hwf' & HM' & _ & Hs' & Hsn' & Hold & Hhd).
    { destruct Hall as [-> _]. lia. }
    exists cb', k. rewrite Hrun. rewrite Z.add_0_l.
    split; [done|]. split; [done|]. split; [done|]. split; [done|].
    split; [by apply GetAll_snapshot|]. split; [exact Hold|]. split; [exact Hhd|].
    exact Hcut.
Qed.

(** X1: on a buffer that satisfies the invariant, [RemoveOlderThan]
    returns; it removes a prefix of the snapshot, every message of which
    is as old as the cutoff or older, it stops at the first message newer
    than the cutoff, and it reports the number of messages removed.  The
    cutoff is [now - duration] for every duration but the least int64,
    whose negation wraps around: there the cutoff is [now - 2^63]
    nanoseconds, in the past instead of in the future. *)
Theorem RemoveOlderThan_removes_expired_prefix (cb : CircularBuffer)
    (duration : Go.Duration) (now : Go.Time) (l : list ChatMessage) :
  wf cb → GetAll cb = Some l →
  ∃ cb' (k : nat),
    RemoveOlderThan cb duration now = Some (cb', Z.of_nat k) ∧
    wf cb' ∧ maxSize cb' = maxSize cb ∧
    Size cb' = Size cb - Z.of_nat k ∧
    GetAll cb' = Some (drop k l) ∧
    Forall (λ m, Msg.Timestamp m ≤ Go.Add now (Go.neg duration)) (take k l) ∧
    (∀ m, drop k l !! 0%nat = Some m →
       Go.Add now (Go.neg duration) < Msg.Timestamp m) ∧
    (Go.min_int64 < duration → Go.Add now (Go.neg duration) = now - duration) ∧
    (duration = Go.min_int64 → Go.Add now (Go.neg duration) = now - 2 ^ 63).
Proof.
  exact (RemoveOlderThan_removes_expired_prefix_holds cb duration now l).
Qed.

(** X2: a second [RemoveOlderThan] with the same retention at the same
    instant removes nothing and leaves the buffer as it is. *)
Theorem RemoveOlderThan_twice (cb cb' : CircularBuffer)
    (duration : Go.Duration) (now : Go.Time) (n : Z) :
  wf cb → RemoveOlderThan cb duration now = Some (cb', n) →
  RemoveOlderThan cb' duration now = Some (cb', 0).
Proof.
  intros Hwf Hfirst.
  destruct (snapshot_exists cb Hwf) as [l Hl]. apply GetAll_snapshot in Hl; [|done].
  destruct (RemoveOlderThan_removes_expired_prefix_holds cb duration now l Hwf Hl)
    as (cb1 & k & Hrun & Hwf1 & _ & _ & Hall1 & _ & Hhd & _).
  rewrite Hrun in Hfirst. injection Hfirst as <- _.
  apply GetAll_snapshot in Hall1; [|done].
  unfold RemoveOlderThan.
  destruct (Z.eqb_spec (size cb1) 0) as [Hz|Hnz]; [done|].
  destruct Hall1 as [Hlen Hi].
  destruct (drop k l) as [|m rest] eqn:Hdrop; [simpl in Hlen; destruct Hwf1; lia|].
  specialize (Hhd m eq_refl).
  destruct (Z.to_nat (size cb1)) as [|fuel] eqn:Hfuel; [simpl in Hlen; lia|].
  simpl. destruct (Z.gtb_spec (size cb1) 0); [|done].
  pose proof Hwf1 as (HM & _ & Hh & _).
  rewrite index_nat by lia.
  specialize (Hi 0%nat ltac:(simpl; lia)). simpl in Hi.
  rewrite Z.add_0_r, Z.mod_small in Hi by lia. rewrite <- Hi. simpl.
  unfold Go.After.
  by destruct (Z.ltb_spec (Go.Add now (Go.neg duration)) (Msg.Timestamp m)); [|lia].
Qed.

Lemma filter_all_false {A} (f : A → bool) (l : list A) :
  Forall (λ x, f x = false) l → List.filter f l = [].
Proof. induction 1 as [|x l Hx _ IH]; simpl; [done|]. by rewrite Hx. Qed.

Lemma filter_all_true {A} (f : A → bool) (l : list A) :
  Forall (λ x, f x = true) l → List.filter f l = l.
Proof. induction 1 as [|x l Hx _ IH]; simpl; [done|]. by rewrite Hx, IH. Qed.

Lemma RemoveOlderThan_monotone_timestamps_holds (cb : CircularBuffer)
    (duration : Go.Duration) (now : Go.Time) (l : list ChatMessage) :
  wf cb → GetAll cb = Some l →
  (∀ (i j : nat) a b, (i ≤ j)%nat → l !! i = Some a → l !! j = Some b →
     Msg.Timestamp a ≤ Msg.Timestamp b) →
  ∃ cb' n l',
    RemoveOlderThan cb duration now = Some (cb', n) ∧
    GetAll cb' = Some l' ∧
    l' = List.filter (λ m, Go.After (Msg.Timestamp m) (Go.Add now (Go.neg duration))) l ∧
    (Go.min_int64 < duration → Forall (λ m, now - Msg.Timestamp m < duration) l') ∧
    (duration = Go.min_int64 → Forall (λ m, now - Msg.Timestamp m < 2 ^ 63) l') ∧
    n = Z.of_nat (length l) - Z.of_nat (length l').
Proof.
  intros Hwf Hall Hsorted.
  destruct (RemoveOlderThan_removes_expired_prefix_holds cb duration now l Hwf Hall)
    as (cb' & k & Hrun & Hwf' & _ & Hsz & Hall' & Hold & Hhd & Hin & Hleast).
  assert (Forall (λ m, Go.Add now (Go.neg duration) < Msg.Timestamp m) (drop k l)) as Hnew.
  { apply Forall_lookup. intros i m Hm.
    destruct (drop k l !! 0%nat) as [m0|] eqn:Hm0.
    - specialize (Hhd m0 eq_refl). rewrite lookup_drop in Hm, Hm0.
      specialize (Hsorted (k + 0)%nat (k + i)%nat m0 m ltac:(lia) Hm0 Hm). lia.
    - apply lookup_ge_None in Hm0. apply lookup_lt_Some in Hm. lia. }
  exists cb', (Z.of_nat k), (drop k l). split; [done|]. split; [done|].
  assert (k ≤ length l)%nat as Hk.
  { apply GetAll_snapshot in Hall; [|done]. destruct Hall as [Hlen _].
    destruct Hwf' as (_ & _ & _ & Hs' & _). unfold Size in Hsz. lia. }
  split; [|split; [|split]].
  - rewrite <- (take_drop k l) at 2. rewrite List.filter_app.
    rewrite filter_all_false, filter_all_true; [done| |].
    + eapply Forall_impl; [exact Hnew|]. simpl. intros m Hm.
      unfold Go.After.
      by destruct (Z.ltb_spec (Go.Add now (Go.neg duration)) (Msg.Timestamp m)); [|lia].
    + eapply Forall_impl; [exact Hold|]. simpl. intros m Hm.
      unfold Go.After.
      by destruct (Z.ltb_spec (Go.Add now (Go.neg duration)) (Msg.Timestamp m)); [lia|].
  - intros Hd. rewrite (Hin Hd) in Hnew.
    eapply Forall_impl; [exact Hnew|]. simpl. intros; lia.
  - intros Hd. rewrite (Hleast Hd) in Hnew.
    eapply Forall_impl; [exact Hnew|]. simpl. intros; lia.
  - rewrite length_drop. lia.
Qed.

(** X3: when the timestamps in the buffer do not decrease from oldest to
    newest, [RemoveOlderThan] keeps exactly the messages newer than the
    cutoff: for every duration but the least int64 no message of age
    [duration] or more is left; for the least int64, whose negation wraps
    around, the messages kept are those less than [2^63] nanoseconds
    old. *)
Theorem RemoveOlderThan_monotone_timestamps (cb : CircularBuffer)
    (duration : Go.Duration) (now : Go.Time) (l : list ChatMessage) :
  wf cb → GetAll cb = Some l →
  (∀ (i j : nat) a b, (i ≤ j)%nat → l !! i = Some a → l !! j = Some b →
     Msg.Timestamp a ≤ Msg.Timestamp b) →
  ∃ cb' n l',
    RemoveOlderThan cb duration now = Some (cb', n) ∧
    GetAll cb' = Some l' ∧
    l' = List.filter (λ m, Go.After (Msg.Timestamp m) (Go.Add now (Go.neg duration))) l ∧
    (Go.min_int64 < duration → Forall (λ m, now - Msg.Timestamp m < duration) l') ∧
    (duration = Go.min_int64 → Forall (λ m, now - Msg.Timestamp m < 2 ^ 63) l') ∧
    n = Z.of_nat (length l) - Z.of_nat (length l').
Proof.
  exact (RemoveOlderThan_monotone_timestamps_holds cb duration now l).
Qed.

Lemma GetRecent_is_tail_holds (cb : CircularBuffer) (n : Z) (l : list ChatMessage) :
  wf cb → GetAll cb = Some l → 0 < n →
  GetRecent cb n = Some (lastn (Z.to_nat n) l).
Proof.
  intros Hwf Hall Hn. apply GetAll_snapshot in Hall; [|done].
  pose proof Hwf as (HM & Hlen & Hh & Hs & Ht). destruct Hall as [Hl Hi].
  unfold GetRecent.
  destruct (Z.eqb_spec (size cb) 0) as [Hz|Hnz].
  - destruct l; [done|]. simpl in Hl. lia.
  - set (count := if n >? size cb then size cb else n).
    assert (0 < count ≤ size cb ∧ Z.to_nat count = Nat.min (Z.to_nat n) (length l))
      as [Hc Hcl] by (subst count; destruct (Z.gtb_spec n (size cb)); lia).
    cbv zeta. apply copy_out_Some; try lia.
    unfold lastn. rewrite length_drop. split; [lia|].
    intros i Hlt. rewrite lookup_drop.
    assert (is_Some (l !! (length l - Z.to_nat n + i)%nat)) as Hsome
      by (apply lookup_lt_is_Some_2; lia).
    split; [|done]. rewrite Hi by lia. f_equal. f_equal. f_equal. lia.
Qed.

(** X4: for [n > 0], [GetRecent n] returns the last [n] messages of the
    snapshot, oldest first (all of them when fewer than [n] are held). *)
Theorem GetRecent_is_tail (cb : CircularBuffer) (n : Z) (l : list ChatMessage) :
  wf cb → GetAll cb = Some l → 0 < n →
  GetRecent cb n = Some (lastn (Z.to_nat n) l).
Proof.
  exact (GetRecent_is_tail_holds cb n l).
Qed.

Lemma Adds_keeps_newest_holds (cb : CircularBuffer) (l msgs : list ChatMessage) :
  wf cb → GetAll cb = Some l →
  ∃ cb', Adds cb msgs = Some cb' ∧ wf cb' ∧ maxSize cb' = maxSize cb ∧
    GetAll cb' = Some (lastn (Z.to_nat (maxSize cb)) (l ++ msgs)) ∧
    Size cb' = Z.min (maxSize cb) (Size cb + Z.of_nat (length msgs)).
Proof.
  intros Hwf Hall. apply GetAll_snapshot in Hall; [|done].
  assert (lastn (Z.to_nat (maxSize cb)) l = l) as Hlast.
  { unfold lastn. destruct Hall as [Hl _]. destruct Hwf as (_ & _ & _ & Hs & _).
    replace (length l - Z.to_nat (maxSize cb))%nat with 0%nat by lia. done. }
  destruct (Adds_snapshot cb l msgs Hwf) as (cb' & Hadds & Hwf' & HM' & Hsnap');
    [by rewrite Hlast|].
  exists cb'. split; [done|]. split; [done|]. split; [done|].
  split; [by apply GetAll_snapshot|].
  destruct Hsnap' as [Hl' _]. destruct Hall as [Hl _].
  rewrite length_lastn, length_app in Hl'. unfold Size.
  destruct Hwf as (? & _ & _ & ? & _), Hwf' as (_ & _ & _ & ? & _). lia.
Qed.

(** X5: appends on any buffer that satisfies the invariant: the snapshot
    afterwards is the last [maxSize] messages of the old snapshot
    followed by the appended messages, and the invariant still holds. *)
Theorem Adds_keeps_newest (cb : CircularBuffer) (l msgs : list ChatMessage) :
  wf cb → GetAll cb = Some l →
  ∃ cb', Adds cb msgs = Some cb' ∧ wf cb' ∧ maxSize cb' = maxSize cb ∧
    GetAll cb' = Some (lastn (Z.to_nat (maxSize cb)) (l ++ msgs)) ∧
    Size cb' = Z.min (maxSize cb) (Size cb + Z.of_nat (length msgs)).
Proof.
  exact (Adds_keeps_newest_holds cb l msgs).
Qed.

(** X6: [Clear] empties the buffer and leaves it fit for use: the
    snapshot is empty, and appends after it behave as on a new buffer. *)
Theorem Clear_then_appends (cb : CircularBuffer) (msgs : list ChatMessage) :
  wf cb →
  Size (Clear cb) = 0 ∧ GetAll (Clear cb) = Some [] ∧
  ∃ cb', Adds (Clear cb) msgs = Some cb' ∧
    GetAll cb' = Some (lastn (Z.to_nat (maxSize cb)) msgs).
Proof.
  intros Hwf. split; [done|]. split; [done|].
  assert (wf (Clear cb)) as Hwf0.
  { destruct Hwf as (HM & Hlen & _). repeat split; simpl; try done; try lia. }
  destruct (Adds_keeps_newest_holds (Clear cb) [] msgs Hwf0 eq_refl)
    as (cb' & Hadds & _ & _ & Hall & _).
  exists cb'. by split.
Qed.

End BufferMore.

(** ** Rooms and the manager *)

Section ManagerMore.
Import Buffer Mgr.


Lemma Room_AddMessage_history cr msg now :
  wf (Room.Messages cr) →
  ∃ cr' l, Room.AddMessage cr msg now = Some cr' ∧ wf (Room.Messages cr') ∧
    Room.Users cr' = Room.Users cr ∧
    GetAll (Room.Messages cr) = Some l ∧
    GetAll (Room.Messages cr') =
      Some ((if size (Room.Messages cr) <? maxSize (Room.Messages cr)
             then l else drop 1 l) ++ [msg]).
Proof.
  intros Hwf. destruct (snapshot_exists _ Hwf) as [l Hl].
  destruct (Add_snapshot _ l msg Hwf Hl) as (buf & Hadd & Hwf' & _ & _ & Hsnap).
  unfold Room.AddMessage. rewrite Hadd. simpl.
  eexists _, l. split; [done|]. simpl. split; [done|]. split; [done|].
  split; by apply GetAll_snapshot.
Qed.

Lemma GetOrCreateRoom_sound m streamKey now :
  sound m →
  ∃ m' room, GetOrCreateRoom m streamKey now = Some (m', room) ∧
    sound m' ∧ config m' = config m ∧ memTracker m' = memTracker m ∧
    rooms m' = <[streamKey := room]> (rooms m) ∧
    wf (Room.Messages room) ∧
    match rooms m !! streamKey with
    | Some old => room = old
    | None => GetAll (Room.Messages room) = Some [] ∧ Room.Users room = ∅ ∧
              maxSize (Room.Messages room) = MaxMessagesPerStream (config m)
    end.
Proof.
  intros [Hcap Hrooms]. unfold GetOrCreateRoom.
  destruct (rooms m !! streamKey) as [room|] eqn:Hroom.
  - exists m, room. split; [done|]. split; [done|]. split; [done|]. split; [done|].
    split; [by rewrite insert_id|]. split; [by eapply Hrooms|done].
  - unfold Room.NewChatRoom.
    destruct (New_wf (MaxMessagesPerStream (config m))) as (cb & -> & Hwf & Hsnap & HM & _);
      [lia|].
    simpl. eexists _, _. split; [done|]. simpl.
    split.
    { split; [done|]. simpl. intros k room.
      destruct (decide (k = streamKey)) as [->|Hne].
      - rewrite lookup_insert_eq. by intros [= <-].
      - rewrite lookup_insert_ne by done. apply Hrooms. }
    split; [done|]. split; [done|]. split; [done|]. split; [exact Hwf|].
    split; [by apply GetAll_snapshot|]. by split.
Qed.

Lemma AddMessage_then_GetMessages_holds (m : Manager)
    (streamKey userID username message uuid : string) (now : Go.Time) :
  sound m →
  ∃ m' l kept,
    AddMessage m streamKey userID username message uuid now =
      Some (m', {| Msg.ID := uuid; Msg.StreamKey := streamKey; Msg.UserID := userID;
                   Msg.Username := username; Msg.Message := message;
                   Msg.Timestamp := now |}) ∧
    sound m' ∧
    GetMessages m streamKey 0 = Some l ∧
    kept = (if Z.of_nat (length l) <? capacity m streamKey then l else drop 1 l) ∧
    GetMessages m' streamKey 0 =
      Some (kept ++ [{| Msg.ID := uuid; Msg.StreamKey := streamKey; Msg.UserID := userID;
                        Msg.Username := username; Msg.Message := message;
                        Msg.Timestamp := now |}]) ∧
    GetMessages m' streamKey 100 =
      Some (lastn 100 (kept ++ [{| Msg.ID := uuid; Msg.StreamKey := streamKey;
                                   Msg.UserID := userID; Msg.Username := username;
                                   Msg.Message := message; Msg.Timestamp := now |}])) ∧
    ∀ other, other ≠ streamKey → rooms m' !! other = rooms m !! other.
Proof.
  intros Hsound. set (msg := {| Msg.ID := uuid |}).
  destruct (GetOrCreateRoom_sound m streamKey now Hsound)
    as (m1 & room & Hget & Hsound1 & Hcfg & _ & Hrooms1 & Hwf & Hold).
  destruct (Room_AddMessage_history room msg now Hwf)
    as (room' & l0 & Hadd & Hwf' & _ & Hall0 & Hall').
  unfold AddMessage. rewrite Hget. simpl. fold msg. rewrite Hadd. simpl.
  set (kept := if size (Room.Messages room) <? maxSize (Room.Messages room)
               then l0 else drop 1 l0) in *.
  eexists _, l0, kept. split; [done|].
  split.
  { split; [simpl; rewrite Hcfg; apply Hsound|]. simpl. intros k r.
    destruct (decide (k = streamKey)) as [->|Hne].
    - rewrite lookup_insert_eq. by intros [= <-].
    - rewrite lookup_insert_ne by done. apply Hsound1. }
  split.
  { unfold GetMessages. destruct (rooms m !! streamKey) as [old|] eqn:Hroom.
    - subst old. unfold Room.GetMessages. simpl. done.
    - destruct Hold as (Hempty & _). rewrite Hempty in Hall0. congruence. }
  split.
  { assert (Z.of_nat (length l0) = size (Room.Messages room)) as ->.
    { apply GetAll_snapshot in Hall0; [|done]. destruct Hall0 as [-> _].
      destruct Hwf as (_ & _ & _ & ? & _). lia. }
    assert (capacity m streamKey = maxSize (Room.Messages room)) as ->; [|done].
    unfold capacity. destruct (rooms m !! streamKey); [by subst|].
    symmetry. apply Hold. }
  unfold GetMessages. simpl. rewrite lookup_insert_eq.
  split; [done|]. split.
  - unfold Room.GetMessages. simpl.
    by apply (GetRecent_is_tail_holds _ 100 _ Hwf' Hall').
  - intros other Hne. rewrite lookup_insert_ne by done.
    rewrite Hrooms1. by rewrite lookup_insert_ne.
Qed.

(** X8: on a sound manager [AddMessage] returns the message it built,
    stamped with the instant of the call; the room's history afterwards
    is the old one, less its eldest entry exactly when the room was full
    (it held as many messages as the buffer's capacity), followed
    by that message; a client that joins next is sent the last 100 of
    it; no other room changes. *)
Theorem AddMessage_then_GetMessages (m : Manager)
    (streamKey userID username message uuid : string) (now : Go.Time) :
  sound m →
  ∃ m' l kept,
    AddMessage m streamKey userID username message uuid now =
      Some (m', {| Msg.ID := uuid; Msg.StreamKey := streamKey; Msg.UserID := userID;
                   Msg.Username := username; Msg.Message := message;
                   Msg.Timestamp := now |}) ∧
    sound m' ∧
    GetMessages m streamKey 0 = Some l ∧
    kept = (if Z.of_nat (length l) <? capacity m streamKey then l else drop 1 l) ∧
    GetMessages m' streamKey 0 =
      Some (kept ++ [{| Msg.ID := uuid; Msg.StreamKey := streamKey; Msg.UserID := userID;
                        Msg.Username := username; Msg.Message := message;
                        Msg.Timestamp := now |}]) ∧
    GetMessages m' streamKey 100 =
      Some (lastn 100 (kept ++ [{| Msg.ID := uuid; Msg.StreamKey := streamKey;
                                   Msg.UserID := userID; Msg.Username := username;
                                   Msg.Message := message; Msg.Timestamp := now |}])) ∧
    ∀ other, other ≠ streamKey → rooms m' !! other = rooms m !! other.
Proof.
  exact (AddMessage_then_GetMessages_holds m streamKey userID username message uuid now).
Qed.

(** X9: with [MaxMessagesPerStream] zero or negative, the first message
    to a stream that has no room yet panics ([make] with a negative
    length, or the store into a slice of length zero). *)
Theorem AddMessage_panics_without_capacity (m : Manager)
    (streamKey userID username message uuid : string) (now : Go.Time) :
  MaxMessagesPerStream (config m) ≤ 0 →
  rooms m !! streamKey = None →
  AddMessage m streamKey userID username message uuid now = None.
Proof.
  intros Hcap Hroom. unfold AddMessage, GetOrCreateRoom. rewrite Hroom.
  unfold Room.NewChatRoom, NewCircularBuffer.
  destruct (Z.ltb_spec (MaxMessagesPerStream (config m)) 0); [done|].
  assert (MaxMessagesPerStream (config m) = 0) as -> by lia.
  done.
Qed.

Lemma GetUserCount_roster m streamKey :
  GetUserCount m streamKey = Z.of_nat (base.size (roster m streamKey)).
Proof.
  unfold GetUserCount, roster. destruct (GetRoom m streamKey); [done|].
  by rewrite map_size_empty.
Qed.

(** X10: [AddUser] on a sound manager: when the stream already has
    [MaxUsersPerStream] users or more it answers ROOM_FULL and leaves the
    roster alone, also for a user who is already in it; otherwise it
    writes a new active user record under the user id, replacing any
    older one.  A roster within the cap stays within the cap, and other
    streams are not touched. *)
Theorem AddUser_respects_cap (m : Manager) (streamKey userID username : string)
    (now : Go.Time) :
  sound m →
  ∃ m' err,
    AddUser m streamKey userID username now = Some (m', err) ∧
    sound m' ∧
    (MaxUsersPerStream (config m) ≤ GetUserCount m streamKey →
       err = Some ErrRoomFull ∧ roster m' streamKey = roster m streamKey) ∧
    (GetUserCount m streamKey < MaxUsersPerStream (config m) →
       err = None ∧
       roster m' streamKey =
         <[userID := newUser userID username now]> (roster m streamKey)) ∧
    (GetUserCount m streamKey ≤ MaxUsersPerStream (config m) →
       GetUserCount m' streamKey ≤ MaxUsersPerStream (config m)) ∧
    (∀ other, other ≠ streamKey → rooms m' !! other = rooms m !! other) ∧
    GetMessages m' streamKey 0 = GetMessages m streamKey 0.
Proof.
  intros Hsound.
  destruct (GetOrCreateRoom_sound m streamKey now Hsound)
    as (m1 & room & Hget & Hsound1 & Hcfg & _ & Hrooms1 & Hwf & Hold).
  assert (Room.Users room = roster m streamKey) as Husers.
  { unfold roster, GetRoom. destruct (rooms m !! streamKey); [by subst|]. apply Hold. }
  assert (GetMessages m1 streamKey 0 = GetMessages m streamKey 0) as Hmsgs.
  { unfold GetMessages. rewrite Hrooms1, lookup_insert_eq.
    destruct (rooms m !! streamKey); [by subst|]. apply Hold. }
  assert (roster m1 streamKey = roster m streamKey) as Hroster1.
  { unfold roster, GetRoom. by rewrite Hrooms1, lookup_insert_eq. }
  assert (∀ other, other ≠ streamKey → rooms m1 !! other = rooms m !! other) as Hother1.
  { intros other Hne. by rewrite Hrooms1, lookup_insert_ne. }
  unfold AddUser. rewrite Hget. simpl. rewrite Hcfg.
  assert (Room.UserCount room = GetUserCount m streamKey) as Hcount
    by (rewrite GetUserCount_roster; unfold Room.UserCount; by rewrite Husers).
  rewrite Hcount.
  destruct (Z.geb_spec (GetUserCount m streamKey) (MaxUsersPerStream (config m)))
    as [Hfull|Hroom].
  - exists m1, (Some ErrRoomFull). split; [done|]. split; [done|].
    split; [done|]. split; [lia|]. split; [|by split].
    intros Hle. rewrite !GetUserCount_roster in *. by rewrite Hroster1.
  - eexists _, None. split; [done|].
    assert (roster (withRooms m1 (<[streamKey := Room.AddUser room
               (newUser userID username now) now]> (rooms m1))) streamKey
            = <[userID := newUser userID username now]> (roster m streamKey)) as Hroster'.
    { unfold roster, GetRoom. simpl. rewrite lookup_insert_eq. simpl. by rewrite Husers. }
    split.
    { split; [simpl; rewrite Hcfg; apply Hsound|]. simpl. intros k r.
      destruct (decide (k = streamKey)) as [->|Hne].
      - rewrite lookup_insert_eq. by intros [= <-].
      - rewrite lookup_insert_ne by done. apply Hsound1. }
    split; [lia|]. split; [done|]. split; [|split].
    + intros _. rewrite !GetUserCount_roster in *. rewrite Hroster'.
      destruct (roster m streamKey !! userID) eqn:Hu.
      * rewrite map_size_insert_Some by done. lia.
      * rewrite map_size_insert_None by done. lia.
    + intros other Hne. simpl. rewrite lookup_insert_ne by done. by apply Hother1.
    + rewrite <- Hmsgs. unfold GetMessages. simpl. rewrite lookup_insert_eq.
      rewrite Hrooms1, lookup_insert_eq. done.
Qed.

(** X11: [RemoveUser] takes the user out of the stream's roster and
    nothing else; when the stream has no room, or the user is not in the
    roster, the manager is left exactly as it was. *)
Theorem RemoveUser_best_effort (m : Manager) (streamKey userID : string) :
  roster (RemoveUser m streamKey userID) streamKey = delete userID (roster m streamKey) ∧
  (roster m streamKey !! userID = None → RemoveUser m streamKey userID = m) ∧
  (∀ other, other ≠ streamKey →
     rooms (RemoveUser m streamKey userID) !! other = rooms m !! other) ∧
  (∀ n, GetMessages (RemoveUser m streamKey userID) streamKey n
        = GetMessages m streamKey n) ∧
  (sound m → sound (RemoveUser m streamKey userID)).
Proof.
  unfold RemoveUser, roster, GetRoom, GetMessages.
  destruct (rooms m !! streamKey) as [room|] eqn:Hroom.
  - simpl. rewrite lookup_insert_eq. simpl. split; [done|]. split; [|split; [|split]].
    + intros Hnone. destruct m as [cfg rs mt], room as [sk buf us la mc bu].
      simpl in *. unfold withRooms. simpl. f_equal.
      unfold Room.RemoveUser. simpl. rewrite delete_id by done. by apply insert_id.
    + intros other Hne. by rewrite lookup_insert_ne.
    + done.
    + intros [Hcap Hrooms]. split; [done|]. simpl. intros k r.
      destruct (decide (k = streamKey)) as [->|Hne].
      * rewrite lookup_insert_eq. intros [= <-]. simpl. by eapply Hrooms.
      * rewrite lookup_insert_ne by done. apply Hrooms.
  - rewrite Hroom. split; [by rewrite delete_empty|]. done.
Qed.

(** *** The cleanup worker and the emergency cleanup *)

Lemma CleanupOldMessages_room cr retention now :
  wf (Room.Messages cr) →
  ∃ cr' n, Room.CleanupOldMessages cr retention now = Some (cr', n) ∧
    wf (Room.Messages cr') ∧
    Room.Users cr' = Room.Users cr ∧
    Room.LastActivity cr' = Room.LastActivity cr.
Proof.
  intros Hwf. destruct (snapshot_exists _ Hwf) as [l Hl].
  apply GetAll_snapshot in Hl; [|done].
  destruct (RemoveOlderThan_removes_expired_prefix_holds _ retention now l Hwf Hl)
    as (cb' & k & Hrun & Hwf' & _).
  unfold Room.CleanupOldMessages. rewrite Hrun. simpl. by eexists _, _.
Qed.

Lemma deserted_after_cleanup cfg cr cr' n retention now :
  Room.CleanupOldMessages cr retention now = Some (cr', n) →
  deserted cfg cr' now = deserted cfg cr now.
Proof.
  unfold Room.CleanupOldMessages.
  destruct (RemoveOlderThan _ _ _) as [[buf k]|]; simpl; [|done].
  by intros [= <- _].
Qed.

(** The first loop of [performCleanup], room by room. *)
Lemma cleanup_loop cfg retention now (rs : gmap string Room.ChatRoom) :
  (∀ k r, rs !! k = Some r → wf (Room.Messages r)) →
  ∃ cleaned del,
    map_fold (cleanupStep cfg retention now) (Some (∅, [])) rs = Some (cleaned, del) ∧
    (∀ k, cleaned !! k =
            r ← rs !! k; fst <$> Room.CleanupOldMessages r retention now) ∧
    (∀ k, k ∈ del ↔ ∃ r, rs !! k = Some r ∧ deserted cfg r now = true).
Proof.
  apply (map_fold_weak_ind (λ acc (rs : gmap string Room.ChatRoom),
    (∀ k r, rs !! k = Some r → wf (Room.Messages r)) →
    ∃ cleaned del, acc = Some (cleaned, del) ∧
      (∀ k, cleaned !! k =
              r ← rs !! k; fst <$> Room.CleanupOldMessages r retention now) ∧
      (∀ k, k ∈ del ↔ ∃ r, rs !! k = Some r ∧ deserted cfg r now = true))).
  - intros _. exists ∅, []. split; [done|]. split.
    + intros k. by rewrite !lookup_empty.
    + intros k. split; [by intros ?%elem_of_nil|].
      intros (r & Hr & _). by rewrite lookup_empty in Hr.
  - intros i x m acc Hi IH Hwf.
    destruct IH as (cleaned & del & -> & Hcl & Hdel).
    { intros k r Hr. apply (Hwf k). rewrite lookup_insert_ne; [done|]. congruence. }
    destruct (CleanupOldMessages_room x retention now) as (x' & n & Hx & _).
    { apply (Hwf i). by rewrite lookup_insert_eq. }
    unfold cleanupStep. simpl. rewrite Hx. simpl.
    rewrite (deserted_after_cleanup cfg x x' n retention now Hx).
    eexists _, _. split; [done|]. split.
    + intros k. destruct (decide (k = i)) as [->|Hne].
      * rewrite !lookup_insert_eq. simpl. by rewrite Hx.
      * rewrite !lookup_insert_ne by done. apply Hcl.
    + intros k. destruct (deserted cfg x now) eqn:Hdes.
      * rewrite elem_of_app, list_elem_of_singleton, Hdel. split.
        -- intros [(r & Hr & Hd) | ->].
           ++ exists r. split; [|done]. rewrite lookup_insert_ne; [done|]. congruence.
           ++ exists x. by rewrite lookup_insert_eq.
        -- intros (r & Hr & Hd). destruct (decide (k = i)) as [->|Hne]; [by right|].
           left. exists r. by rewrite lookup_insert_ne in Hr.
      * rewrite Hdel. split.
        -- intros (r & Hr & Hd). exists r. split; [|done].
           rewrite lookup_insert_ne; [done|]. congruence.
        -- intros (r & Hr & Hd). destruct (decide (k = i)) as [->|Hne].
           ++ rewrite lookup_insert_eq in Hr. injection Hr as <-. congruence.
           ++ exists r. by rewrite lookup_insert_ne in Hr.
Qed.

Lemma lookup_delete_all {A} (del : list string) : ∀ (rs : gmap string A) k,
  foldl (λ rooms streamKey, delete streamKey rooms) rs del !! k =
    if decide (k ∈ del) then None else rs !! k.
Proof.
  induction del as [|d del IH]; intros rs k; simpl.
  - by destruct (decide (k ∈ [])) as [?%elem_of_nil|].
  - rewrite IH. destruct (decide (k ∈ del)) as [Hin|Hnin].
    + by rewrite decide_True by (by right).
    + destruct (decide (k = d)) as [->|Hne].
      * rewrite decide_True by (by left). by rewrite lookup_delete_eq.
      * rewrite decide_False by (by intros [?|?]%elem_of_cons).
        by rewrite lookup_delete_ne.
Qed.

(** X12: a run of the manager's cleanup on a sound manager returns; it
    deletes exactly the rooms whose roster is empty and whose last
    activity is older than the inactive-stream timeout, so that no such
    room is left afterwards; every other room is kept, cleaned of its
    expired messages by [CleanupOldMessages]; no room is created. *)
Theorem performCleanup_reaps_deserted_rooms (m : Manager) (now : Go.Time) :
  sound m →
  ∃ m', performCleanup m now = Some m' ∧
    sound m' ∧ config m' = config m ∧
    (∀ streamKey room', rooms m' !! streamKey = Some room' →
       deserted (config m) room' now = false) ∧
    ∀ streamKey,
      match rooms m !! streamKey with
      | None => rooms m' !! streamKey = None
      | Some room =>
          if deserted (config m) room now then rooms m' !! streamKey = None
          else ∃ room' n,
                 Room.CleanupOldMessages room
                   (Go.wrap64 (MessageRetentionMinutes (config m) * Go.Minute)) now
                   = Some (room', n) ∧
                 rooms m' !! streamKey = Some room'
      end.
Proof.
  intros [Hcap Hwf]. unfold performCleanup.
  set (retention := Go.wrap64 (MessageRetentionMinutes (config m) * Go.Minute)).
  destruct (cleanup_loop (config m) retention now (rooms m) Hwf)
    as (cleaned & del & -> & Hcl & Hdel).
  simpl. eexists. split; [done|]. simpl.
  assert (∀ streamKey,
            match rooms m !! streamKey with
            | None =>
                foldl (λ rooms streamKey, delete streamKey rooms) cleaned del
                  !! streamKey = None
            | Some room =>
                if deserted (config m) room now
                then foldl (λ rooms streamKey, delete streamKey rooms) cleaned del
                       !! streamKey = None
                else ∃ room' n,
                       Room.CleanupOldMessages room retention now = Some (room', n) ∧
                       foldl (λ rooms streamKey, delete streamKey rooms) cleaned del
                         !! streamKey = Some room'
            end) as Hall.
  { intros k. rewrite lookup_delete_all, Hcl.
    destruct (rooms m !! k) as [room|] eqn:Hroom; simpl.
    - destruct (deserted (config m) room now) eqn:Hdes.
      + rewrite decide_True; [done|]. apply Hdel. by exists room.
      + rewrite decide_False.
        2:{ intros (r & Hr & Hd)%Hdel. congruence. }
        destruct (CleanupOldMessages_room room retention now (Hwf _ _ Hroom))
          as (room' & n & Hx & _).
        rewrite Hx. simpl. by exists room', n.
    - by destruct (decide (k ∈ del)). }
  split; [|split; [done|split; [|done]]].
  - split; [done|]. simpl. intros k r Hr. specialize (Hall k).
    destruct (rooms m !! k) as [room|] eqn:Hroom; [|congruence].
    destruct (deserted (config m) room now); [congruence|].
    destruct Hall as (room' & n & Hx & Hr'). rewrite Hr in Hr'. injection Hr' as ->.
    destruct (CleanupOldMessages_room room retention now (Hwf _ _ Hroom))
      as (room2 & n2 & Hx2 & Hwf2 & _).
    rewrite Hx in Hx2. by injection Hx2 as <- _.
  - intros k r Hr. specialize (Hall k).
    destruct (rooms m !! k) as [room|] eqn:Hroom; [|congruence].
    destruct (deserted (config m) room now) eqn:Hdes; [congruence|].
    destruct Hall as (room' & n & Hx & Hr'). rewrite Hr in Hr'. injection Hr' as ->.
    by rewrite (deserted_after_cleanup _ _ _ _ _ _ Hx).
Qed.

(** What [deserted] tests, for a timeout in the int64 range. *)
Lemma deserted_iff cfg room now :
  Go.min_int64 ≤ InactiveStreamTimeout cfg < Go.max_int64 →
  deserted cfg room now = true ↔
  Room.Users room = ∅ ∧ now - Room.LastActivity room > InactiveStreamTimeout cfg.
Proof.
  intros Hrange. unfold deserted, Room.UserCount.
  rewrite Sub_gt by done. rewrite andb_true_iff, Z.eqb_eq, Z.gtb_gt.
  split; intros [Hu Ht]; (split; [|lia]).
  - apply map_size_empty_iff. lia.
  - rewrite Hu, map_size_empty. done.
Qed.

(** The loop of [performEmergencyCleanup]. *)
Lemma cleanupRooms_lookup retention now (rs : gmap string Room.ChatRoom) :
  (∀ k r, rs !! k = Some r → wf (Room.Messages r)) →
  ∃ cleaned, cleanupRooms rs retention now = Some cleaned ∧
    ∀ k, cleaned !! k =
           r ← rs !! k; fst <$> Room.CleanupOldMessages r retention now.
Proof.
  unfold cleanupRooms.
  apply (map_fold_weak_ind (λ acc (rs : gmap string Room.ChatRoom),
    (∀ k r, rs !! k = Some r → wf (Room.Messages r)) →
    ∃ cleaned, acc = Some cleaned ∧
      ∀ k, cleaned !! k =
             r ← rs !! k; fst <$> Room.CleanupOldMessages r retention now)).
  - intros _. exists ∅. split; [done|]. intros k. by rewrite !lookup_empty.
  - intros i x m acc Hi IH Hwf.
    destruct IH as (cleaned & -> & Hcl).
    { intros k r Hr. apply (Hwf k). rewrite lookup_insert_ne; [done|]. congruence. }
    destruct (CleanupOldMessages_room x retention now) as (x' & n & Hx & _).
    { apply (Hwf i). by rewrite lookup_insert_eq. }
    simpl. rewrite Hx. simpl. eexists. split; [done|].
    intros k. destruct (decide (k = i)) as [->|Hne].
    + rewrite !lookup_insert_eq. simpl. by rewrite Hx.
    + rewrite !lookup_insert_ne by done. apply Hcl.
Qed.

(** X13: called with the mutex free, [performEmergencyCleanup] returns
    with the mutex free again, keeps every room and its roster, and, in
    rooms whose timestamps do not decrease from oldest to newest, leaves
    only messages less than ten minutes old. *)
Theorem performEmergencyCleanup_outside_the_lock (m : Manager) (now : Go.Time) :
  sound m →
  ∃ m', performEmergencyCleanup m {| readers := 0; writer := false |} now
          = Returned m' {| readers := 0; writer := false |} ∧
    sound m' ∧
    (∀ streamKey, roster m' streamKey = roster m streamKey) ∧
    (∀ streamKey, is_Some (rooms m' !! streamKey) ↔ is_Some (rooms m !! streamKey)) ∧
    ∀ streamKey l,
      GetMessages m streamKey 0 = Some l →
      (∀ (i j : nat) a b, (i ≤ j)%nat → l !! i = Some a → l !! j = Some b →
         Msg.Timestamp a ≤ Msg.Timestamp b) →
      GetMessages m' streamKey 0 =
        Some (List.filter (λ msg, Go.After (Msg.Timestamp msg)
                                           (Go.Add now (- (10 * Go.Minute)))) l) ∧
      ∃ l', GetMessages m' streamKey 0 = Some l' ∧
            Forall (λ msg, now - Msg.Timestamp msg < 10 * Go.Minute) l'.
Proof.
  intros [Hcap Hwf]. unfold performEmergencyCleanup. simpl.
  destruct (cleanupRooms_lookup (10 * Go.Minute) now (rooms m) Hwf)
    as (cleaned & -> & Hcl).
  eexists. split; [done|].
  assert (∀ k, match rooms m !! k with
               | Some room =>
                   ∃ room' n, Room.CleanupOldMessages room (10 * Go.Minute) now
                                = Some (room', n) ∧
                     cleaned !! k = Some room' ∧ wf (Room.Messages room') ∧
                     Room.Users room' = Room.Users room
               | None => cleaned !! k = None
               end) as Hall.
  { intros k. rewrite Hcl. destruct (rooms m !! k) as [room|] eqn:Hroom; [|done].
    destruct (CleanupOldMessages_room room (10 * Go.Minute) now (Hwf _ _ Hroom))
      as (room' & n & Hx & Hwf' & Hu & _).
    simpl. rewrite Hx. by exists room', n. }
  split; [|split; [|split]].
  - split; [done|]. simpl. intros k r Hr. specialize (Hall k).
    destruct (rooms m !! k); [|congruence].
    destruct Hall as (room' & n & _ & Hr' & Hwf' & _). congruence.
  - intros k. unfold roster, GetRoom. simpl. specialize (Hall k).
    destruct (rooms m !! k).
    + destruct Hall as (room' & n & _ & -> & _ & Hu). done.
    + by rewrite Hall.
  - intros k. simpl. specialize (Hall k). destruct (rooms m !! k).
    + destruct Hall as (room' & n & _ & -> & _). by split; eexists.
    + rewrite Hall. by split; intros [? ?].
  - intros k l Hl Hsorted. unfold GetMessages in *. simpl. specialize (Hall k).
    destruct (rooms m !! k) as [room|] eqn:Hroom.
    + destruct Hall as (room' & n & Hx & -> & _).
      unfold Room.GetMessages in *. simpl in *.
      destruct (RemoveOlderThan_monotone_timestamps_holds (Room.Messages room)
                  (10 * Go.Minute) now l (Hwf _ _ Hroom) Hl Hsorted)
        as (cb' & n' & l' & Hrun & Hall' & -> & Hnew & _).
      specialize (Hnew ltac:(vm_compute; reflexivity)).
      unfold Room.CleanupOldMessages in Hx. rewrite Hrun in Hx. simpl in Hx.
      injection Hx as <- _. simpl. split; [done|]. by eexists.
    + rewrite Hall. injection Hl as <-. simpl. split; [done|]. by eexists.
Qed.

(** X14: a tick of the monitor worker that starts with the write lock
    free never panics and never changes a room: it either returns with
    the mutex as it found it, or, when the tracker is critical, blocks. *)
Theorem updateMemoryStats_never_evicts (m : Manager) (mu : RWMutex) (now : Go.Time) :
  writer mu = false →
  match updateMemoryStats m mu now with
  | Returned m' mu' =>
      rooms m' = rooms m ∧ config m' = config m ∧ mu' = mu ∧
      IsCritical (memTracker m') = false
  | Blocked m' mu' =>
      rooms m' = rooms m ∧ config m' = config m ∧
      IsCritical (memTracker m') = true
  | Panicked => False
  end.
Proof.
  intros Hw. unfold updateMemoryStats, RLock. rewrite Hw.
  destruct (IsCritical (memTracker (measured m))) eqn:Hcrit.
  - unfold performEmergencyCleanup, Lock. simpl. done.
  - destruct mu as [n w]. simpl in *. subst w. done.
Qed.

End ManagerMore.

(** ** The rate limiter: its records and its guarantees *)

Section LimiterMore.
Import Limiter.

Variables ToLower TrimSpace : string → string.

Abbreviation checkRecord := (Limiter.checkRecord ToLower TrimSpace).
Abbreviation CheckMessage := (Limiter.CheckMessage ToLower TrimSpace).
Abbreviation run := (Limiter.run ToLower TrimSpace).
Abbreviation step := (Limiter.step ToLower TrimSpace).

(** The copy loop of [cleanup] on parallel slices, from index [k] on. *)
Lemma cleanup_lists (f : Go.Time → bool) : ∀ ts (cs preC : list string) (preH : list Z) k,
  length preC = k → length preH = k → length cs = length ts →
  let kept := List.filter (λ '(i, timestamp), f timestamp) (zip (seq k (length ts)) ts) in
  length (omap (λ '(i, _), (preC ++ cs) !! i) kept) = length kept.*2 ∧
  omap (λ '(i, _), (preH ++ (Go.len <$> cs)) !! i) kept
    = Go.len <$> omap (λ '(i, _), (preC ++ cs) !! i) kept ∧
  Forall (λ t, f t = true) kept.*2.
Proof.
  induction ts as [|t ts IH]; intros cs preC preH k HC HH Hlen; simpl; [done|].
  destruct cs as [|c cs]; [done|]. simpl in Hlen.
  specialize (IH cs (preC ++ [c]) (preH ++ [Go.len c]) (S k)).
  rewrite !length_app in IH. simpl in IH.
  specialize (IH ltac:(lia) ltac:(lia) ltac:(lia)).
  rewrite <- !app_assoc in IH. simpl in IH. destruct IH as (IH1 & IH2 & IH3).
  destruct (f t) eqn:Hf; simpl; [|done].
  rewrite !lookup_app_r by lia. rewrite HC, HH, Nat.sub_diag. simpl.
  split; [f_equal; exact IH1|]. split; [f_equal; exact IH2|].
  constructor; [done | exact IH3].
Qed.

Lemma cleanup_parallel r now :
  parallel r → parallel (cleanup r now) ∧
  ((Go.Sub now (LastCleanup r) <? Go.Minute) = false →
     Forall (λ t, now - 5 * Go.Minute < t) (Messages (cleanup r now)) ∧
     LastCleanup (cleanup r now) = now).
Proof.
  intros [Hlen Hchars]. unfold cleanup.
  destruct (Go.Sub now (LastCleanup r) <? Go.Minute); [done|].
  unfold indexed. simpl.
  pose proof (cleanup_lists (λ t, Go.After t (Go.Add now (- (5 * Go.Minute))))
                (Messages r) (MessageContents r) [] [] 0%nat eq_refl eq_refl Hlen)
    as (H1 & H2 & H3).
  simpl in H1, H2. rewrite Hchars.
  split; [by split|]. intros _. split; [|done].
  eapply Forall_impl; [exact H3|]. simpl. unfold Go.After, Go.Add. intros t Ht. lia.
Qed.

Lemma checkRecord_parallel cfg r text now :
  parallel r → parallel (checkRecord cfg r text now).1.
Proof.
  intros Hpar. pose proof (proj1 (cleanup_parallel r now Hpar)) as Hhist.
  unfold Limiter.checkRecord.
  remember (cleanup r now) as hist eqn:Hh. clear Hh.
  destruct Hhist as [Hlen Hchars].
  repeat match goal with
  | |- context [if ?b then _ else _] => destruct b
  end; cbn [fst]; try exact Hpar;
    (split; cbn [Messages MessageContents CharCountHistory
                 addViolations applyTimeout recordMessage];
     [rewrite ?length_app; cbn [length]; lia
     | rewrite ?fmap_app, ?Hchars; done]).
Qed.

(** X15: the three slices of a rate record stay parallel: along any
    history of checks and reaper runs that starts from parallel records,
    every record holds, for each timestamp, one text and the length of
    that text; the index guards of [cleanup] and [countCharsInWindow]
    never skip an entry. *)
Theorem records_stay_parallel (rl : RateLimiter) (ops : list op) :
  (∀ u r, userRecords rl !! u = Some r → parallel r) →
  ∀ i rl_i res, run rl ops !! i = Some (rl_i, res) →
    ∀ u r, userRecords rl_i !! u = Some r → parallel r.
Proof.
  revert rl. induction ops as [|o ops IH]; intros rl Hpar i rl_i res Hrun; [done|].
  assert (∀ u r, userRecords (step rl o).1 !! u = Some r → parallel r) as Hstep.
  { destruct o as [user text t|t]; cbn [Limiter.step fst].
    - rewrite CheckMessage_eq. cbn [fst userRecords]. intros u r.
      destruct (decide (u = user)) as [->|Hne].
      + rewrite lookup_insert_eq. intros [= <-]. apply checkRecord_parallel.
        unfold getOrCreateRecord.
        destruct (userRecords rl !! user) eqn:Hu; simpl; [by eapply Hpar|done].
      + rewrite lookup_insert_ne by done. unfold getOrCreateRecord.
        destruct (userRecords rl !! user) eqn:Hu; simpl; [apply Hpar|].
        rewrite lookup_insert_ne by done. apply Hpar.
    - intros u r. rewrite performCleanup_lookup.
      destruct (userRecords rl !! u) as [r0|] eqn:Hu; [|done].
      destruct (inactive r0 t); [done|]. intros [= <-]. by eapply Hpar. }
  destruct i as [|i].
  - rewrite run_lookup_0 in Hrun. injection Hrun as Hrun.
    rewrite Hrun in Hstep. exact Hstep.
  - rewrite run_lookup_S in Hrun. by eapply IH.
Qed.

Lemma count_snoc cutoff l t :
  fold_left (λ count timestamp,
               if Go.After timestamp cutoff then count + 1 else count) (l ++ [t]) 0
  = fold_left (λ count timestamp,
                 if Go.After timestamp cutoff then count + 1 else count) l 0
    + (if Go.After t cutoff then 1 else 0).
Proof. rewrite fold_left_app. simpl. destruct (Go.After t cutoff); lia. Qed.

Lemma countMessagesInWindow_recordMessage r content charCount window now :
  countMessagesInWindow (recordMessage r content charCount now) window now
  = countMessagesInWindow r window now + (if Go.neg window <? 0 then 1 else 0).
Proof.
  unfold countMessagesInWindow. simpl. rewrite count_snoc.
  unfold Go.After, Go.Add.
  destruct (Z.ltb_spec (now + Go.neg window) now), (Z.ltb_spec (Go.neg window) 0); lia.
Qed.

(** X16: what an allowed message guarantees: it is not oversize, the
    user has fewer than three violations, and, the message itself
    counted, the record holds at most 5 messages of the last 10 seconds,
    at most 10 of the last 30 seconds and at most 20 of the last 60
    seconds; the message is the newest entry of the record. *)
Theorem allowed_message_is_within_limits (rl : RateLimiter) (userID text : string)
    (now : Go.Time) :
  (CheckMessage rl userID text now).2.1 = true →
  Go.len text ≤ MaxCharactersPerMessage (config rl) ∧
  ∃ r', userRecords (CheckMessage rl userID text now).1 !! userID = Some r' ∧
    countMessagesInWindow r' (10 * Go.Second) now ≤ 5 ∧
    countMessagesInWindow r' (30 * Go.Second) now ≤ 10 ∧
    countMessagesInWindow r' (60 * Go.Second) now ≤ 20 ∧
    Violations r' < 3 ∧
    last (Messages r') = Some now ∧
    last (MessageContents r') = Some text ∧
    last (CharCountHistory r') = Some (Go.len text).
Proof.
  rewrite CheckMessage_eq. cbn [fst snd userRecords].
  set (r := (getOrCreateRecord rl userID now).2).
  rewrite lookup_insert_eq.
  destruct (cleanup_keeps r now) as (_ & Hv & _).
  unfold Limiter.checkRecord.
  destruct (Go.Before now (TimeoutUntil r)); [done|].
  set (hist := cleanup r now) in *. cbv zeta.
  repeat match goal with
  | |- context [if ?b then _ else _] => destruct b eqn:?
  end; cbn [fst snd deny]; try done.
  all: intros _; split; [lia|]; eexists; (split; [done|]);
    rewrite !countMessagesInWindow_recordMessage;
    cbn [Messages MessageContents CharCountHistory Violations recordMessage];
    rewrite !last_snoc; unfold Go.Second in *; simpl; repeat split; try done; lia.
Qed.

Lemma checkRecord_code_TIMEOUT cfg r text now :
  Code <$> (checkRecord cfg r text now).2.2 = Some "TIMEOUT" ↔ now < TimeoutUntil r.
Proof.
  unfold Limiter.checkRecord, Go.Before.
  destruct (Z.ltb_spec now (TimeoutUntil r)) as [Hlt|Hge]; [done|].
  split; [|lia]. unfold Limiter.deny.
  repeat match goal with
  | |- context [if ?b then _ else _] => destruct b
  end; simpl; intros [=].
Qed.

(** X17: [GetTimeoutStatus], which [join] uses to warn a user, agrees
    with [CheckMessage]: at an instant not before the zero time it
    reports a timeout exactly when a message sent at that instant would
    be denied with TIMEOUT; the remaining duration it reports is
    positive, and the denied check leaves the limiter as it is. *)
Theorem GetTimeoutStatus_agrees_with_CheckMessage (rl : RateLimiter)
    (userID text : string) (now : Go.Time) :
  Go.zeroTime ≤ now →
  ((GetTimeoutStatus rl userID now).1 = true ↔
   Code <$> (CheckMessage rl userID text now).2.2 = Some "TIMEOUT") ∧
  ((GetTimeoutStatus rl userID now).1 = true →
     0 < (GetTimeoutStatus rl userID now).2 ∧
     (CheckMessage rl userID text now).1 = rl) ∧
  ((GetTimeoutStatus rl userID now).1 = false →
     (GetTimeoutStatus rl userID now).2 = 0).
Proof.
  intros Hnow. rewrite CheckMessage_eq. cbn [fst snd].
  rewrite checkRecord_code_TIMEOUT.
  unfold GetTimeoutStatus, getOrCreateRecord, Go.Before.
  destruct (userRecords rl !! userID) as [r|] eqn:Hr; simpl.
  - destruct (Z.ltb_spec now (TimeoutUntil r)) as [Hlt|Hge]; simpl.
    + split; [done|]. split; [|done]. intros _. split.
      * unfold Go.Sub, Go.min_int64, Go.max_int64. lia.
      * rewrite checkRecord_timed_out by done. simpl.
        destruct rl as [cfg rs]. simpl in *. f_equal. by apply insert_id.
    + split; [split; [done|lia]|]. by split.
  - unfold Go.zeroTime in *. split; [split; [done|lia]|]. by split.
Qed.

(** *** A burst of messages *)

Lemma count_all r window now :
  Forall (λ t, now - window < t) (Messages r) →
  countMessagesInWindow r window now = Z.of_nat (length (Messages r)).
Proof.
  unfold countMessagesInWindow. generalize (Messages r). intros l Hall.
  assert (∀ acc, fold_left (λ count timestamp,
                   if Go.After timestamp (Go.Add now (Go.neg window))
                   then count + 1 else count)
                   l acc = acc + Z.of_nat (length l)) as H; [|by rewrite H].
  pose proof (neg_le window) as Hneg.
  induction Hall as [|t l Ht _ IH]; intros acc; simpl; [lia|].
  unfold Go.After, Go.Add in *.
  destruct (Z.ltb_spec (now + Go.neg window) t); [|lia]. rewrite IH. lia.
Qed.

Lemma isDuplicateSpam_dissimilar r text :
  Forall (λ old, Tiers.similar ToLower TrimSpace old text = false) (MessageContents r) →
  isDuplicateSpam ToLower TrimSpace r text = false.
Proof.
  intros Hall. rewrite isDuplicateSpam_table. unfold Tiers.similarCount, Buffer.lastn.
  rewrite filter_all_false; [done|]. by apply Forall_drop.
Qed.

Lemma checkRecord_burst cfg r text now :
  TimeoutUntil r ≤ now → now - LastCleanup r < Go.Minute →
  Go.len text ≤ MaxCharactersPerMessage cfg →
  5 ≤ countMessagesInWindow r (10 * Go.Second) now →
  checkRecord cfg r text now =
    (addViolations (applyTimeout r (30 * Go.Second) now) 1,
     deny "RATE_LIMIT" "Slow down! (30 second cooldown)").
Proof.
  intros Hto Hcl Hmax Hcount. unfold Limiter.checkRecord, Go.Before.
  destruct (Z.ltb_spec now (TimeoutUntil r)); [lia|].
  rewrite cleanup_recent by done.
  destruct (Z.gtb_spec (Go.len text) (MaxCharactersPerMessage cfg)); [lia|].
  by destruct (Z.geb_spec (countMessagesInWindow r (10 * Go.Second) now) 5); [|lia].
Qed.

Lemma step_Ask rl userID text now :
  step rl (Ask userID text now) =
    ((CheckMessage rl userID text now).1, Some (CheckMessage rl userID text now).2).
Proof. simpl. by destruct (CheckMessage rl userID text now). Qed.

Lemma run_cons rl o ops : run rl (o :: ops) = step rl o :: run (step rl o).1 ops.
Proof. done. Qed.

(** One more allowed message of a user whose record is the only one. *)
Lemma allowed_step cfg userID r text now :
  TimeoutUntil r ≤ now → now - LastCleanup r < Go.Minute →
  Go.len text ≤ 100 → Go.len text ≤ MaxCharactersPerMessage cfg →
  (length (Messages r) < 5)%nat → Violations r < 3 →
  Forall (λ old, Tiers.similar ToLower TrimSpace old text = false) (MessageContents r) →
  step {| config := cfg; userRecords := {[ userID := r ]} |} (Ask userID text now) =
    ({| config := cfg;
        userRecords := {[ userID := recordMessage r text (Go.len text) now ]} |},
     Some (true, None)).
Proof.
  intros. rewrite step_Ask.
  rewrite (CheckMessage_self _ _ _ _ _ _ r) by apply lookup_singleton_eq.
  cbn [config userRecords fst snd].
  rewrite checkRecord_short by done.
  rewrite isDuplicateSpam_dissimilar by done.
  cbn [fst snd]. by rewrite insert_singleton_eq.
Qed.

Ltac dis i j :=
  match goal with
  | Hd : ∀ (i j : nat) a b, (i < j)%nat → _ |- _ =>
      apply (Hd i j); [lia | reflexivity | reflexivity]
  end.

Ltac burst_side :=
  cbn [TimeoutUntil LastCleanup Messages MessageContents Violations
       recordMessage newRecord length app];
  unfold Go.zeroTime, Go.Minute, Go.Second in *; try lia.

(** X18: a burst from a new user: of six short messages, no two of them
    similar, sent within ten seconds, the first five are allowed and the
    sixth is denied with RATE_LIMIT, one violation and a timeout of 30
    seconds from the sixth; the sixth is not recorded. *)
Theorem sixth_message_of_a_burst_is_rate_limited (cfg : ChatConfig) (userID : string)
    (m1 m2 m3 m4 m5 m6 : string) (t1 t2 t3 t4 t5 t6 : Go.Time) :
  Forall (λ m, Go.len m ≤ 100 ∧ Go.len m ≤ MaxCharactersPerMessage cfg)
         [m1; m2; m3; m4; m5; m6] →
  (∀ (i j : nat) a b, (i < j)%nat →
     [m1; m2; m3; m4; m5; m6] !! i = Some a → [m1; m2; m3; m4; m5; m6] !! j = Some b →
     Tiers.similar ToLower TrimSpace a b = false) →
  0 ≤ t1 → t1 ≤ t2 → t2 ≤ t3 → t3 ≤ t4 → t4 ≤ t5 → t5 ≤ t6 →
  t6 - t1 < 10 * Go.Second →
  ∃ rl r,
    run (NewRateLimiter cfg)
        [Ask userID m1 t1; Ask userID m2 t2; Ask userID m3 t3;
         Ask userID m4 t4; Ask userID m5 t5; Ask userID m6 t6]
    !! 5%nat = Some (rl, Some (false, Some {| Code := "RATE_LIMIT";
                                 Message := "Slow down! (30 second cooldown)" |})) ∧
    (run (NewRateLimiter cfg)
         [Ask userID m1 t1; Ask userID m2 t2; Ask userID m3 t3;
          Ask userID m4 t4; Ask userID m5 t5; Ask userID m6 t6]).*2
    = [Some (true, None); Some (true, None); Some (true, None); Some (true, None);
       Some (true, None);
       Some (false, Some {| Code := "RATE_LIMIT";
                            Message := "Slow down! (30 second cooldown)" |})] ∧
    userRecords rl !! userID = Some r ∧
    Messages r = [t1; t2; t3; t4; t5] ∧
    MessageContents r = [m1; m2; m3; m4; m5] ∧
    TimeoutUntil r = Go.Add t6 (30 * Go.Second) ∧
    Violations r = 1.
Proof.
  intros Hlen Hdis H0 H12 H23 H34 H45 H56 Hwin.
  repeat (apply Forall_cons in Hlen as [[? ?] Hlen]).
  assert (∀ (i j : nat) a b, (i < j)%nat →
            [m1; m2; m3; m4; m5; m6] !! i = Some a →
            [m1; m2; m3; m4; m5; m6] !! j = Some b →
            Tiers.similar ToLower TrimSpace a b = false) as Hd by exact Hdis.
  set (r1 := recordMessage (newRecord userID t1) m1 (Go.len m1) t1).
  set (r2 := recordMessage r1 m2 (Go.len m2) t2).
  set (r3 := recordMessage r2 m3 (Go.len m3) t3).
  set (r4 := recordMessage r3 m4 (Go.len m4) t4).
  set (r5 := recordMessage r4 m5 (Go.len m5) t5).
  rewrite run_cons.
  assert (step (NewRateLimiter cfg) (Ask userID m1 t1) =
            ({| config := cfg; userRecords := {[ userID := r1 ]} |}, Some (true, None)))
    as ->.
  { rewrite step_Ask, CheckMessage_fresh by done.
    cbn [NewRateLimiter config userRecords].
    rewrite checkRecord_short by burst_side.
    rewrite isDuplicateSpam_few by burst_side.
    cbn [fst snd]. by rewrite insert_empty. }
  cbn [fst]. rewrite run_cons, (allowed_step cfg userID r1 m2 t2); subst r1;
    [|burst_side..|].
  2:{ cbn [MessageContents recordMessage newRecord app].
      repeat constructor. dis 0%nat 1%nat. }
  cbn [fst]. rewrite run_cons, (allowed_step cfg userID _ m3 t3); [|burst_side..|].
  2:{ cbn [MessageContents recordMessage newRecord app].
      repeat constructor; [dis 0%nat 2%nat | dis 1%nat 2%nat]. }
  cbn [fst]. rewrite run_cons, (allowed_step cfg userID _ m4 t4); [|burst_side..|].
  2:{ cbn [MessageContents recordMessage newRecord app].
      repeat constructor;
        [dis 0%nat 3%nat | dis 1%nat 3%nat | dis 2%nat 3%nat]. }
  cbn [fst]. rewrite run_cons, (allowed_step cfg userID _ m5 t5); [|burst_side..|].
  2:{ cbn [MessageContents recordMessage newRecord app].
      repeat constructor;
        [dis 0%nat 4%nat | dis 1%nat 4%nat
        | dis 2%nat 4%nat | dis 3%nat 4%nat]. }
  cbn [fst]. rewrite run_cons, step_Ask.
  rewrite (CheckMessage_self _ _ _ _ _ _ _ (lookup_singleton_eq _ _)).
  cbn [config userRecords fst snd].
  rewrite checkRecord_burst; [|burst_side..|].
  2:{ rewrite count_all.
      - cbn [Messages recordMessage newRecord app length]. lia.
      - cbn [Messages recordMessage newRecord app].
        unfold Go.Second in *. repeat constructor; lia. }
  cbn [fst snd]. rewrite insert_singleton_eq.
  eexists _, _. split; [reflexivity|]. split; [reflexivity|].
  split; [apply lookup_singleton_eq|].
  cbn [Messages MessageContents TimeoutUntil Violations addViolations applyTimeout
       recordMessage newRecord app].
  by repeat split.
Qed.

End LimiterMore.

(** ** The rate limiter against the table of section 4.4 *)

Section TableFacts.
Import Limiter.

Variables ToLower TrimSpace : string → string.

(** *** Counting and summing loops *)

Lemma count_loop {A} (f : A → bool) (l : list A) : ∀ acc,
  fold_left (λ count x, if f x then count + 1 else count) l acc
  = acc + Z.of_nat (length (List.filter f l)).
Proof.
  induction l as [|x l IH]; intros acc; simpl; [lia|].
  rewrite IH. destruct (f x); simpl; lia.
Qed.

Lemma filter_ext_in {A} (f g : A → bool) (l : list A) :
  Forall (λ x, f x = g x) l → List.filter f l = List.filter g l.
Proof. induction 1 as [|x l Hx _ IH]; simpl; [done|]. by rewrite Hx, IH. Qed.

Lemma filter_fmap {A B} (g : A → B) (f : B → bool) (l : list A) :
  List.filter f (g <$> l) = g <$> List.filter (λ x, f (g x)) l.
Proof.
  induction l as [|x l IH]; [done|]. cbn.
  destruct (f (g x)); cbn; [f_equal|]; exact IH.
Qed.

(** *** Similarity *)

Lemma matches_comm (a b : string) : Spec.matches a b = Spec.matches b a.
Proof.
  unfold Spec.matches. rewrite (Nat.min_comm (String.length b)). f_equal.
  apply filter_ext_in, Forall_forall. intros i _.
  apply bool_decide_ext. split; intros; done.
Qed.

Lemma similarity_loop (shorter longer : string) :
  (String.length shorter ≤ String.length longer)%nat →
  fold_left (λ matches i,
               if (Z.of_nat i <? Go.len longer)
                  && bool_decide (String.get i shorter = String.get i longer)
               then matches + 1 else matches)
            (seq 0 (String.length shorter)) 0
  = Z.of_nat (Spec.matches shorter longer).
Proof.
  intros Hle. rewrite count_loop, Z.add_0_l. unfold Spec.matches.
  rewrite Nat.min_l by done. do 2 f_equal.
  apply filter_ext_in, Forall_forall. intros i Hi%elem_of_seq.
  unfold Go.len. by destruct (Z.ltb_spec (Z.of_nat i) (Z.of_nat (String.length longer))); [|lia].
Qed.

Lemma similarity_spec (a b : string) :
  similarity (Spec.normalize ToLower TrimSpace a) (Spec.normalize ToLower TrimSpace b)
  = Spec.similarity ToLower TrimSpace a b.
Proof.
  unfold similarity, Spec.similarity. cbv zeta.
  set (s1 := Spec.normalize ToLower TrimSpace a).
  set (s2 := Spec.normalize ToLower TrimSpace b).
  destruct (String.eqb s1 s2); [done|].
  unfold Go.len.
  replace (Z.of_nat (String.length s1) =? 0) with (String.length s1 =? 0)%nat
    by (destruct (Nat.eqb_spec (String.length s1) 0), (Z.eqb_spec (Z.of_nat (String.length s1)) 0); lia).
  replace (Z.of_nat (String.length s2) =? 0) with (String.length s2 =? 0)%nat
    by (destruct (Nat.eqb_spec (String.length s2) 0), (Z.eqb_spec (Z.of_nat (String.length s2)) 0); lia).
  destruct (_ || _); [done|].
  destruct (Z.gtb_spec (Z.of_nat (String.length s2)) (Z.of_nat (String.length s1))) as [Hgt|Hle].
  - fold (Go.len s2). rewrite similarity_loop by lia.
    rewrite Nat.max_r by lia. unfold Go.len. by rewrite matches_comm.
  - fold (Go.len s1). rewrite similarity_loop by lia.
    rewrite Nat.max_l by lia. unfold Go.len. by rewrite matches_comm.
Qed.

Lemma similar_spec (a b : string) :
  Tiers.similar ToLower TrimSpace a b = Spec.similar ToLower TrimSpace a b.
Proof. unfold Tiers.similar, Spec.similar. by rewrite <- similarity_spec. Qed.


(** *** Records read as histories *)

Abbreviation zip3 ts cs hs :=
  (zip_with (λ (t : Go.Time) (cn : string * Z),
               {| Spec.sentAt := t; Spec.text := cn.1; Spec.chars := cn.2 |})
            ts (zip cs hs)).

Lemma zip3_fields : ∀ (ts : list Go.Time) (cs : list string) (hs : list Z),
  length cs = length ts → length hs = length ts →
  Spec.sentAt <$> zip3 ts cs hs = ts ∧
  Spec.text <$> zip3 ts cs hs = cs ∧
  Spec.chars <$> zip3 ts cs hs = hs.
Proof.
  induction ts as [|t ts IH]; intros [|c cs] [|h hs] Hc Hh; try done.
  destruct (IH cs hs) as (H1 & H2 & H3); [by injection Hc|by injection Hh|].
  cbn. split; [|split]; f_equal; done.
Qed.

Lemma zip3_snoc (ts : list Go.Time) (cs : list string) (hs : list Z) t c h :
  length cs = length ts → length hs = length ts →
  zip3 (ts ++ [t]) (cs ++ [c]) (hs ++ [h])
  = zip3 ts cs hs ++ [{| Spec.sentAt := t; Spec.text := c; Spec.chars := h |}].
Proof.
  intros Hc Hh. rewrite (zip_with_app pair cs [c] hs [h]) by congruence.
  rewrite zip_with_app; [done|]. rewrite length_zip_with. lia.
Qed.

Lemma view_fields r :
  parallel r →
  Spec.sentAt <$> Spec.entries (Spec.view r) = Messages r ∧
  Spec.text <$> Spec.entries (Spec.view r) = MessageContents r ∧
  Spec.chars <$> Spec.entries (Spec.view r) = CharCountHistory r.
Proof.
  intros [Hlen Hchars]. apply zip3_fields; [done|].
  by rewrite Hchars, length_fmap.
Qed.

(** The loop of [countCharsInWindow], from index [length pre] on. *)
Lemma chars_sum_loop (f : Go.Time → bool) : ∀ ts cs hs (pre : list Z) acc,
  length cs = length ts → length hs = length ts →
  fold_left (λ totalChars '(i, timestamp),
               if f timestamp && (i <? length (pre ++ hs))%nat
               then totalChars + default 0 ((pre ++ hs) !! i) else totalChars)
            (zip (seq (length pre) (length ts)) ts) acc
  = acc + foldr Z.add 0
            (Spec.chars <$> List.filter (λ e, f (Spec.sentAt e)) (zip3 ts cs hs)).
Proof.
  induction ts as [|t ts IH]; intros [|c cs] [|h hs] pre acc Hc Hh; try done.
  - simpl. lia.
  - injection Hc as Hc. injection Hh as Hh.
    cbn [length seq zip zip_with fold_left List.filter Spec.sentAt].
    assert ((length pre <? length (pre ++ h :: hs))%nat = true) as ->.
    { apply Nat.ltb_lt. rewrite length_app. simpl. lia. }
    assert ((pre ++ h :: hs) !! length pre = Some h) as ->.
    { rewrite lookup_app_r by lia. by rewrite Nat.sub_diag. }
    specialize (IH cs hs (pre ++ [h])).
    rewrite <- app_assoc in IH. cbn [app] in IH.
    replace (length (pre ++ [h])) with (S (length pre)) in IH
      by (rewrite length_app; simpl; lia).
    rewrite andb_true_r. destruct (f t); cbn [default fmap list_fmap foldr Spec.chars].
    + rewrite IH by done. cbn. lia.
    + by rewrite IH.
Qed.

(** The copy loop of [cleanup], from index [length preC] on. *)
Lemma kept_entries (f : Go.Time → bool) : ∀ ts cs hs (preC : list string) (preH : list Z),
  length preH = length preC → length cs = length ts → length hs = length ts →
  zip3 (List.filter (λ '(i, timestamp), f timestamp)
                    (zip (seq (length preC) (length ts)) ts)).*2
       (omap (λ '(i, _), (preC ++ cs) !! i)
             (List.filter (λ '(i, timestamp), f timestamp)
                          (zip (seq (length preC) (length ts)) ts)))
       (omap (λ '(i, _), (preH ++ hs) !! i)
             (List.filter (λ '(i, timestamp), f timestamp)
                          (zip (seq (length preC) (length ts)) ts)))
  = List.filter (λ e, f (Spec.sentAt e)) (zip3 ts cs hs).
Proof.
  induction ts as [|t ts IH]; intros [|c cs] [|h hs] preC preH Hpre Hc Hh; try done.
  injection Hc as Hc. injection Hh as Hh.
  cbn [length seq zip zip_with List.filter Spec.sentAt].
  specialize (IH cs hs (preC ++ [c]) (preH ++ [h])).
  rewrite <- !app_assoc in IH. cbn [app] in IH.
  replace (length (preC ++ [c])) with (S (length preC)) in IH
    by (rewrite length_app; simpl; lia).
  specialize (IH ltac:(rewrite !length_app; simpl; lia) Hc Hh).
  destruct (f t).
  - cbn [fmap list_fmap snd omap list_omap].
    assert ((preC ++ c :: cs) !! length preC = Some c) as ->.
    { rewrite lookup_app_r by lia. by rewrite Nat.sub_diag. }
    assert ((preH ++ h :: hs) !! length preC = Some h) as ->.
    { rewrite lookup_app_r by lia. by rewrite Hpre, Nat.sub_diag. }
    cbn. f_equal. exact IH.
  - exact IH.
Qed.

Lemma Sub_lt_Minute (now last : Go.Time) :
  (Go.Sub now last <? Go.Minute) = negb (60 * Go.Second <=? now - last).
Proof.
  unfold Go.Sub, Go.min_int64, Go.max_int64, Go.Minute, Go.Second.
  destruct (Z.ltb_spec (Z.max (- 2 ^ 63) (Z.min (2 ^ 63 - 1) (now - last)))
                       (60 * 1000000000)),
           (Z.leb_spec (60 * 1000000000) (now - last)); simpl; lia.
Qed.

(** What [cleanup] leaves of a record is the history after the
    self-cleanup, with both comparisons inclusive. *)
Lemma view_cleanup r now :
  parallel r →
  Spec.entries (Spec.view (cleanup r now)) = Spec.selfCleanInclusive now (Spec.view r).
Proof.
  intros [Hlen Hchars]. unfold cleanup, Spec.selfCleanInclusive.
  rewrite Sub_lt_Minute. cbn [Spec.lastCleanup Spec.view].
  destruct (60 * Go.Second <=? now - LastCleanup r); cbn [negb]; [|done].
  cbn [Spec.entries Spec.view Messages MessageContents CharCountHistory]. unfold indexed.
  assert (length (CharCountHistory r) = length (Messages r)) as Hh
    by (by rewrite Hchars, length_fmap).
  etrans; [exact (kept_entries (λ t, Go.After t (Go.Add now (- (5 * Go.Minute))))
                    (Messages r) (MessageContents r) (CharCountHistory r) [] []
                    eq_refl Hlen Hh)|].
  apply filter_ext_in, Forall_forall. intros e _.
  unfold Go.After, Go.Add.
  destruct (Z.ltb_spec (now + - (5 * Go.Minute)) (Spec.sentAt e)),
           (Z.leb_spec (5 * Go.Minute) (now - Spec.sentAt e)); simpl; lia.
Qed.


(** *** The counters of the code on a record, and those of the table on
    its history *)

Lemma window_ext (w : Go.Duration) (now : Go.Time) (es : list Spec.entry) :
  Go.min_int64 < w →
  List.filter (λ e, Go.After (Spec.sentAt e) (Go.Add now (Go.neg w))) es
  = List.filter (Spec.inLast w now) es.
Proof.
  intros Hw. apply filter_ext_in, Forall_forall. intros e _.
  unfold Go.After, Go.Add, Spec.inLast. rewrite neg_small by done.
  apply Bool.eq_iff_eq_true. rewrite !Z.ltb_lt. lia.
Qed.

Lemma messages_spec r w now :
  parallel r → Go.min_int64 < w →
  countMessagesInWindow r w now
  = Spec.messagesInLast w now (Spec.entries (Spec.view r)).
Proof.
  intros Hpar Hw. unfold countMessagesInWindow, Spec.messagesInLast.
  rewrite count_loop, Z.add_0_l. f_equal.
  rewrite <- (proj1 (view_fields r Hpar)) at 1.
  rewrite filter_fmap, length_fmap. f_equal. by apply window_ext.
Qed.

Lemma chars_spec r w now :
  parallel r → Go.min_int64 < w →
  countCharsInWindow r w now
  = Spec.charsInLast w now (Spec.entries (Spec.view r)).
Proof.
  intros [Hlen Hchars] Hw. unfold countCharsInWindow, Spec.charsInLast, indexed.
  assert (length (CharCountHistory r) = length (Messages r)) as Hh
    by (by rewrite Hchars, length_fmap).
  etrans; [exact (chars_sum_loop (λ t, Go.After t (Go.Add now (Go.neg w)))
                    (Messages r) (MessageContents r) (CharCountHistory r) [] 0
                    Hlen Hh)|].
  rewrite Z.add_0_l. do 2 f_equal. by apply window_ext.
Qed.

Lemma lastn_fmap {A B} (g : A → B) (n : nat) (l : list A) :
  Buffer.lastn n (g <$> l) = g <$> Buffer.lastn n l.
Proof. unfold Buffer.lastn. by rewrite fmap_drop, length_fmap. Qed.

Lemma similarCount_spec r txt :
  parallel r →
  Tiers.similarCount ToLower TrimSpace (MessageContents r) txt
  = length (List.filter (λ e, Spec.similar ToLower TrimSpace (Spec.text e) txt)
                        (Buffer.lastn 5 (Spec.entries (Spec.view r)))).
Proof.
  intros Hpar. unfold Tiers.similarCount.
  rewrite <- (proj1 (proj2 (view_fields r Hpar))) at 1.
  rewrite lastn_fmap, filter_fmap, length_fmap. f_equal.
  apply filter_ext_in, Forall_forall. intros e _. apply similar_spec.
Qed.

Lemma window_10s : Go.min_int64 < 10 * Go.Second. Proof. done. Qed.
Lemma window_30s : Go.min_int64 < 30 * Go.Second. Proof. done. Qed.
Lemma window_60s : Go.min_int64 < 60 * Go.Second. Proof. done. Qed.
Lemma window_5min : Go.min_int64 < 5 * Go.Minute. Proof. done. Qed.

(** Every test of the code, on the record it has cleaned, is the trigger
    of the table on the history the inclusive self-cleanup leaves. *)
Lemma trigger_spec cfg r txt now t :
  parallel r →
  Tiers.trigger ToLower TrimSpace cfg r txt now t
  = Spec.triggerOn ToLower TrimSpace cfg
      (Spec.selfCleanInclusive now (Spec.view r)) (Spec.view r) txt now t.
Proof.
  intros Hpar. pose proof (proj1 (cleanup_parallel r now Hpar)) as Hhist.
  rewrite <- (view_cleanup r now Hpar).
  unfold Tiers.trigger, Spec.triggerOn. cbv zeta.
  rewrite !(messages_spec _ _ _ Hhist window_10s),
          (messages_spec _ _ _ Hhist window_30s),
          (messages_spec _ _ _ Hhist window_60s),
          (chars_spec _ _ _ Hhist window_5min),
          (similarCount_spec _ _ Hhist).
  destruct t; cbn [Spec.timeoutUntil Spec.violations Spec.view];
    rewrite ?Z.geb_leb, ?Z.gtb_ltb; done.
Qed.

Lemma find_ext {A} (f g : A → bool) (l : list A) :
  (∀ x, f x = g x) → List.find f l = List.find g l.
Proof. intros Hfg. induction l as [|x l IH]; simpl; [done|]. by rewrite Hfg, IH. Qed.

Lemma firstMatch_spec cfg r txt now :
  parallel r →
  Tiers.firstMatch ToLower TrimSpace cfg r txt now
  = Spec.firstMatchOn ToLower TrimSpace cfg
      (Spec.selfCleanInclusive now (Spec.view r)) (Spec.view r) txt now.
Proof.
  intros Hpar. unfold Tiers.firstMatch, Spec.firstMatchOn. f_equal.
  apply find_ext. intros t. by apply trigger_spec.
Qed.

Lemma firstMatchOn_first cfg es h txt now :
  ∃ before after,
    Tiers.order
      = before ++ Spec.firstMatchOn ToLower TrimSpace cfg es h txt now :: after ∧
    Forall (λ u, Spec.triggerOn ToLower TrimSpace cfg es h txt now u = false) before ∧
    Spec.triggerOn ToLower TrimSpace cfg es h txt now
      (Spec.firstMatchOn ToLower TrimSpace cfg es h txt now) = true.
Proof.
  unfold Spec.firstMatchOn.
  destruct (List.find _ _) as [t|] eqn:Hfind.
  - by apply find_first.
  - assert (Spec.triggerOn ToLower TrimSpace cfg es h txt now Tiers.Allow = false)
      as Hno; [|done].
    apply (List.find_none _ _ Hfind). unfold Tiers.order. simpl. tauto.
Qed.

(** Off the two boundaries the self-cleanup of the specification and
    the inclusive one leave the same history. *)
Lemma selfClean_off_boundary now h :
  now - Spec.lastCleanup h ≠ 60 * Go.Second →
  Forall (λ e, now - Spec.sentAt e ≠ 5 * Go.Minute) (Spec.entries h) →
  Spec.selfClean now h = Spec.selfCleanInclusive now h.
Proof.
  intros Hlast Hages. unfold Spec.selfClean, Spec.selfCleanInclusive.
  assert ((60 * Go.Second <? now - Spec.lastCleanup h)
          = (60 * Go.Second <=? now - Spec.lastCleanup h)) as ->.
  { apply Bool.eq_iff_eq_true. rewrite Z.ltb_lt, Z.leb_le. lia. }
  destruct (_ <=? _); [|done].
  apply filter_ext_in. eapply Forall_impl; [exact Hages|].
  intros e He. cbv beta in He |- *. f_equal.
  apply Bool.eq_iff_eq_true. rewrite Z.ltb_lt, Z.leb_le. lia.
Qed.

(** One call on a record, read on its history: the first tier of the
    table whose trigger holds after the inclusive self-cleanup, and that
    tier's consequences. *)
Lemma checkRecord_spec cfg r txt now :
  parallel r → Go.is_int (Violations r) →
  let h := Spec.view r in
  let es := Spec.selfCleanInclusive now h in
  let t := Spec.firstMatchOn ToLower TrimSpace cfg es h txt now in
  let out := checkRecord ToLower TrimSpace cfg r txt now in
  out.2.1 = Tiers.allows t ∧
  Code <$> out.2.2 = Tiers.code t ∧
  Spec.timeoutUntil (Spec.view out.1) =
    match Tiers.timeout t (Spec.violations h) with
    | Some d => now + d
    | None => Spec.timeoutUntil h
    end ∧
  Spec.violations (Spec.view out.1) = Go.wrap64 (Spec.violations h + Tiers.delta t) ∧
  Spec.entries (Spec.view out.1) = Spec.entriesAfter t es h txt now.
Proof.
  intros Hpar Hint h es t out.
  pose proof (checkRecord_table ToLower TrimSpace cfg r txt now Hint)
    as (Hallow & Hcode & Hto & Hv & Hhist & _).
  rewrite (firstMatch_spec cfg r txt now Hpar) in Hallow, Hcode, Hto, Hv, Hhist.
  fold h es t out in Hallow, Hcode, Hto, Hv, Hhist.
  split; [done|]. split; [done|]. split; [exact Hto|]. split; [exact Hv|].
  destruct (cleanup_parallel r now Hpar) as [[Hlen Hchars] _].
  assert (length (CharCountHistory (cleanup r now)) = length (Messages (cleanup r now)))
    as Hh by (by rewrite Hchars, length_fmap).
  pose proof (view_cleanup r now Hpar) as Hview. fold h es in Hview.
  cbn [Spec.entries Spec.view] in Hview |- *.
  unfold Tiers.history in Hhist. unfold Spec.entriesAfter. clearbody t.
  destruct t; injection Hhist as -> -> ->; try exact Hview; try done.
  rewrite zip3_snoc by done. by rewrite Hview.
Qed.


Lemma historyOf_view rl userID now :
  (∀ r, userRecords rl !! userID = Some r → parallel r ∧ Go.is_int (Violations r)) →
  let r := (getOrCreateRecord rl userID now).2 in
  Spec.view r = Spec.historyOf rl userID now ∧ parallel r ∧ Go.is_int (Violations r).
Proof.
  intros Hrec. unfold getOrCreateRecord, Spec.historyOf.
  destruct (userRecords rl !! userID) as [r0|]; cbn [snd].
  - by destruct (Hrec r0 eq_refl).
  - split; [done|]. split; [by split|]. by vm_compute.
Qed.

(** A call of [CheckMessage], read on the user's history: the first
    tier of the table whose trigger holds after the inclusive
    self-cleanup, and that tier's consequences. *)
Lemma CheckMessage_inclusive rl userID txt now :
  let h := Spec.historyOf rl userID now in
  let es := Spec.selfCleanInclusive now h in
  let t := Spec.firstMatchOn ToLower TrimSpace (config rl) es h txt now in
  let out := CheckMessage ToLower TrimSpace rl userID txt now in
  (∀ r, userRecords rl !! userID = Some r → parallel r ∧ Go.is_int (Violations r)) →
  out.2.1 = Tiers.allows t ∧
  Code <$> out.2.2 = Tiers.code t ∧
  ∃ r', userRecords out.1 !! userID = Some r' ∧
    Spec.timeoutUntil (Spec.view r') =
      match Tiers.timeout t (Spec.violations h) with
      | Some d => Go.Add now d
      | None => Spec.timeoutUntil h
      end ∧
    Spec.violations (Spec.view r') = Go.wrap64 (Spec.violations h + Tiers.delta t) ∧
    Spec.entries (Spec.view r') = Spec.entriesAfter t es h txt now.
Proof.
  intros h es t out Hrec.
  destruct (historyOf_view rl userID now Hrec) as (Hview & Hpar & Hint).
  pose proof (checkRecord_spec (config rl) _ txt now Hpar Hint) as Htable.
  cbv zeta in Htable. rewrite Hview in Htable. fold h es t in Htable.
  destruct Htable as (Hallow & Hcode & Hto & Hv & Hes).
  subst out. rewrite CheckMessage_eq. cbn [fst snd userRecords].
  split; [done|]. split; [done|].
  eexists. split; [apply lookup_insert_eq|]. done.
Qed.

(** C1: off the two boundaries of the self-cleanup (exactly 60 s since
    the last cleanup; an entry exactly 5 min old), a call of
    [CheckMessage] returns one outcome, that of the first tier in the
    order T0, T1, T2a, T2b, T2c, T3-long, T3-med, T4, T5, Escalation,
    Allow whose trigger, as the table of section 4.4 words it on the
    user's history, holds; and it leaves the user's history with that
    tier's deny code, timeout and violation delta (and, on Allow, with
    the message recorded) and no other. *)
Theorem CheckMessage_first_match (rl : RateLimiter) (userID txt : string) (now : Go.Time) :
  let h := Spec.historyOf rl userID now in
  let t := Spec.firstMatch ToLower TrimSpace (config rl) h txt now in
  let out := CheckMessage ToLower TrimSpace rl userID txt now in
  (∀ r, userRecords rl !! userID = Some r → parallel r ∧ Go.is_int (Violations r)) →
  now - Spec.lastCleanup h ≠ 60 * Go.Second →
  Forall (λ e, now - Spec.sentAt e ≠ 5 * Go.Minute) (Spec.entries h) →
  (∃ before after,
     Tiers.order = before ++ t :: after ∧
     Forall (λ u, Spec.trigger ToLower TrimSpace (config rl) h txt now u = false) before ∧
     Spec.trigger ToLower TrimSpace (config rl) h txt now t = true) ∧
  out.2.1 = Tiers.allows t ∧
  Code <$> out.2.2 = Tiers.code t ∧
  ∃ r', userRecords out.1 !! userID = Some r' ∧
    Spec.timeoutUntil (Spec.view r') =
      match Tiers.timeout t (Spec.violations h) with
      | Some d => Go.Add now d
      | None => Spec.timeoutUntil h
      end ∧
    Spec.violations (Spec.view r') = Go.wrap64 (Spec.violations h + Tiers.delta t) ∧
    Spec.entries (Spec.view r') = Spec.entriesAfter t (Spec.selfClean now h) h txt now.
Proof.
  intros h t out Hrec Hlast Hages.
  split; [apply firstMatchOn_first|].
  subst t out. unfold Spec.firstMatch.
  rewrite (selfClean_off_boundary now h Hlast Hages).
  by apply CheckMessage_inclusive.
Qed.

End TableFacts.

Section TableRuns.
Import Limiter.

Abbreviation check := Examples.check.
Abbreviation lower := asciiToLower.
Abbreviation trim := asciiTrimSpace.

Lemma CheckMessage_first_match_witness :
  (∀ r, userRecords Examples.threeSpams !! "u" = Some r →
        parallel r ∧ Go.is_int (Violations r)) ∧
  109 * Go.Second
    - Spec.lastCleanup (Spec.historyOf Examples.threeSpams "u" (109 * Go.Second))
    ≠ 60 * Go.Second ∧
  Forall (λ e, 109 * Go.Second - Spec.sentAt e ≠ 5 * Go.Minute)
         (Spec.entries (Spec.historyOf Examples.threeSpams "u" (109 * Go.Second))) ∧
  Spec.firstMatch lower trim DefaultConfig
    (Spec.historyOf Examples.threeSpams "u" (109 * Go.Second)) "spam" (109 * Go.Second)
    = Tiers.T4 ∧
  (check Examples.threeSpams "u" "spam" (109 * Go.Second)).2.1 = false ∧
  Code <$> (check Examples.threeSpams "u" "spam" (109 * Go.Second)).2.2
    = Some "DUPLICATE_SPAM" ∧
  ∃ r', userRecords (check Examples.threeSpams "u" "spam" (109 * Go.Second)).1 !! "u"
          = Some r' ∧
        TimeoutUntil r' = 409 * Go.Second ∧ Violations r' = 1.
Proof.
  assert (∀ r, userRecords Examples.threeSpams !! "u" = Some r →
               parallel r ∧ Go.is_int (Violations r)) as Hrec.
  { intros r Hr. vm_compute in Hr. injection Hr as <-.
    split; [split; vm_compute; reflexivity|]. by vm_compute. }
  assert (109 * Go.Second
            - Spec.lastCleanup (Spec.historyOf Examples.threeSpams "u" (109 * Go.Second))
          ≠ 60 * Go.Second) as Hlast by (by vm_compute).
  assert (Forall (λ e, 109 * Go.Second - Spec.sentAt e ≠ 5 * Go.Minute)
            (Spec.entries (Spec.historyOf Examples.threeSpams "u" (109 * Go.Second))))
    as Hages.
  { set (es := Spec.entries _). vm_compute in es. subst es.
    repeat (constructor; [by vm_compute|]). constructor. }
  assert (Spec.firstMatch lower trim DefaultConfig
            (Spec.historyOf Examples.threeSpams "u" (109 * Go.Second)) "spam"
            (109 * Go.Second) = Tiers.T4) as Ht by (vm_compute; reflexivity).
  split; [exact Hrec|]. split; [exact Hlast|]. split; [exact Hages|].
  split; [exact Ht|].
  destruct (CheckMessage_first_match lower trim Examples.threeSpams "u" "spam"
              (109 * Go.Second) Hrec Hlast Hages)
    as (_ & Hallow & Hcode & r' & Hr' & Hto & Hv & _).
  split; [etrans; [exact Hallow|]; vm_compute; reflexivity|].
  split; [etrans; [exact Hcode|]; vm_compute; reflexivity|].
  exists r'. split; [exact Hr'|].
  split; [etrans; [exact Hto|]|etrans; [exact Hv|]]; vm_compute; reflexivity.
Defined.

(** A check exactly 60 seconds after the user's last cleanup.  The
    user has sent "spam" at 1010 s, 1013 s and 1016 s and "other" at
    1270 s, a call that stamped the cleanup.  At 1330 s it has not been
    more than a minute, so by the table the history stands, three of
    its last five entries are similar to "spam", and T4 is the first
    tier whose trigger holds; the code cleans all the same, forgets the
    three entries, which are older than five minutes, and allows the
    message. *)
Lemma CheckMessage_cleans_at_sixty_seconds :
  let now := 1330 * Go.Second in
  let h := Spec.historyOf Scenes.minuteLater "u" now in
  let out := check Scenes.minuteLater "u" "spam" now in
  now - Spec.lastCleanup h = 60 * Go.Second ∧
  Spec.selfClean now h = Spec.entries h ∧
  Spec.firstMatch lower trim DefaultConfig h "spam" now = Tiers.T4 ∧
  out.2 = (true, None) ∧
  out.2.1 ≠ Tiers.allows (Spec.firstMatch lower trim DefaultConfig h "spam" now) ∧
  Code <$> out.2.2 ≠ Tiers.code (Spec.firstMatch lower trim DefaultConfig h "spam" now) ∧
  MessageContents <$> userRecords out.1 !! "u" = Some ["other"; "spam"].
Proof.
  cbv zeta.
  split; [vm_compute; reflexivity|]. split; [vm_compute; reflexivity|].
  split; [vm_compute; reflexivity|]. split; [vm_compute; reflexivity|].
  split; [vm_compute; by intros [=]|]. split; [vm_compute; by intros [=]|].
  vm_compute. reflexivity.
Qed.

End TableRuns.

(** ** The session handler: who receives a frame *)

Section SessionMore.
Import WS.

Variables ToLower TrimSpace : string → string.

Lemma queue_insert_eq (chans : gmap nat (list WSMessage)) ch q :
  queue (<[ch := q]> chans) ch = q.
Proof. unfold queue. by rewrite lookup_insert_eq. Qed.

Lemma queue_insert_ne (chans : gmap nat (list WSMessage)) ch ch' q :
  ch ≠ ch' → queue (<[ch := q]> chans) ch' = queue chans ch'.
Proof. intros Hne. unfold queue. by rewrite lookup_insert_ne. Qed.

Lemma trySend_open cl chans ch msg :
  ch ∉ cl →
  ∃ chans', trySend cl chans ch msg = Some chans' ∧
    queue chans' ch =
      (if (length (queue chans ch) <? sendCapacity)%nat then queue chans ch ++ [msg]
       else queue chans ch) ∧
    ∀ ch', ch ≠ ch' → queue chans' ch' = queue chans ch'.
Proof.
  intros Hopen. unfold trySend. rewrite decide_False by done.
  destruct (_ <? _)%nat; eexists; (split; [done|]).
  - split; [apply queue_insert_eq|]. intros ch' Hne. by apply queue_insert_ne.
  - done.
Qed.

(** The loop of a broadcast when no selected connection has a closed
    channel and the registered connections have channels of their own. *)
Lemma fanOut_open (sel : Connection → bool) (h : WSHandler) (msg : WSMessage) :
  (∀ k1 k2 c1 c2, connections h !! k1 = Some c1 → connections h !! k2 = Some c2 →
     Send c1 = Send c2 → k1 = k2) →
  (∀ k conn, connections h !! k = Some conn → sel conn = true →
     Send conn ∉ closed h) →
  ∃ chans', fanOut sel h msg = Some chans' ∧
    (∀ k conn, connections h !! k = Some conn →
       queue chans' (Send conn) =
         if sel conn && (length (queue (chans h) (Send conn)) <? sendCapacity)%nat
         then queue (chans h) (Send conn) ++ [msg] else queue (chans h) (Send conn)) ∧
    (∀ ch, (∀ k conn, connections h !! k = Some conn → Send conn ≠ ch) →
       queue chans' ch = queue (chans h) ch).
Proof.
  unfold fanOut. generalize (connections h). intros conns.
  apply (map_fold_weak_ind (λ acc (conns : gmap string Connection),
    (∀ k1 k2 c1 c2, conns !! k1 = Some c1 → conns !! k2 = Some c2 →
       Send c1 = Send c2 → k1 = k2) →
    (∀ k conn, conns !! k = Some conn → sel conn = true → Send conn ∉ closed h) →
    ∃ chans', acc = Some chans' ∧
      (∀ k conn, conns !! k = Some conn →
         queue chans' (Send conn) =
           if sel conn && (length (queue (chans h) (Send conn)) <? sendCapacity)%nat
           then queue (chans h) (Send conn) ++ [msg] else queue (chans h) (Send conn)) ∧
      (∀ ch, (∀ k conn, conns !! k = Some conn → Send conn ≠ ch) →
         queue chans' ch = queue (chans h) ch))).
  - intros _ _. exists (chans h). split; [done|]. split; [|done].
    intros k conn Hk. by rewrite lookup_empty in Hk.
  - intros i x m acc Hi IH Hinj Hopen.
    destruct IH as (chans1 & -> & IHin & IHout).
    { intros k1 k2 c1 c2 H1 H2. apply Hinj; rewrite lookup_insert_ne; congruence. }
    { intros k conn Hk. apply (Hopen k). rewrite lookup_insert_ne; congruence. }
    assert (∀ k conn, m !! k = Some conn → Send conn ≠ Send x) as Hfresh.
    { intros k conn Hk Heq. assert (k = i) as ->; [|congruence].
      apply (Hinj k i conn x); [|by rewrite lookup_insert_eq|done].
      rewrite lookup_insert_ne; congruence. }
    cbn [mbind option_bind].
    destruct (sel x) eqn:Hsel.
    + destruct (trySend_open (closed h) chans1 (Send x) msg) as (chans2 & -> & Hx & Hrest).
      { apply (Hopen i); [by rewrite lookup_insert_eq|done]. }
      exists chans2. split; [done|]. split.
      * intros k conn Hk. destruct (decide (k = i)) as [->|Hne].
        -- rewrite lookup_insert_eq in Hk. injection Hk as <-.
           rewrite Hx, Hsel. simpl. by rewrite IHout.
        -- rewrite lookup_insert_ne in Hk by done.
           rewrite Hrest; [by eapply IHin|]. intros Heq. by eapply Hfresh.
      * intros ch Hunused.
        assert (Send x ≠ ch) as Hx' by (apply (Hunused i); by rewrite lookup_insert_eq).
        rewrite Hrest by done. apply IHout. intros k conn Hk. apply (Hunused k).
        rewrite lookup_insert_ne; congruence.
    + exists chans1. split; [done|]. split.
      * intros k conn Hk. destruct (decide (k = i)) as [->|Hne].
        -- rewrite lookup_insert_eq in Hk. injection Hk as <-.
           rewrite Hsel. simpl. by apply IHout.
        -- rewrite lookup_insert_ne in Hk by done. by eapply IHin.
      * intros ch Hunused. apply IHout. intros k conn Hk. apply (Hunused k).
        rewrite lookup_insert_ne; congruence.
Qed.

(** One selected connection with a closed channel is enough for the loop
    to panic, wherever the iteration meets it. *)
Lemma fanOut_closed (sel : Connection → bool) (h : WSHandler) (msg : WSMessage) k conn :
  connections h !! k = Some conn → sel conn = true → Send conn ∈ closed h →
  fanOut sel h msg = None.
Proof.
  unfold fanOut. generalize (connections h). intros conns. revert k conn.
  apply (map_fold_weak_ind (λ acc (conns : gmap string Connection),
    ∀ k conn, conns !! k = Some conn → sel conn = true → Send conn ∈ closed h →
      acc = None)).
  - intros k conn Hk. by rewrite lookup_empty in Hk.
  - intros i x m acc Hi IH k conn Hk Hsel Hclosed.
    destruct (decide (k = i)) as [->|Hne].
    + rewrite lookup_insert_eq in Hk. injection Hk as ->.
      destruct acc as [chans1|]; [|done]. cbn [mbind option_bind].
      rewrite Hsel. unfold trySend. by rewrite decide_True.
    + rewrite lookup_insert_ne in Hk by done.
      by rewrite (IH k conn Hk Hsel Hclosed).
Qed.

Lemma broadcastToRoom_reaches_the_room_holds (h : WSHandler) (c : Connection)
    (msg : WSMessage) :
  ((∀ k1 k2 c1 c2, connections h !! k1 = Some c1 → connections h !! k2 = Some c2 →
      Send c1 = Send c2 → k1 = k2) →
   (∀ k conn, connections h !! k = Some conn → StreamKey conn = StreamKey c →
      Send conn ∉ closed h) →
   ∃ h', broadcastToRoom h c msg = Returned h' ∧
     manager h' = manager h ∧ rateLimiter h' = rateLimiter h ∧
     connections h' = connections h ∧ closed h' = closed h ∧
     (∀ k conn, connections h !! k = Some conn →
        queue (chans h') (Send conn) =
          if String.eqb (StreamKey conn) (StreamKey c)
             && (length (queue (chans h) (Send conn)) <? sendCapacity)%nat
          then queue (chans h) (Send conn) ++ [msg] else queue (chans h) (Send conn)) ∧
     (∀ ch, (∀ k conn, connections h !! k = Some conn → Send conn ≠ ch) →
        queue (chans h') ch = queue (chans h) ch)) ∧
  (∀ k conn, connections h !! k = Some conn → StreamKey conn = StreamKey c →
     Send conn ∈ closed h → broadcastToRoom h c msg = Panicked).
Proof.
  unfold broadcastToRoom. split.
  - intros Hinj Hopen.
    destruct (fanOut_open (λ conn, String.eqb (StreamKey conn) (StreamKey c)) h msg Hinj)
      as (chans' & -> & Hin & Hout).
    { intros k conn Hk Hsel%String.eqb_eq. by eapply Hopen. }
    eexists. split; [done|]. by cbn [manager rateLimiter connections closed chans withChans].
  - intros k conn Hk Hsame Hclosed.
    rewrite (fanOut_closed _ h msg k conn Hk); [done| |done].
    by apply String.eqb_eq.
Qed.

(** X19: [broadcastToRoom].  When the registered connections have
    channels of their own and no registered connection of the sender's
    stream has a closed channel, it returns: a registered connection of
    the stream whose queue has room gets the frame once, at the end of its
    queue; a connection of another stream, or one whose queue holds 256
    frames, gets nothing (the frame is dropped, the sender is not told);
    queues of unregistered connections, the registry, the manager and the
    limiter are left alone.  When a connection of the stream is registered
    with a closed channel, the broadcast panics. *)
Theorem broadcastToRoom_reaches_the_room (h : WSHandler) (c : Connection)
    (msg : WSMessage) :
  ((∀ k1 k2 c1 c2, connections h !! k1 = Some c1 → connections h !! k2 = Some c2 →
      Send c1 = Send c2 → k1 = k2) →
   (∀ k conn, connections h !! k = Some conn → StreamKey conn = StreamKey c →
      Send conn ∉ closed h) →
   ∃ h', broadcastToRoom h c msg = Returned h' ∧
     manager h' = manager h ∧ rateLimiter h' = rateLimiter h ∧
     connections h' = connections h ∧ closed h' = closed h ∧
     (∀ k conn, connections h !! k = Some conn →
        queue (chans h') (Send conn) =
          if String.eqb (StreamKey conn) (StreamKey c)
             && (length (queue (chans h) (Send conn)) <? sendCapacity)%nat
          then queue (chans h) (Send conn) ++ [msg] else queue (chans h) (Send conn)) ∧
     (∀ ch, (∀ k conn, connections h !! k = Some conn → Send conn ≠ ch) →
        queue (chans h') ch = queue (chans h) ch)) ∧
  (∀ k conn, connections h !! k = Some conn → StreamKey conn = StreamKey c →
     Send conn ∈ closed h → broadcastToRoom h c msg = Panicked).
Proof.
  exact (broadcastToRoom_reaches_the_room_holds h c msg).
Qed.

(** X20: [broadcastToRoomExcept].  When the registered connections have
    channels of their own and none of those the loop sends to (the
    connections of the sender's stream other than the excepted user's)
    has a closed channel, it returns and never puts the frame on the queue
    of a registered connection whose user id is the excepted one, nor on a
    queue of another stream; every other registered connection gets the
    frame if its queue has room.  A closed channel among those it sends to
    makes it panic; a closed channel of the excepted user does not. *)
Theorem broadcastToRoomExcept_skips_the_user (h : WSHandler) (c : Connection)
    (msg : WSMessage) (exceptUserID : string) :
  ((∀ k1 k2 c1 c2, connections h !! k1 = Some c1 → connections h !! k2 = Some c2 →
      Send c1 = Send c2 → k1 = k2) →
   (∀ k conn, connections h !! k = Some conn → StreamKey conn = StreamKey c →
      UserID conn ≠ exceptUserID → Send conn ∉ closed h) →
   ∃ h', broadcastToRoomExcept h c msg exceptUserID = Returned h' ∧
     ∀ k conn, connections h !! k = Some conn →
       (UserID conn = exceptUserID →
          queue (chans h') (Send conn) = queue (chans h) (Send conn)) ∧
       (StreamKey conn ≠ StreamKey c →
          queue (chans h') (Send conn) = queue (chans h) (Send conn)) ∧
       (UserID conn ≠ exceptUserID → StreamKey conn = StreamKey c →
          queue (chans h') (Send conn) =
            if (length (queue (chans h) (Send conn)) <? sendCapacity)%nat
            then queue (chans h) (Send conn) ++ [msg]
            else queue (chans h) (Send conn))) ∧
  (∀ k conn, connections h !! k = Some conn → StreamKey conn = StreamKey c →
     UserID conn ≠ exceptUserID → Send conn ∈ closed h →
     broadcastToRoomExcept h c msg exceptUserID = Panicked).
Proof.
  unfold broadcastToRoomExcept. split.
  - intros Hinj Hopen.
    destruct (fanOut_open
                (λ conn, String.eqb (StreamKey conn) (StreamKey c)
                         && negb (String.eqb (UserID conn) exceptUserID))
                h msg Hinj) as (chans' & -> & Hin & _).
    { intros k conn Hk [Hs%String.eqb_eq Hu%negb_true_iff]%andb_true_iff.
      apply (Hopen k conn Hk Hs). by apply String.eqb_neq. }
    eexists. split; [done|]. cbn [chans withChans].
    intros k conn Hk. rewrite (Hin k conn Hk). split; [|split].
    + intros ->. rewrite String.eqb_refl. by rewrite andb_false_r.
    + intros Hne%String.eqb_neq. by rewrite Hne.
    + intros Hu%String.eqb_neq Hs%String.eqb_eq. by rewrite Hu, Hs.
  - intros k conn Hk Hs Hu Hclosed.
    rewrite (fanOut_closed _ h msg k conn Hk); [done| |done].
    apply String.eqb_eq in Hs. apply String.eqb_neq in Hu. by rewrite Hs, Hu.
Qed.

(** X21: a [message] frame that the limiter allows, on a sound manager.
    When the registered connections have channels of their own and no
    registered connection of the sender's stream has a closed channel, the
    handler returns, the limiter has recorded the message, the stored
    history of the sender's stream ends with the new message, and what is
    broadcast to the registered connections of the stream is a [message]
    frame that carries exactly the stored message.  When a connection of
    the stream is registered with a closed channel, the handler panics. *)
Theorem allowed_message_is_stored_and_broadcast (h : WSHandler) (c : Connection)
    (msg data : gmap string Value) (text uuid : string) (now : Go.Time) :
  Mgr.sound (manager h) →
  UserID c ≠ EmptyString →
  msg !! "data" = Some (VObject data) →
  data !! "message" = Some (VString text) →
  text ≠ EmptyString →
  (Limiter.CheckMessage ToLower TrimSpace (rateLimiter h) (UserID c) text now).2.1 = true →
  ((∀ k1 k2 c1 c2, connections h !! k1 = Some c1 → connections h !! k2 = Some c2 →
      Send c1 = Send c2 → k1 = k2) →
   (∀ k conn, connections h !! k = Some conn → StreamKey conn = StreamKey c →
      Send conn ∉ closed h) →
   ∃ h' l kept,
     handleChatMessage ToLower TrimSpace h c msg uuid now = Returned h' ∧
     rateLimiter h' =
       (Limiter.CheckMessage ToLower TrimSpace (rateLimiter h) (UserID c) text now).1 ∧
     connections h' = connections h ∧
     Mgr.sound (manager h') ∧
     Mgr.GetMessages (manager h) (StreamKey c) 0 = Some l ∧
     kept = (if Z.of_nat (length l) <? Mgr.capacity (manager h) (StreamKey c)
             then l else drop 1 l) ∧
     Mgr.GetMessages (manager h') (StreamKey c) 0 =
       Some (kept ++ [{| Msg.ID := uuid; Msg.StreamKey := StreamKey c;
                         Msg.UserID := UserID c; Msg.Username := Username c;
                         Msg.Message := text; Msg.Timestamp := now |}]) ∧
     ∀ k conn, connections h !! k = Some conn →
       queue (chans h') (Send conn) =
         if String.eqb (StreamKey conn) (StreamKey c)
            && (length (queue (chans h) (Send conn)) <? sendCapacity)%nat
         then queue (chans h) (Send conn) ++
                [{| Type_ := "message";
                    Data := ChatData {| Msg.ID := uuid; Msg.StreamKey := StreamKey c;
                                        Msg.UserID := UserID c;
                                        Msg.Username := Username c;
                                        Msg.Message := text; Msg.Timestamp := now |};
                    Error := EmptyString; Timestamp := now |}]
         else queue (chans h) (Send conn)) ∧
  (∀ k conn, connections h !! k = Some conn → StreamKey conn = StreamKey c →
     Send conn ∈ closed h →
     handleChatMessage ToLower TrimSpace h c msg uuid now = Panicked).
Proof.
  intros Hsound Hid Hdata Hmsg Hne Hallow.
  destruct (AddMessage_then_GetMessages_holds (manager h) (StreamKey c) (UserID c)
              (Username c) text uuid now Hsound)
    as (m' & l & kept & Hadd & Hsound' & Hl & Hkept & Hl' & _).
  unfold handleChatMessage. rewrite Hdata, Hmsg.
  apply String.eqb_neq in Hid, Hne. rewrite Hid, Hne.
  destruct (Limiter.CheckMessage ToLower TrimSpace (rateLimiter h) (UserID c) text now)
    as [rl [allowed err]]. simpl in Hallow. subst allowed.
  cbn [negb manager rateLimiter connections chans closed fst]. rewrite Hadd.
  match goal with
  | |- context [broadcastToRoom ?h0 c ?f] =>
      destruct (broadcastToRoom_reaches_the_room_holds h0 c f) as [Hopen Hclosed]
  end.
  cbn [manager rateLimiter connections chans closed] in Hopen, Hclosed.
  split.
  - intros Hinj Hnone.
    destruct (Hopen Hinj Hnone) as (h' & -> & Hm & Hrl & Hconns & _ & Hin & _).
    exists h', l, kept. split; [done|]. rewrite Hm.
    split; [done|]. split; [done|]. split; [done|]. split; [done|]. split; [done|].
    split; [done|]. exact Hin.
  - exact Hclosed.
Qed.

(** X22: a [message] frame on a connection whose user id is still empty
    (no join frame has set it), or a frame without a data object, or one
    whose data has no non-empty string under [message], is not counted by
    the rate limiter, nothing is stored and nothing is broadcast: the
    handler only sends one [error] frame on the sender's own channel.
    That send is a blocking one: with room in the sender's queue the frame
    is queued and the handler returns; with 256 frames queued the handler
    waits, and nothing at all has changed. *)
Theorem malformed_message_only_answers_the_sender (h : WSHandler) (c : Connection)
    (msg : gmap string Value) (uuid : string) (now : Go.Time) :
  UserID c = EmptyString
  ∨ (∀ data, msg !! "data" ≠ Some (VObject data))
  ∨ (∃ data, msg !! "data" = Some (VObject data) ∧
       ∀ text, data !! "message" = Some (VString text) → text = EmptyString) →
  Send c ∉ closed h →
  ((length (queue (chans h) (Send c)) < sendCapacity)%nat →
   ∃ h' errorMsg,
     handleChatMessage ToLower TrimSpace h c msg uuid now = Returned h' ∧
     manager h' = manager h ∧ rateLimiter h' = rateLimiter h ∧
     connections h' = connections h ∧
     queue (chans h') (Send c) =
       queue (chans h) (Send c) ++
         [{| Type_ := "error"; Data := NoData; Error := errorMsg; Timestamp := now |}] ∧
     ∀ ch, ch ≠ Send c → queue (chans h') ch = queue (chans h) ch) ∧
  ((sendCapacity ≤ length (queue (chans h) (Send c)))%nat →
   handleChatMessage ToLower TrimSpace h c msg uuid now = Blocked h).
Proof.
  intros Hbad Hopen.
  assert (∀ errorMsg,
            ((length (queue (chans h) (Send c)) < sendCapacity)%nat →
             ∃ h' e, sendError h c errorMsg now = Returned h' ∧
               manager h' = manager h ∧ rateLimiter h' = rateLimiter h ∧
               connections h' = connections h ∧
               queue (chans h') (Send c) =
                 queue (chans h) (Send c) ++
                   [{| Type_ := "error"; Data := NoData; Error := e;
                       Timestamp := now |}] ∧
               ∀ ch, ch ≠ Send c → queue (chans h') ch = queue (chans h) ch) ∧
            ((sendCapacity ≤ length (queue (chans h) (Send c)))%nat →
             sendError h c errorMsg now = Blocked h)) as Herr.
  { intros errorMsg. unfold sendError, send. rewrite decide_False by done.
    destruct (Nat.ltb_spec (length (queue (chans h) (Send c))) sendCapacity).
    - split; [|lia]. intros _. eexists _, errorMsg. split; [done|].
      cbn [manager rateLimiter connections chans withChans].
      split; [done|]. split; [done|]. split; [done|].
      split; [apply queue_insert_eq|]. intros ch Hne. by apply queue_insert_ne.
    - split; [lia|done]. }
  unfold handleChatMessage.
  destruct (String.eqb_spec (UserID c) EmptyString) as [Hid|Hid]; [apply Herr|].
  destruct Hbad as [Hbad | [Hbad | (data & Hdata & Hbad)]]; [done| |].
  - destruct (msg !! "data") as [[| | |data|]|]; try apply Herr.
    by destruct (Hbad data).
  - rewrite Hdata.
    destruct (data !! "message") as [[text| | | |]|] eqn:Hm; try apply Herr.
    rewrite (Hbad text eq_refl). simpl. apply Herr.
Qed.

End SessionMore.

(** ** The roster as a list *)

Section RosterMore.
Import Mgr.

(** X23: [GetUsers] lists the roster of the stream, every entry once:
    its length is [GetUserCount], and a user record is in the list exactly
    when the roster holds it under some id.  A stream without a room has
    the empty list. *)
Theorem GetUsers_lists_the_roster (m : Manager) (streamKey : string) :
  Z.of_nat (length (GetUsers m streamKey)) = GetUserCount m streamKey ∧
  (∀ u, u ∈ GetUsers m streamKey ↔ ∃ userID, roster m streamKey !! userID = Some u) ∧
  (rooms m !! streamKey = None → GetUsers m streamKey = []).
Proof.
  unfold GetUsers, GetUserCount, roster, GetRoom.
  destruct (rooms m !! streamKey) as [room|]; [|split; [done|split; [|done]]].
  - unfold Room.GetAllUsers, Room.UserCount. split; [|split; [|done]].
    + by rewrite length_fmap, length_map_to_list.
    + intros u. rewrite list_elem_of_fmap. split.
      * intros ([userID u'] & -> & Hin). exists userID. by apply elem_of_map_to_list.
      * intros (userID & Hu). exists (userID, u). split; [done|].
        by apply elem_of_map_to_list.
  - intros u. split; [by intros ?%elem_of_nil|]. intros (userID & Hu).
    by rewrite lookup_empty in Hu.
Qed.

End RosterMore.

(** ** The configuration *)

Section ConfigMore.
Import Config.

Variable Atoi : string → option Z.

Lemma wrap64_small z : - 2 ^ 63 ≤ z < 2 ^ 63 → Go.wrap64 z = z.
Proof. intros Hz. unfold Go.wrap64. rewrite Z.mod_small; lia. Qed.

(** X24: for sizes in a sensible range, not both zero,
    [CalculateCapacity] returns, and its estimate fits the memory
    envelope: that many streams of the estimated size fit in
    [MaxTotalMemoryMB] megabytes and one more does not; the message
    capacity is the streams times the messages per stream. *)
Theorem CalculateCapacity_fits_the_envelope (c : ChatConfig) :
  0 ≤ MaxTotalMemoryMB c ≤ 2 ^ 40 →
  0 ≤ MaxMessagesPerStream c ≤ 2 ^ 50 →
  0 ≤ MaxUsersPerStream c ≤ 2 ^ 50 →
  0 < MaxMessagesPerStream c + MaxUsersPerStream c →
  ∃ cap, CalculateCapacity c = Some cap ∧
    0 ≤ estimated_max_streams cap ∧
    estimated_max_streams cap * (MaxMessagesPerStream c * 500 + MaxUsersPerStream c * 200)
      ≤ MaxTotalMemoryMB c * 1048576 ∧
    MaxTotalMemoryMB c * 1048576
      < (estimated_max_streams cap + 1)
        * (MaxMessagesPerStream c * 500 + MaxUsersPerStream c * 200) ∧
    total_message_capacity cap = estimated_max_streams cap * MaxMessagesPerStream c ∧
    memory_per_stream_kb cap
      = (MaxMessagesPerStream c * 500 + MaxUsersPerStream c * 200) / 1024.
Proof.
  intros Hmb Hmsgs Husers Hpos. unfold CalculateCapacity, Go.div. cbv zeta.
  set (per := MaxMessagesPerStream c * 500 + MaxUsersPerStream c * 200).
  assert (0 < per ≤ 2 ^ 60) as Hper by (subst per; lia).
  rewrite (wrap64_small (MaxTotalMemoryMB c * 1024)) by lia.
  rewrite (wrap64_small (MaxTotalMemoryMB c * 1024 * 1024)) by lia.
  rewrite (wrap64_small (MaxUsersPerStream c * 200)) by lia.
  rewrite (wrap64_small (MaxMessagesPerStream c * 500)) by lia.
  fold per. rewrite (wrap64_small per) by lia.
  destruct (Z.eqb_spec per 0) as [?|_]; [lia|]. simpl.
  rewrite !Z.quot_div_nonneg by lia.
  set (total := MaxTotalMemoryMB c * 1024 * 1024).
  assert (0 ≤ total ≤ 2 ^ 60) as Htotal by (subst total; lia).
  assert (0 ≤ total / per) as Hq0 by (apply Z.div_pos; lia).
  assert (total / per * per ≤ total) as Hlow
    by (rewrite Z.mul_comm; apply Z.mul_div_le; lia).
  assert (total < (total / per + 1) * per) as Hhigh.
  { rewrite Z.mul_comm. replace (total / per + 1) with (Z.succ (total / per)) by lia.
    apply Z.mul_succ_div_gt. lia. }
  assert (total / per ≤ total) as Hqle by (apply Z.div_le_upper_bound; nia).
  assert (0 ≤ per / 1024 ≤ per) as Hkb.
  { split; [apply Z.div_pos; lia|]. apply Z.div_le_upper_bound; lia. }
  rewrite (wrap64_small (total / per)) by lia.
  rewrite (wrap64_small (per / 1024)) by lia.
  assert (total / per * MaxMessagesPerStream c ≤ total) as Hcap by (subst per; nia).
  rewrite (wrap64_small (total / per * MaxMessagesPerStream c)) by nia.
  eexists. split; [done|]. cbn [estimated_max_streams total_message_capacity
                                memory_per_stream_kb].
  subst total. split; [done|]. split; [lia|]. split; [lia|]. done.
Qed.

Lemma wrap64_shift z : ∃ k, Go.wrap64 z = z + 2 ^ 64 * k.
Proof.
  unfold Go.wrap64. exists (- ((z + 2 ^ 63) / 2 ^ 64)).
  pose proof (Z.div_mod (z + 2 ^ 63) (2 ^ 64) ltac:(lia)). lia.
Qed.

Lemma wrap64_zero z : Go.wrap64 z = 0 ↔ z mod 2 ^ 64 = 0.
Proof.
  unfold Go.wrap64.
  pose proof (Z.div_mod (z + 2 ^ 63) (2 ^ 64) ltac:(lia)) as H1.
  pose proof (Z.mod_pos_bound (z + 2 ^ 63) (2 ^ 64) ltac:(lia)) as H2.
  pose proof (Z.div_mod z (2 ^ 64) ltac:(lia)) as H3.
  pose proof (Z.mod_pos_bound z (2 ^ 64) ltac:(lia)) as H4.
  split; intros H; lia.
Qed.

(** X25: [CalculateCapacity] panics (integer division by zero) exactly
    when the per-stream estimate, 500 bytes per message plus 200 per
    user, is zero in int64 arithmetic, that is a multiple of [2^64]:
    for sizes between 0 and [2^50] that is when both sizes are zero; for
    larger sizes the estimate can wrap around to zero. *)
Theorem CalculateCapacity_panics_iff_estimate_is_zero (c : ChatConfig) :
  (CalculateCapacity c = None ↔
   (MaxMessagesPerStream c * 500 + MaxUsersPerStream c * 200) mod 2 ^ 64 = 0) ∧
  (0 ≤ MaxMessagesPerStream c ≤ 2 ^ 50 → 0 ≤ MaxUsersPerStream c ≤ 2 ^ 50 →
   (CalculateCapacity c = None ↔
    MaxMessagesPerStream c = 0 ∧ MaxUsersPerStream c = 0)).
Proof.
  assert (CalculateCapacity c = None ↔
          (MaxMessagesPerStream c * 500 + MaxUsersPerStream c * 200) mod 2 ^ 64 = 0)
    as Hiff.
  { unfold CalculateCapacity, Go.div. cbv zeta.
    set (per := Go.wrap64 (Go.wrap64 (MaxMessagesPerStream c * 500)
                           + Go.wrap64 (MaxUsersPerStream c * 200))).
    assert (per = 0 ↔
            (MaxMessagesPerStream c * 500 + MaxUsersPerStream c * 200) mod 2 ^ 64 = 0)
      as Hper.
    { subst per. rewrite wrap64_zero.
      destruct (wrap64_shift (MaxMessagesPerStream c * 500)) as [k1 ->].
      destruct (wrap64_shift (MaxUsersPerStream c * 200)) as [k2 ->].
      replace (MaxMessagesPerStream c * 500 + 2 ^ 64 * k1
               + (MaxUsersPerStream c * 200 + 2 ^ 64 * k2))
        with (MaxMessagesPerStream c * 500 + MaxUsersPerStream c * 200
              + (k1 + k2) * 2 ^ 64) by lia.
      by rewrite Z_mod_plus_full. }
    destruct (Z.eqb_spec per 0) as [Hz|Hnz]; simpl.
    - split; [intros _; by apply Hper|done].
    - split; [done|]. intros H. by apply Hper in H. }
  split; [exact Hiff|]. intros Hmsgs Husers. rewrite Hiff.
  rewrite Z.mod_small by lia. lia.
Qed.

Lemma intVar_default (env : gmap string string) key field :
  (∀ val, env !! key = Some val → val = EmptyString ∨ Atoi val = None) →
  intVar Atoi env key field = field.
Proof.
  intros Henv. unfold intVar, Getenv. destruct (env !! key) as [val|]; [|done].
  simpl. destruct (Henv val eq_refl) as [->|Hval]; [done|].
  rewrite Hval. by destruct (String.eqb val EmptyString).
Qed.

Lemma boolVar_default (env : gmap string string) key field :
  (∀ val, env !! key = Some val → val = EmptyString) →
  boolVar env key field = field.
Proof.
  intros Henv. unfold boolVar, Getenv. destruct (env !! key) as [val|]; [|done].
  by rewrite (Henv val eq_refl).
Qed.

(** X26: [LoadFromEnv] starts from [DefaultConfig] and keeps it wherever
    the environment gives nothing usable: when every variable that is set
    is empty, or is one of the integer settings with a value that [Atoi]
    rejects, the result is [DefaultConfig]; a bad value is not reported.
    The inactive-stream timeout cannot be set from the environment. *)
Theorem LoadFromEnv_keeps_defaults (env : gmap string string) :
  (∀ key val, env !! key = Some val →
     val = EmptyString ∨
     (Atoi val = None ∧
      key ∉ ["CHAT_ENABLE_VIEWER_LIST"; "CHAT_ENABLE_MENTIONS";
             "CHAT_ENABLE_TYPING_STATUS"; "CHAT_ENABLE_EMOJIS"])) →
  LoadFromEnv Atoi env = DefaultConfig.
Proof.
  intros Henv. unfold LoadFromEnv.
  rewrite !intVar_default by (intros val Hval; destruct (Henv _ _ Hval) as [?|[? _]]; auto).
  rewrite !boolVar_default; [done|..];
    intros val Hval; destruct (Henv _ _ Hval) as [?|[_ Hnot]]; try done;
    exfalso; apply Hnot; set_solver.
Qed.

(** X27: [LoadFromEnv] takes any integer that parses, and the manager
    does not check it either: with CHAT_MAX_MESSAGES_PER_STREAM set to
    zero or to a negative number, in a manager that runs on the loaded
    configuration the first message to a stream without a room panics;
    and whatever the environment, the inactive-stream timeout stays at ten
    minutes. *)
Theorem LoadFromEnv_does_not_validate (env : gmap string string) (val : string) (n : Z)
    (m : Mgr.Manager) (streamKey userID username message uuid : string) (now : Go.Time) :
  env !! "CHAT_MAX_MESSAGES_PER_STREAM" = Some val →
  val ≠ EmptyString → Atoi val = Some n → n ≤ 0 →
  Mgr.config m = LoadFromEnv Atoi env →
  Mgr.rooms m !! streamKey = None →
  MaxMessagesPerStream (LoadFromEnv Atoi env) = n ∧
  InactiveStreamTimeout (LoadFromEnv Atoi env) = 10 * Go.Minute ∧
  Mgr.AddMessage m streamKey userID username message uuid now = None.
Proof.
  intros Henv Hne Hval Hn Hcfg Hroom.
  assert (MaxMessagesPerStream (LoadFromEnv Atoi env) = n) as Hmax.
  { unfold LoadFromEnv. cbn [MaxMessagesPerStream]. unfold intVar, Getenv.
    rewrite Henv. simpl. apply String.eqb_neq in Hne. by rewrite Hne, Hval. }
  split; [done|]. split; [done|].
  unfold Mgr.AddMessage, Mgr.GetOrCreateRoom. rewrite Hroom.
  unfold Room.NewChatRoom, Buffer.NewCircularBuffer. rewrite Hcfg, Hmax.
  destruct (Z.ltb_spec n 0); [done|].
  assert (n = 0) as -> by lia. done.
Qed.

End ConfigMore.

(** * The further properties at work *)

Section MoreRuns.

Abbreviation lower := Limiter.asciiToLower.
Abbreviation trim := Limiter.asciiTrimSpace.

Lemma ring_wf : Buffer.wf Scenes.ring.
Proof. unfold Buffer.wf; cbn; repeat split; (reflexivity || lia || discriminate). Qed.

Lemma ring_sorted (i j : nat) (a b : ChatMessage) :
  (i ≤ j)%nat →
  [Examples.message "m1" 1; Examples.message "m2" 50] !! i = Some a →
  [Examples.message "m1" 1; Examples.message "m2" 50] !! j = Some b →
  Msg.Timestamp a ≤ Msg.Timestamp b.
Proof.
  intros Hle Hi Hj.
  destruct i as [|[|i]], j as [|[|j]]; simpl in Hi, Hj; try discriminate; try lia;
    injection Hi as <-; injection Hj as <-; simpl; lia.
Qed.

Lemma hall_sound : Mgr.sound Scenes.hall.
Proof.
  split; [vm_compute; discriminate|].
  unfold Scenes.hall. cbn [Mgr.rooms].
  intros streamKey room [_ <-]%lookup_singleton_Some. exact ring_wf.
Qed.

Lemma lobby_channels k1 k2 c1 c2 :
  WS.connections Scenes.lobby !! k1 = Some c1 →
  WS.connections Scenes.lobby !! k2 = Some c2 →
  WS.Send c1 = WS.Send c2 → k1 = k2.
Proof.
  unfold Scenes.lobby. cbn [WS.connections].
  rewrite !lookup_insert_Some, !lookup_singleton_Some.
  intros [[<- <-]|[_ [<- <-]]] [[<- <-]|[_ [<- <-]]]; done.
Qed.

Lemma RemoveOlderThan_removes_expired_prefix_witness :
  Buffer.wf Scenes.ring ∧
  Buffer.GetAll Scenes.ring = Some [Examples.message "m1" 1; Examples.message "m2" 50] ∧
  ∃ cb' (k : nat),
    Buffer.RemoveOlderThan Scenes.ring 10 30 = Some (cb', Z.of_nat k) ∧
    Buffer.GetAll cb' = Some (drop k [Examples.message "m1" 1; Examples.message "m2" 50]).
Proof.
  split; [exact ring_wf|]. split; [reflexivity|].
  destruct (RemoveOlderThan_removes_expired_prefix Scenes.ring 10 30 _ ring_wf eq_refl)
    as (cb' & k & Hrun & _ & _ & _ & Hall & _).
  exists cb', k. split; [exact Hrun | exact Hall].
Defined.

Lemma RemoveOlderThan_twice_witness :
  Buffer.wf Scenes.ring ∧
  ∃ cb' n, Buffer.RemoveOlderThan Scenes.ring 10 30 = Some (cb', n) ∧
    Buffer.RemoveOlderThan cb' 10 30 = Some (cb', 0).
Proof.
  split; [exact ring_wf|].
  assert (∃ cb' n, Buffer.RemoveOlderThan Scenes.ring 10 30 = Some (cb', n))
    as (cb' & n & Hrun) by (eexists _, _; vm_compute; reflexivity).
  exists cb', n. split; [exact Hrun|].
  exact (RemoveOlderThan_twice Scenes.ring cb' 10 30 n ring_wf Hrun).
Defined.

Lemma RemoveOlderThan_monotone_timestamps_witness :
  Buffer.wf Scenes.ring ∧
  Buffer.GetAll Scenes.ring = Some [Examples.message "m1" 1; Examples.message "m2" 50] ∧
  Go.min_int64 < 10 ∧
  ∃ cb' n l',
    Buffer.RemoveOlderThan Scenes.ring 10 30 = Some (cb', n) ∧
    Buffer.GetAll cb' = Some l' ∧
    Forall (λ m, 30 - Msg.Timestamp m < 10) l'.
Proof.
  assert (Go.min_int64 < 10) as Hd by (vm_compute; reflexivity).
  split; [exact ring_wf|]. split; [reflexivity|]. split; [exact Hd|].
  destruct (RemoveOlderThan_monotone_timestamps Scenes.ring 10 30 _ ring_wf eq_refl
              ring_sorted)
    as (cb' & n & l' & Hrun & Hall & _ & Hnew & _).
  exists cb', n, l'. split; [exact Hrun|]. split; [exact Hall | exact (Hnew Hd)].
Defined.

Lemma GetRecent_is_tail_witness :
  Buffer.wf Scenes.ring ∧
  Buffer.GetAll Scenes.ring = Some [Examples.message "m1" 1; Examples.message "m2" 50] ∧
  0 < 1 ∧
  Buffer.GetRecent Scenes.ring 1 =
    Some (Buffer.lastn (Z.to_nat 1) [Examples.message "m1" 1; Examples.message "m2" 50]).
Proof.
  split; [exact ring_wf|]. split; [reflexivity|]. split; [reflexivity|].
  exact (GetRecent_is_tail Scenes.ring 1 _ ring_wf eq_refl eq_refl).
Defined.

Lemma Adds_keeps_newest_witness :
  Buffer.wf Scenes.ring ∧
  Buffer.GetAll Scenes.ring = Some [Examples.message "m1" 1; Examples.message "m2" 50] ∧
  ∃ cb', Buffer.Adds Scenes.ring [Examples.message "m3" 60; Examples.message "m4" 70]
           = Some cb' ∧
    Buffer.GetAll cb' =
      Some (Buffer.lastn (Z.to_nat (Buffer.maxSize Scenes.ring))
              ([Examples.message "m1" 1; Examples.message "m2" 50] ++
               [Examples.message "m3" 60; Examples.message "m4" 70])).
Proof.
  split; [exact ring_wf|]. split; [reflexivity|].
  destruct (Adds_keeps_newest Scenes.ring _
              [Examples.message "m3" 60; Examples.message "m4" 70] ring_wf eq_refl)
    as (cb' & Hadds & _ & _ & Hall & _).
  exists cb'. split; [exact Hadds | exact Hall].
Defined.

Lemma Clear_then_appends_witness :
  Buffer.wf Scenes.ring ∧
  Buffer.GetAll (Buffer.Clear Scenes.ring) = Some [] ∧
  ∃ cb', Buffer.Adds (Buffer.Clear Scenes.ring) [Examples.message "m3" 60] = Some cb' ∧
    Buffer.GetAll cb' =
      Some (Buffer.lastn (Z.to_nat (Buffer.maxSize Scenes.ring)) [Examples.message "m3" 60]).
Proof.
  split; [exact ring_wf|].
  destruct (Clear_then_appends Scenes.ring [Examples.message "m3" 60] ring_wf)
    as (_ & Hall & Hadds).
  split; [exact Hall | exact Hadds].
Defined.


Lemma AddMessage_then_GetMessages_witness :
  Mgr.sound Scenes.hall ∧
  ∃ m' kept,
    Mgr.AddMessage Scenes.hall "s1" "a" "Ann" "hello" "id" 60 =
      Some (m', {| Msg.ID := "id"; Msg.StreamKey := "s1"; Msg.UserID := "a";
                   Msg.Username := "Ann"; Msg.Message := "hello"; Msg.Timestamp := 60 |}) ∧
    Mgr.GetMessages m' "s1" 0 =
      Some (kept ++ [{| Msg.ID := "id"; Msg.StreamKey := "s1"; Msg.UserID := "a";
                        Msg.Username := "Ann"; Msg.Message := "hello";
                        Msg.Timestamp := 60 |}]).
Proof.
  split; [exact hall_sound|].
  destruct (AddMessage_then_GetMessages Scenes.hall "s1" "a" "Ann" "hello" "id" 60
              hall_sound)
    as (m' & l & kept & Hadd & _ & _ & _ & Hall & _).
  exists m', kept. split; [exact Hadd | exact Hall].
Defined.

Lemma AddMessage_panics_without_capacity_witness :
  MaxMessagesPerStream (Mgr.config Scenes.broken) ≤ 0 ∧
  Mgr.rooms Scenes.broken !! "s1" = None ∧
  Mgr.AddMessage Scenes.broken "s1" "a" "Ann" "hello" "id" 60 = None.
Proof.
  assert (MaxMessagesPerStream (Mgr.config Scenes.broken) ≤ 0) as Hcap
    by (vm_compute; discriminate).
  split; [exact Hcap|]. split; [reflexivity|].
  exact (AddMessage_panics_without_capacity Scenes.broken "s1" "a" "Ann" "hello" "id" 60
           Hcap eq_refl).
Defined.

Lemma AddUser_respects_cap_witness :
  Mgr.sound Scenes.hall ∧
  ∃ m' err, Mgr.AddUser Scenes.hall "s1" "b" "Bob" 60 = Some (m', err) ∧ Mgr.sound m'.
Proof.
  split; [exact hall_sound|].
  destruct (AddUser_respects_cap Scenes.hall "s1" "b" "Bob" 60 hall_sound)
    as (m' & err & Hadd & Hsound & _).
  exists m', err. split; [exact Hadd | exact Hsound].
Defined.

Lemma RemoveUser_best_effort_witness :
  Mgr.roster (Mgr.RemoveUser Scenes.hall "s1" "a") "s1"
  = delete "a" (Mgr.roster Scenes.hall "s1").
Proof.
  exact (proj1 (RemoveUser_best_effort Scenes.hall "s1" "a")).
Defined.

Lemma performCleanup_reaps_deserted_rooms_witness :
  Mgr.sound Scenes.hall ∧
  ∃ m', Mgr.performCleanup Scenes.hall (100 * Go.Minute) = Some m' ∧ Mgr.sound m'.
Proof.
  split; [exact hall_sound|].
  destruct (performCleanup_reaps_deserted_rooms Scenes.hall (100 * Go.Minute) hall_sound)
    as (m' & Hrun & Hsound & _).
  exists m'. split; [exact Hrun | exact Hsound].
Defined.

Lemma performEmergencyCleanup_outside_the_lock_witness :
  Mgr.sound Scenes.hall ∧
  ∃ m', Mgr.performEmergencyCleanup Scenes.hall
          {| Mgr.readers := 0; Mgr.writer := false |} (100 * Go.Minute)
        = Mgr.Returned m' {| Mgr.readers := 0; Mgr.writer := false |} ∧
    ∀ streamKey, Mgr.roster m' streamKey = Mgr.roster Scenes.hall streamKey.
Proof.
  split; [exact hall_sound|].
  destruct (performEmergencyCleanup_outside_the_lock Scenes.hall (100 * Go.Minute)
              hall_sound)
    as (m' & Hrun & _ & Hroster & _).
  exists m'. split; [exact Hrun | exact Hroster].
Defined.

Lemma updateMemoryStats_never_evicts_witness :
  Mgr.writer Examples.unlocked = false ∧
  match Mgr.updateMemoryStats Scenes.hall Examples.unlocked 60 with
  | Mgr.Returned m' mu' =>
      Mgr.rooms m' = Mgr.rooms Scenes.hall ∧ Mgr.config m' = Mgr.config Scenes.hall ∧
      mu' = Examples.unlocked ∧ Mgr.IsCritical (Mgr.memTracker m') = false
  | Mgr.Blocked m' mu' =>
      Mgr.rooms m' = Mgr.rooms Scenes.hall ∧ Mgr.config m' = Mgr.config Scenes.hall ∧
      Mgr.IsCritical (Mgr.memTracker m') = true
  | Mgr.Panicked => False
  end.
Proof.
  split; [reflexivity|].
  exact (updateMemoryStats_never_evicts Scenes.hall Examples.unlocked 60 eq_refl).
Defined.

Lemma offender_parallel u r :
  Limiter.userRecords Examples.offender !! u = Some r → Limiter.parallel r.
Proof.
  unfold Examples.offender. cbn [Limiter.userRecords].
  intros [_ <-]%lookup_singleton_Some. split; reflexivity.
Qed.

Lemma records_stay_parallel_witness :
  (∀ u r, Limiter.userRecords Examples.offender !! u = Some r → Limiter.parallel r) ∧
  ∀ u r,
    Limiter.userRecords
      (Limiter.step lower trim Examples.offender
         (Limiter.Ask "u" "hi" (100 * Go.Second))).1 !! u = Some r →
    Limiter.parallel r.
Proof.
  split; [exact offender_parallel|].
  exact (records_stay_parallel lower trim Examples.offender
           [Limiter.Ask "u" "hi" (100 * Go.Second)] offender_parallel 0%nat _ _ eq_refl).
Defined.

Lemma allowed_message_is_within_limits_witness :
  (Examples.check Examples.fresh "u" "hi" (100 * Go.Second)).2.1 = true ∧
  Go.len "hi" ≤ MaxCharactersPerMessage (Limiter.config Examples.fresh).
Proof.
  assert ((Examples.check Examples.fresh "u" "hi" (100 * Go.Second)).2.1 = true) as Hok
    by (vm_compute; reflexivity).
  split; [exact Hok|].
  exact (proj1 (allowed_message_is_within_limits lower trim Examples.fresh "u" "hi"
                  (100 * Go.Second) Hok)).
Defined.

Lemma GetTimeoutStatus_agrees_with_CheckMessage_witness :
  Go.zeroTime ≤ 20 * Go.Second ∧
  ((Limiter.GetTimeoutStatus Examples.offender "u" (20 * Go.Second)).1 = true ↔
   Code <$> (Examples.check Examples.offender "u" "hi" (20 * Go.Second)).2.2
     = Some "TIMEOUT").
Proof.
  assert (Go.zeroTime ≤ 20 * Go.Second) as Hnow by (vm_compute; discriminate).
  split; [exact Hnow|].
  exact (proj1 (GetTimeoutStatus_agrees_with_CheckMessage lower trim Examples.offender
                  "u" "hi" (20 * Go.Second) Hnow)).
Defined.

Lemma burst_dissimilar (i j : nat) (a b : string) :
  (i < j)%nat →
  ["alpha"; "bravo"; "charlie"; "delta"; "echo"; "foxtrot"] !! i = Some a →
  ["alpha"; "bravo"; "charlie"; "delta"; "echo"; "foxtrot"] !! j = Some b →
  Tiers.similar lower trim a b = false.
Proof.
  intros Hlt Hi Hj.
  do 6 (destruct i as [|i];
        [do 6 (destruct j as [|j];
               [first [lia | injection Hi as <-; injection Hj as <-; vm_compute; reflexivity]
               |]);
         discriminate Hj|]).
  discriminate Hi.
Qed.

Lemma sixth_message_of_a_burst_is_rate_limited_witness :
  Forall (λ m, Go.len m ≤ 100 ∧ Go.len m ≤ MaxCharactersPerMessage DefaultConfig)
         ["alpha"; "bravo"; "charlie"; "delta"; "echo"; "foxtrot"] ∧
  6 * Go.Second - 1 * Go.Second < 10 * Go.Second ∧
  ∃ rl r,
    Limiter.run lower trim (Limiter.NewRateLimiter DefaultConfig)
        [Limiter.Ask "u" "alpha" (1 * Go.Second); Limiter.Ask "u" "bravo" (2 * Go.Second);
         Limiter.Ask "u" "charlie" (3 * Go.Second); Limiter.Ask "u" "delta" (4 * Go.Second);
         Limiter.Ask "u" "echo" (5 * Go.Second); Limiter.Ask "u" "foxtrot" (6 * Go.Second)]
    !! 5%nat = Some (rl, Some (false, Some {| Code := "RATE_LIMIT";
                                 Message := "Slow down! (30 second cooldown)" |})) ∧
    Limiter.userRecords rl !! "u" = Some r ∧
    Limiter.Violations r = 1.
Proof.
  assert (Forall (λ m, Go.len m ≤ 100 ∧ Go.len m ≤ MaxCharactersPerMessage DefaultConfig)
            ["alpha"; "bravo"; "charlie"; "delta"; "echo"; "foxtrot"]) as Hlen
    by (repeat constructor; vm_compute; discriminate).
  assert (6 * Go.Second - 1 * Go.Second < 10 * Go.Second) as Hwin
    by (vm_compute; reflexivity).
  split; [exact Hlen|]. split; [exact Hwin|].
  destruct (sixth_message_of_a_burst_is_rate_limited lower trim DefaultConfig "u"
              "alpha" "bravo" "charlie" "delta" "echo" "foxtrot"
              (1 * Go.Second) (2 * Go.Second) (3 * Go.Second)
              (4 * Go.Second) (5 * Go.Second) (6 * Go.Second)
              Hlen burst_dissimilar
              ltac:(vm_compute; discriminate) ltac:(vm_compute; discriminate)
              ltac:(vm_compute; discriminate) ltac:(vm_compute; discriminate)
              ltac:(vm_compute; discriminate) ltac:(vm_compute; discriminate) Hwin)
    as (rl & r & Hrun & _ & Hr & _ & _ & _ & Hv).
  exists rl, r. split; [exact Hrun|]. split; [exact Hr | exact Hv].
Defined.

Lemma lobby_open (ch : nat) : ch ∉ WS.closed Scenes.lobby.
Proof. unfold Scenes.lobby. cbn [WS.closed]. apply not_elem_of_empty. Qed.

Lemma broadcastToRoom_reaches_the_room_witness :
  (∀ k1 k2 c1 c2, WS.connections Scenes.lobby !! k1 = Some c1 →
     WS.connections Scenes.lobby !! k2 = Some c2 → WS.Send c1 = WS.Send c2 → k1 = k2) ∧
  (∀ k conn, WS.connections Scenes.lobby !! k = Some conn →
     WS.StreamKey conn = WS.StreamKey Examples.ann →
     WS.Send conn ∉ WS.closed Scenes.lobby) ∧
  WS.connections Scenes.lobby !! "b" = Some Scenes.bob ∧
  ∃ h', WS.broadcastToRoom Scenes.lobby Examples.ann
          {| WS.Type_ := "message"; WS.Data := WS.NoData;
             WS.Error := EmptyString; WS.Timestamp := 60 |} = WS.Returned h' ∧
    WS.queue (WS.chans h') (WS.Send Scenes.bob) =
      if String.eqb (WS.StreamKey Scenes.bob) (WS.StreamKey Examples.ann)
         && (length (WS.queue (WS.chans Scenes.lobby) (WS.Send Scenes.bob))
             <? WS.sendCapacity)%nat
      then WS.queue (WS.chans Scenes.lobby) (WS.Send Scenes.bob) ++
             [{| WS.Type_ := "message"; WS.Data := WS.NoData;
                 WS.Error := EmptyString; WS.Timestamp := 60 |}]
      else WS.queue (WS.chans Scenes.lobby) (WS.Send Scenes.bob).
Proof.
  assert (WS.connections Scenes.lobby !! "b" = Some Scenes.bob) as Hb
    by (vm_compute; reflexivity).
  assert (∀ k conn, WS.connections Scenes.lobby !! k = Some conn →
            WS.StreamKey conn = WS.StreamKey Examples.ann →
            WS.Send conn ∉ WS.closed Scenes.lobby) as Hopen
    by (intros k conn _ _; apply lobby_open).
  split; [exact lobby_channels|]. split; [exact Hopen|]. split; [exact Hb|].
  destruct (proj1 (broadcastToRoom_reaches_the_room Scenes.lobby Examples.ann
                     {| WS.Type_ := "message"; WS.Data := WS.NoData;
                        WS.Error := EmptyString; WS.Timestamp := 60 |})
              lobby_channels Hopen)
    as (h' & Hrun & _ & _ & _ & _ & Hin & _).
  exists h'. split; [exact Hrun|]. exact (Hin "b" Scenes.bob Hb).
Defined.

Lemma broadcastToRoomExcept_skips_the_user_witness :
  (∀ k1 k2 c1 c2, WS.connections Scenes.lobby !! k1 = Some c1 →
     WS.connections Scenes.lobby !! k2 = Some c2 → WS.Send c1 = WS.Send c2 → k1 = k2) ∧
  (∀ k conn, WS.connections Scenes.lobby !! k = Some conn →
     WS.StreamKey conn = WS.StreamKey Examples.ann → WS.UserID conn ≠ "a" →
     WS.Send conn ∉ WS.closed Scenes.lobby) ∧
  WS.connections Scenes.lobby !! "a" = Some Examples.ann ∧
  ∃ h', WS.broadcastToRoomExcept Scenes.lobby Examples.ann
          {| WS.Type_ := "typing"; WS.Data := WS.NoData;
             WS.Error := EmptyString; WS.Timestamp := 60 |} "a" = WS.Returned h' ∧
    WS.queue (WS.chans h') (WS.Send Examples.ann)
    = WS.queue (WS.chans Scenes.lobby) (WS.Send Examples.ann).
Proof.
  assert (WS.connections Scenes.lobby !! "a" = Some Examples.ann) as Ha
    by (vm_compute; reflexivity).
  assert (∀ k conn, WS.connections Scenes.lobby !! k = Some conn →
            WS.StreamKey conn = WS.StreamKey Examples.ann → WS.UserID conn ≠ "a" →
            WS.Send conn ∉ WS.closed Scenes.lobby) as Hopen
    by (intros k conn _ _ _; apply lobby_open).
  split; [exact lobby_channels|]. split; [exact Hopen|]. split; [exact Ha|].
  destruct (proj1 (broadcastToRoomExcept_skips_the_user Scenes.lobby Examples.ann
                     {| WS.Type_ := "typing"; WS.Data := WS.NoData;
                        WS.Error := EmptyString; WS.Timestamp := 60 |} "a")
              lobby_channels Hopen)
    as (h' & Hrun & Hin).
  exists h'. split; [exact Hrun|]. exact (proj1 (Hin "a" Examples.ann Ha) eq_refl).
Defined.

Lemma lobby_sound : Mgr.sound (WS.manager Scenes.lobby).
Proof.
  split; [vm_compute; discriminate|].
  intros streamKey room Hroom. unfold Scenes.lobby, Examples.emptyManager in Hroom.
  cbn [WS.manager Mgr.rooms] in Hroom. by rewrite lookup_empty in Hroom.
Qed.

Lemma allowed_message_is_stored_and_broadcast_witness :
  Mgr.sound (WS.manager Scenes.lobby) ∧
  WS.UserID Examples.ann ≠ EmptyString ∧
  (Examples.check (WS.rateLimiter Scenes.lobby) (WS.UserID Examples.ann) "hello" 60).2.1
    = true ∧
  ∃ h' kept,
    WS.handleChatMessage lower trim Scenes.lobby Examples.ann (Examples.frame "hello")
      "id" 60 = WS.Returned h' ∧
    Mgr.GetMessages (WS.manager h') (WS.StreamKey Examples.ann) 0 =
      Some (kept ++ [{| Msg.ID := "id"; Msg.StreamKey := WS.StreamKey Examples.ann;
                        Msg.UserID := WS.UserID Examples.ann;
                        Msg.Username := WS.Username Examples.ann;
                        Msg.Message := "hello"; Msg.Timestamp := 60 |}]).
Proof.
  assert (WS.UserID Examples.ann ≠ EmptyString) as Hid by (vm_compute; discriminate).
  assert ("hello" ≠ EmptyString) as Hne by discriminate.
  assert ((Examples.check (WS.rateLimiter Scenes.lobby) (WS.UserID Examples.ann)
             "hello" 60).2.1 = true) as Hok by (vm_compute; reflexivity).
  split; [exact lobby_sound|]. split; [exact Hid|]. split; [exact Hok|].
  destruct (proj1 (allowed_message_is_stored_and_broadcast lower trim Scenes.lobby
                     Examples.ann (Examples.frame "hello")
                     {[ "message" := WS.VString "hello" ]} "hello" "id" 60
                     lobby_sound Hid eq_refl eq_refl Hne Hok)
              lobby_channels (λ k conn _ _, lobby_open (WS.Send conn)))
    as (h' & l & kept & Hrun & _ & _ & _ & _ & _ & Hall & _).
  exists h', kept. split; [exact Hrun | exact Hall].
Defined.

Lemma malformed_message_only_answers_the_sender_witness :
  WS.UserID Scenes.guest = EmptyString ∧
  (WS.Send Scenes.guest ∉ WS.closed Scenes.lobby) ∧
  (length (WS.queue (WS.chans Scenes.lobby) (WS.Send Scenes.guest))
   < WS.sendCapacity)%nat ∧
  ∃ h' errorMsg,
    WS.handleChatMessage lower trim Scenes.lobby Scenes.guest (Examples.frame "hello")
      "id" 60 = WS.Returned h' ∧
    WS.manager h' = WS.manager Scenes.lobby ∧
    WS.rateLimiter h' = WS.rateLimiter Scenes.lobby ∧
    WS.queue (WS.chans h') (WS.Send Scenes.guest) =
      WS.queue (WS.chans Scenes.lobby) (WS.Send Scenes.guest) ++
        [{| WS.Type_ := "error"; WS.Data := WS.NoData; WS.Error := errorMsg;
            WS.Timestamp := 60 |}].
Proof.
  assert ((length (WS.queue (WS.chans Scenes.lobby) (WS.Send Scenes.guest))
           < WS.sendCapacity)%nat) as Hroom by (vm_compute; lia).
  split; [reflexivity|]. split; [apply lobby_open|]. split; [exact Hroom|].
  destruct (proj1 (malformed_message_only_answers_the_sender lower trim Scenes.lobby
                     Scenes.guest (Examples.frame "hello") "id" 60 (or_introl eq_refl)
                     (lobby_open _)) Hroom)
    as (h' & e & Hrun & Hm & Hrl & _ & Hq & _).
  exists h', e. split; [exact Hrun|]. split; [exact Hm|]. split; [exact Hrl | exact Hq].
Defined.

Lemma GetUsers_lists_the_roster_witness :
  Z.of_nat (length (Mgr.GetUsers Scenes.hall "s1")) = Mgr.GetUserCount Scenes.hall "s1".
Proof.
  exact (proj1 (GetUsers_lists_the_roster Scenes.hall "s1")).
Defined.

Lemma CalculateCapacity_fits_the_envelope_witness :
  0 ≤ MaxTotalMemoryMB DefaultConfig ≤ 2 ^ 40 ∧
  0 ≤ MaxMessagesPerStream DefaultConfig ≤ 2 ^ 50 ∧
  0 ≤ MaxUsersPerStream DefaultConfig ≤ 2 ^ 50 ∧
  0 < MaxMessagesPerStream DefaultConfig + MaxUsersPerStream DefaultConfig ∧
  ∃ cap, Config.CalculateCapacity DefaultConfig = Some cap ∧
    Config.estimated_max_streams cap
      * (MaxMessagesPerStream DefaultConfig * 500 + MaxUsersPerStream DefaultConfig * 200)
    ≤ MaxTotalMemoryMB DefaultConfig * 1048576.
Proof.
  assert (0 ≤ MaxTotalMemoryMB DefaultConfig ≤ 2 ^ 40) as H1
    by (split; vm_compute; discriminate).
  assert (0 ≤ MaxMessagesPerStream DefaultConfig ≤ 2 ^ 50) as H2
    by (split; vm_compute; discriminate).
  assert (0 ≤ MaxUsersPerStream DefaultConfig ≤ 2 ^ 50) as H3
    by (split; vm_compute; discriminate).
  assert (0 < MaxMessagesPerStream DefaultConfig + MaxUsersPerStream DefaultConfig) as H4
    by (vm_compute; reflexivity).
  split; [exact H1|]. split; [exact H2|]. split; [exact H3|]. split; [exact H4|].
  destruct (CalculateCapacity_fits_the_envelope DefaultConfig H1 H2 H3 H4)
    as (cap & Hcap & _ & Hfit & _).
  exists cap. split; [exact Hcap | exact Hfit].
Defined.

Lemma CalculateCapacity_panics_iff_estimate_is_zero_witness :
  0 ≤ MaxMessagesPerStream (Mgr.config Scenes.broken) ≤ 2 ^ 50 ∧
  0 ≤ MaxUsersPerStream (Mgr.config Scenes.broken) ≤ 2 ^ 50 ∧
  (Config.CalculateCapacity (Mgr.config Scenes.broken) = None ↔
   MaxMessagesPerStream (Mgr.config Scenes.broken) = 0 ∧
   MaxUsersPerStream (Mgr.config Scenes.broken) = 0) ∧
  Config.CalculateCapacity Scenes.huge = None.
Proof.
  assert (0 ≤ MaxMessagesPerStream (Mgr.config Scenes.broken) ≤ 2 ^ 50) as H1
    by (split; vm_compute; discriminate).
  assert (0 ≤ MaxUsersPerStream (Mgr.config Scenes.broken) ≤ 2 ^ 50) as H2
    by (split; vm_compute; discriminate).
  split; [exact H1|]. split; [exact H2|]. split.
  - exact (proj2 (CalculateCapacity_panics_iff_estimate_is_zero
                    (Mgr.config Scenes.broken)) H1 H2).
  - apply (proj1 (CalculateCapacity_panics_iff_estimate_is_zero Scenes.huge)).
    vm_compute. reflexivity.
Defined.

Lemma unusable_values (key val : string) :
  Scenes.unusable !! key = Some val →
  val = EmptyString ∨
  (Scenes.atoi val = None ∧
   key ∉ ["CHAT_ENABLE_VIEWER_LIST"; "CHAT_ENABLE_MENTIONS";
          "CHAT_ENABLE_TYPING_STATUS"; "CHAT_ENABLE_EMOJIS"]).
Proof.
  unfold Scenes.unusable. rewrite lookup_insert_Some, lookup_singleton_Some.
  intros [[<- <-]|[_ [<- <-]]]; [right|by left].
  split; [reflexivity|]. rewrite !elem_of_cons, elem_of_nil.
  intros [?|[?|[?|[?|[]]]]]; discriminate.
Qed.

Lemma LoadFromEnv_keeps_defaults_witness :
  (∀ key val, Scenes.unusable !! key = Some val →
     val = EmptyString ∨
     (Scenes.atoi val = None ∧
      key ∉ ["CHAT_ENABLE_VIEWER_LIST"; "CHAT_ENABLE_MENTIONS";
             "CHAT_ENABLE_TYPING_STATUS"; "CHAT_ENABLE_EMOJIS"])) ∧
  Config.LoadFromEnv Scenes.atoi Scenes.unusable = DefaultConfig.
Proof.
  split; [exact unusable_values|].
  exact (LoadFromEnv_keeps_defaults Scenes.atoi Scenes.unusable unusable_values).
Defined.

Lemma LoadFromEnv_does_not_validate_witness :
  Scenes.noCapacity !! "CHAT_MAX_MESSAGES_PER_STREAM" = Some "0" ∧
  "0" ≠ EmptyString ∧ Scenes.atoi "0" = Some 0 ∧ 0 ≤ 0 ∧
  Mgr.config Scenes.broken = Config.LoadFromEnv Scenes.atoi Scenes.noCapacity ∧
  Mgr.rooms Scenes.broken !! "s1" = None ∧
  Mgr.AddMessage Scenes.broken "s1" "a" "Ann" "hello" "id" 60 = None.
Proof.
  assert ("0" ≠ EmptyString) as Hne by discriminate.
  assert (0 ≤ 0) as Hn by reflexivity.
  split; [reflexivity|]. split; [exact Hne|]. split; [reflexivity|]. split; [exact Hn|].
  split; [reflexivity|]. split; [reflexivity|].
  exact (proj2 (proj2 (LoadFromEnv_does_not_validate Scenes.atoi Scenes.noCapacity "0" 0
                         Scenes.broken "s1" "a" "Ann" "hello" "id" 60
                         eq_refl Hne eq_refl Hn eq_refl eq_refl))).
Defined.

End MoreRuns.
